(** * Modulate-Server: token verification and the two-phase report protocol

    A shallow embedding of [src/auth.ts] and [src/routes/reports.ts]
    (with the composition that [src/index.ts] sets up), and the properties
    of the specification stated and settled over it.

    The worker is JavaScript: request bodies are parsed JSON values, handlers
    read and write a process-wide key-set cache, call the storage and
    database services and may throw.  Values are modelled by [JsValue],
    effects by a state-and-exception monad [Eff] over a [World] that holds
    the cache, the reports table and a trace of the calls made to the
    collaborators. *)

From Stdlib Require Import String Ascii List ZArith Lia Bool DecimalString.
Import ListNotations.
Local Open Scope string_scope.
Local Open Scope Z_scope.

(* ================================================================== *)
(** ** JavaScript values *)

(** What [JSON.parse] can produce, plus [undefined] (a missing property).
    Numbers are integers here: the handlers never compute with them, they
    only test them for truthiness and pass them on.  [JObj] lists the own
    properties of an object, each key once. *)
#[warnings="-register-all"] Inductive JsValue : Type :=
| JUndefined
| JNull
| JBool (b : bool)
| JNum (n : Z)
| JStr (s : string)
| JArr (items : list JsValue)
| JObj (fields : list (string * JsValue)).

(** [Boolean(v)], which is also what [!v], [v || w] and [if (v)] test. *)
Definition ToBoolean (v : JsValue) : bool :=
  match v with
  | JUndefined | JNull => false
  | JBool b => b
  | JNum n => negb (n =? 0)
  | JStr s => negb (s =? "")%string
  | JArr _ | JObj _ => true
  end.

Section Join.
Variable str : JsValue -> string.

(** One element of [Array.prototype.join]: [undefined] and [null] give
    the empty string. *)
Definition join_item (v : JsValue) : string :=
  match v with
  | JUndefined | JNull => ""
  | _ => str v
  end.

Fixpoint join_with (sep : string) (l : list JsValue) : string :=
  match l with
  | [] => ""
  | [v] => join_item v
  | v :: rest => join_item v ++ sep ++ join_with sep rest
  end.
End Join.

Definition Number_toString (n : Z) : string :=
  NilZero.string_of_int (Z.to_int n).

(** [String(v)], as [join] applies it.  It is JavaScript's result for
    strings, booleans, integers below 10^21 in magnitude, arrays of such
    values and objects that have no property named [toString] or
    [valueOf] of their own; for an object that has one JavaScript throws,
    and it prints larger numbers with an exponent.  The properties below
    that depend on it are stated for path fields that are strings or left
    out. *)
Fixpoint ToString (v : JsValue) : string :=
  match v with
  | JUndefined => "undefined"
  | JNull => "null"
  | JBool true => "true"
  | JBool false => "false"
  | JNum n => Number_toString n
  | JStr s => s
  | JArr items => join_with ToString "," items
  | JObj _ => "[object Object]"
  end.

(** [arr.join(sep)] *)
Definition Array_join (sep : string) (l : list JsValue) : string :=
  join_with ToString sep l.

(** [v || null] *)
Definition or_null (v : JsValue) : JsValue :=
  if ToBoolean v then v else JNull.

(** [v !== undefined ? v : null] *)
Definition defined_or_null (v : JsValue) : JsValue :=
  match v with
  | JUndefined => JNull
  | _ => v
  end.

Fixpoint lookup (k : string) (fields : list (string * JsValue)) : JsValue :=
  match fields with
  | [] => JUndefined
  | (k', v) :: rest => if (k' =? k)%string then v else lookup k rest
  end.

(** Outcome of a JavaScript computation: a value, or a thrown [Error]
    carrying its message. *)
Inductive outcome (A : Type) : Type :=
| Returned (a : A)
| Thrown (message : string).
Arguments Returned {A} a.
Arguments Thrown {A} message.

(** Property read [v.k] for the keys the handlers use (none of them is a
    property of a String, Number, Boolean or Array prototype): reading from
    [null] throws a TypeError, reading from any other non-object yields
    [undefined]. *)
Definition get_prop (v : JsValue) (k : string) : outcome JsValue :=
  match v with
  | JNull | JUndefined =>
      Thrown ("Cannot read properties of null (reading '" ++ k ++ "')")
  | JObj fields => Returned (lookup k fields)
  | _ => Returned JUndefined
  end.

(** [s.split(c)] for a one-character separator. *)
Fixpoint split (sep : ascii) (s : string) : list string :=
  match s with
  | EmptyString => [EmptyString]
  | String c rest =>
      if Ascii.eqb c sep then EmptyString :: split sep rest
      else match split sep rest with
           | [] => [String c EmptyString]
           | p :: ps => String c p :: ps
           end
  end.

(** [!s] for a value that is a string or [undefined]. *)
Definition falsy (s : option string) : bool :=
  match s with
  | None => true
  | Some s => (s =? "")%string
  end.

(* ================================================================== *)
(** ** Collaborators and the world the worker runs in *)

(** The handle [createRemoteJWKSet(url)] returns: the key set published at
    [url]. *)
Inductive RemoteJWKSet : Type :=
| RemoteJWKS (url : string).

(** [JWKSCache] of auth.ts: [jwks] is [null] until the first resolution. *)
Record JWKSCache : Type := {
  jwks : option RemoteJWKSet;
  timestamp : Z
}.

(** [SupabaseJWTPayload] of types.ts; [sub] is optional here because
    [verifyToken] tests it. *)
Record JWTPayload : Type := {
  sub : option string;
  email : option string;
  role : option string;
  iss : option string;
  aud : option string;
  exp : option Z;
  iat : option Z
}.

(** What [createSignedUploadUrl] resolves to (supabase-js):
    [{ data: { signedUrl, token, path } | null, error }].  The library
    declares the three fields of [data] as strings, so [token ?? null] in
    the handler is the token. *)
Record SignedUpload : Type := {
  signedUrl : string;
  token : string;
  path : string
}.

Record StorageResponse : Type := {
  data : option SignedUpload;
  error : option string
}.

(** [reportData] of the [/complete] handler, the row handed to [insert]. *)
Record ReportData : Type := {
  id : JsValue;
  user_id : string;
  game_name : JsValue;
  offender_name : JsValue;
  description : JsValue;
  targeted : JsValue;
  desired_action : JsValue;
  recording_start_utc : JsValue;
  flag_utc : JsValue;
  clip_start_offset_sec : JsValue;
  clip_end_offset_sec : JsValue;
  audio_path : JsValue;
  video_path : JsValue;
  forwarded_to_modulate : bool
}.

(** The services outside the worker, as the worker sees them:
    - [URL_parses s]: [new URL(s)] does not throw;
    - [jws_verify token keys]: the claims of [token] when its signature
      verifies against the key set [keys], [None] otherwise;
    - [createSignedUploadUrl bucket path]: the storage service's answer;
    - [insert_error table row]: the error message of the database when it
      refuses [row], [None] when it stores it. *)
Record Services : Type := {
  URL_parses : string -> bool;
  jws_verify : string -> RemoteJWKSet -> option JWTPayload;
  createSignedUploadUrl : string -> string -> StorageResponse;
  insert_error : list ReportData -> ReportData -> option string
}.

(** Calls that leave the handler, in the order they are made. *)
Inductive Event : Type :=
| EvCreateRemoteJWKSet (url : string)
| EvJwtVerify (token : string)
| EvRandomUUID (uuid : string)
| EvCreateSignedUploadUrl (bucket path : string)
| EvInsert (row : ReportData).

Record World : Type := {
  jwksCache : JWKSCache;
  reports_table : list ReportData;
  trace : list Event
}.

(** The state of a fresh worker: [jwksCache = { jwks: null, timestamp: 0 }],
    nothing stored, nothing called. *)
Definition initial_world : World :=
  {| jwksCache := {| jwks := None; timestamp := 0 |};
     reports_table := [];
     trace := [] |}.

(* ================================================================== *)
(** ** Effects: state passing with exceptions *)

Definition Eff (A : Type) : Type := World -> outcome A * World.

Definition ret {A} (a : A) : Eff A := fun w => (Returned a, w).

Definition throw {A} (message : string) : Eff A := fun w => (Thrown message, w).

Definition bind {A B} (m : Eff A) (k : A -> Eff B) : Eff B :=
  fun w =>
    match m w with
    | (Returned a, w') => k a w'
    | (Thrown e, w') => (Thrown e, w')
    end.

(** [try { m } catch (error) { handler(error.message) }] *)
Definition try_catch {A} (m : Eff A) (handler : string -> Eff A) : Eff A :=
  fun w =>
    match m w with
    | (Returned a, w') => (Returned a, w')
    | (Thrown e, w') => handler e w'
    end.

(** A pure computation that may throw. *)
Definition lift {A} (o : outcome A) : Eff A := fun w => (o, w).

Definition emit (e : Event) : Eff unit :=
  fun w =>
    (Returned tt,
     {| jwksCache := jwksCache w;
        reports_table := reports_table w;
        trace := trace w ++ [e] |}).

Definition read_cache : Eff JWKSCache := fun w => (Returned (jwksCache w), w).

Definition write_cache (c : JWKSCache) : Eff unit :=
  fun w =>
    (Returned tt,
     {| jwksCache := c;
        reports_table := reports_table w;
        trace := trace w |}).

Notation "x <- m ;; k" := (bind m (fun x => k))
  (at level 61, m at next level, right associativity).
Notation "m ;;; k" := (bind m (fun _ => k))
  (at level 61, right associativity).

(* ================================================================== *)
(** ** auth.ts *)

Definition JWKS_CACHE_TTL : Z := 3600000.

(** [`${supabaseUrl}/auth/v1/.well-known/jwks.json`] *)
Definition jwks_location (supabaseUrl : string) : string :=
  supabaseUrl ++ "/auth/v1/.well-known/jwks.json".

(** [`${supabaseUrl}/auth/v1`] *)
Definition issuer_of (supabaseUrl : string) : string :=
  supabaseUrl ++ "/auth/v1".

(** [new URL(s)] *)
Definition new_URL (sv : Services) (s : string) : Eff string :=
  if URL_parses sv s then ret s else throw "Invalid URL".

(** The body of the [if] in [getJWKS]: build a new remote key set and
    replace both fields of the cache. *)
Definition refresh_jwks (sv : Services) (supabaseUrl : string) (now : Z)
  : Eff RemoteJWKSet :=
  jwksUrl <- new_URL sv (jwks_location supabaseUrl) ;;
  emit (EvCreateRemoteJWKSet jwksUrl) ;;;
  write_cache {| jwks := Some (RemoteJWKS jwksUrl); timestamp := now |} ;;;
  ret (RemoteJWKS jwksUrl).

(** [!jwksCache.jwks || (now - jwksCache.timestamp) > JWKS_CACHE_TTL] *)
Definition needs_refresh (cache : JWKSCache) (now : Z) : bool :=
  match jwks cache with
  | None => true
  | Some _ => now - timestamp cache >? JWKS_CACHE_TTL
  end.

(** [getJWKS]: [now] is what [Date.now()] returns. *)
Definition getJWKS (sv : Services) (supabaseUrl : string) (now : Z)
  : Eff RemoteJWKSet :=
  cache <- read_cache ;;
  match jwks cache with
  | None => refresh_jwks sv supabaseUrl now
  | Some keys =>
      if needs_refresh cache now then refresh_jwks sv supabaseUrl now
      else ret keys
  end.

Record VerifyOptions : Type := {
  issuer : string;
  audience : string
}.

Definition claim_is (c : option string) (expected : string) : bool :=
  match c with
  | Some v => (v =? expected)%string
  | None => false
  end.

(** The expiry check: a token is expired when it carries an [exp] claim
    (seconds) that is not after the current time ([now] in milliseconds). *)
Definition expired (p : JWTPayload) (now : Z) : bool :=
  match exp p with
  | Some e => e <=? now / 1000
  | None => false
  end.

(** Modelled from the spec: [jwtVerify] belongs to the jose library, which
    is not under src/.  Section 4.1: it verifies the signature against the
    resolved key set, checks that the issuer claim and the audience claim
    equal the expected ones and that the token has not expired, and throws
    with a readable cause otherwise.  The signature check itself is the
    service [jws_verify]. *)
Definition jwtVerify (sv : Services) (token : string) (keys : RemoteJWKSet)
    (options : VerifyOptions) (now : Z) : Eff JWTPayload :=
  emit (EvJwtVerify token) ;;;
  match jws_verify sv token keys with
  | None => throw "signature verification failed"
  | Some payload =>
      if negb (claim_is (iss payload) (issuer options)) then
        throw "unexpected iss claim value"
      else if negb (claim_is (aud payload) (audience options)) then
        throw "unexpected aud claim value"
      else if expired payload now then
        throw "exp claim timestamp check failed"
      else ret payload
  end.

(** The [try] block of [verifyToken]. *)
Definition verify_bearer (sv : Services) (token : string)
    (supabaseUrl : string) (now : Z) : Eff (string * JWTPayload) :=
  keys <- getJWKS sv supabaseUrl now ;;
  payload <- jwtVerify sv token keys
               {| issuer := issuer_of supabaseUrl;
                  audience := "authenticated" |} now ;;
  match sub payload with
  | None => throw "Token missing sub claim"
  | Some s =>
      if (s =? "")%string then throw "Token missing sub claim"
      else ret (s, payload)
  end.

(** [verifyToken]: the two header checks, then the [try] block, whose
    [catch] rethrows every error as "JWT verification failed: ...". *)
Definition verifyToken (sv : Services) (authHeader : option string)
    (supabaseUrl : string) (now : Z) : Eff (string * JWTPayload) :=
  match authHeader with
  | None => throw "Missing Authorization header"
  | Some header =>
      if (header =? "")%string then throw "Missing Authorization header"
      else
        match split " " header with
        | [scheme; token] =>
            if negb (scheme =? "Bearer")%string then
              throw "Invalid Authorization header format. Expected: Bearer <token>"
            else
              try_catch
                (verify_bearer sv token supabaseUrl now)
                (fun message => throw ("JWT verification failed: " ++ message))
        | _ =>
            throw "Invalid Authorization header format. Expected: Bearer <token>"
        end
  end.

(* ================================================================== *)
(** ** The request context *)

(** [Env] of types.ts; a binding that is not configured is [undefined]. *)
Record Env : Type := {
  SUPABASE_URL : option string;
  SUPABASE_SERVICE_ROLE_KEY : option string
}.

(** The part of Hono's context the handlers use: the [Authorization]
    header, the outcome of [c.req.json()] ([None] when it throws: no body,
    or a body that is not JSON), the bindings, and the variable [userId]
    that [c.set] writes and [c.get] reads. *)
Record Context : Type := {
  authorization : option string;
  req_json : option JsValue;
  env : Env;
  userId : option string
}.

Definition set_userId (u : string) (c : Context) : Context :=
  {| authorization := authorization c;
     req_json := req_json c;
     env := env c;
     userId := Some u |}.

Record Response : Type := {
  status : Z;
  body : JsValue
}.

(** [c.json(object, status)] *)
Definition json (object : JsValue) (code : Z) : Response :=
  {| status := code; body := object |}.

Definition error_body (message : string) : JsValue :=
  JObj [("error", JStr message)].

(** [app.onError] of index.ts. *)
Definition onError (message : string) : Response :=
  json (JObj [("error", JStr "Internal server error");
              ("message", JStr message)]) 500.

(** Hono runs every handler of a route inside a [try] whose [catch] hands
    the error to [app.onError]; a handler that throws therefore makes the
    [next()] of the middleware before it return normally, with the 500
    response set. *)
Definition dispatch (handler : Context -> Eff Response) (c : Context)
  : Eff Response :=
  try_catch (handler c) (fun message => ret (onError message)).

(** [authMiddleware] *)
Definition authMiddleware (sv : Services) (now : Z)
    (next : Context -> Eff Response) (c : Context) : Eff Response :=
  match SUPABASE_URL (env c) with
  | None =>
      ret (json (error_body "Server configuration error: Missing SUPABASE_URL") 500)
  | Some supabaseUrl =>
      if (supabaseUrl =? "")%string then
        ret (json (error_body "Server configuration error: Missing SUPABASE_URL") 500)
      else
        try_catch
          (verified <- verifyToken sv (authorization c) supabaseUrl now ;;
           next (set_userId (fst verified) c))
          (fun message => ret (json (error_body message) 401))
  end.

(* ================================================================== *)
(** ** routes/reports.ts *)

(** [supabase.storage.from(bucket).createSignedUploadUrl(path)] *)
Definition sign_upload (sv : Services) (bucket path : string)
  : Eff StorageResponse :=
  emit (EvCreateSignedUploadUrl bucket path) ;;;
  ret (createSignedUploadUrl sv bucket path).

(** The grant of a response when [error || !data?.signedUrl] is false. *)
Definition granted (r : StorageResponse) : option SignedUpload :=
  match error r with
  | Some _ => None
  | None =>
      match data r with
      | None => None
      | Some d => if (signedUrl d =? "")%string then None else Some d
      end
  end.

(** [crypto.randomUUID()]; [uuid] is what the platform draws. *)
Definition randomUUID (uuid : string) : Eff string :=
  emit (EvRandomUUID uuid) ;;; ret uuid.

Definition prop (v : JsValue) (k : string) : Eff JsValue :=
  lift (get_prop v k).

(** The object the [/init] handler returns with status 200. *)
Definition init_response (reportId : string) (audio : SignedUpload)
    (audioPath : string)
    (microphoneUploadUrl microphoneUploadToken microphonePath : JsValue)
    (videoUploadUrl videoUploadToken videoPath : JsValue) : JsValue :=
  JObj [("report_id", JStr reportId);
        ("audio_upload_url", JStr (signedUrl audio));
        ("audio_upload_token", JStr (token audio));
        ("audio_path", JStr audioPath);
        ("microphone_upload_url", microphoneUploadUrl);
        ("microphone_upload_token", microphoneUploadToken);
        ("microphone_path", microphonePath);
        ("video_upload_url", videoUploadUrl);
        ("video_upload_token", videoUploadToken);
        ("video_path", videoPath)].

(** [reports.post('/init', ...)], after the middleware. *)
Definition init_handler (sv : Services) (uuid : string) (c : Context)
  : Eff Response :=
  if falsy (userId c) then
    ret (json (error_body "User ID not found in token") 401)
  else if falsy (SUPABASE_URL (env c))
          || falsy (SUPABASE_SERVICE_ROLE_KEY (env c)) then
    ret (json (error_body "Server configuration error") 500)
  else
    let body := match req_json c with
                | Some parsed => parsed
                | None => JObj []
                end in
    reportId <- randomUUID uuid ;;
    let audioPath := reportId ++ "/system_audio.wav" in
    audioResponse <- sign_upload sv "reports-audio" audioPath ;;
    match granted audioResponse with
    | None => ret (json (error_body "Failed to create audio upload URL") 500)
    | Some audioSigned =>
        let video_slot microphoneUploadUrl microphoneUploadToken microphonePath :=
          has_video <- prop body "has_video" ;;
          if ToBoolean has_video then
            let videoPath := reportId ++ "/screen_recording.avi" in
            videoResponse <- sign_upload sv "reports-video" videoPath ;;
            match granted videoResponse with
            | None =>
                ret (json (error_body "Failed to create video upload URL") 500)
            | Some videoSigned =>
                ret (json (init_response reportId audioSigned audioPath
                             microphoneUploadUrl microphoneUploadToken
                             microphonePath
                             (JStr (signedUrl videoSigned))
                             (JStr (token videoSigned))
                             (JStr videoPath)) 200)
            end
          else
            ret (json (init_response reportId audioSigned audioPath
                         microphoneUploadUrl microphoneUploadToken
                         microphonePath JNull JNull JNull) 200) in
        has_microphone <- prop body "has_microphone" ;;
        if ToBoolean has_microphone then
          let microphonePath := reportId ++ "/microphone.wav" in
          micResponse <- sign_upload sv "reports-audio" microphonePath ;;
          match granted micResponse with
          | None =>
              ret (json (error_body "Failed to create microphone upload URL") 500)
          | Some micSigned =>
              video_slot (JStr (signedUrl micSigned)) (JStr (token micSigned))
                         (JStr microphonePath)
          end
        else video_slot JNull JNull JNull
    end.

(** [[body.audio_path, body.microphone_path].filter(Boolean).join(',')] *)
Definition audioPaths_of (audio microphone : JsValue) : string :=
  Array_join "," (filter ToBoolean [audio; microphone]).

(** The object literal [reportData]. *)
Definition build_reportData (body : JsValue) (userId : string)
  : Eff ReportData :=
  audio <- prop body "audio_path" ;;
  microphone <- prop body "microphone_path" ;;
  let audioPaths := audioPaths_of audio microphone in
  report_id <- prop body "report_id" ;;
  game <- prop body "game_name" ;;
  offender <- prop body "offender_name" ;;
  descr <- prop body "description" ;;
  targ <- prop body "targeted" ;;
  action <- prop body "desired_action" ;;
  recording_start <- prop body "recording_start_utc" ;;
  flag <- prop body "flag_utc" ;;
  clip_start <- prop body "clip_start_offset_sec" ;;
  clip_end <- prop body "clip_end_offset_sec" ;;
  video <- prop body "video_path" ;;
  ret {| id := report_id;
         user_id := userId;
         game_name := or_null game;
         offender_name := or_null offender;
         description := or_null descr;
         targeted := defined_or_null targ;
         desired_action := or_null action;
         recording_start_utc := or_null recording_start;
         flag_utc := or_null flag;
         clip_start_offset_sec := defined_or_null clip_start;
         clip_end_offset_sec := defined_or_null clip_end;
         audio_path := or_null (JStr audioPaths);
         video_path := or_null video;
         forwarded_to_modulate := false |}.

(** [supabase.from('reports').insert(row)]: the call is recorded, and the
    row joins the table unless the database refuses it. *)
Definition insert_report (sv : Services) (row : ReportData)
  : Eff (option string) :=
  emit (EvInsert row) ;;;
  fun w =>
    match insert_error sv (reports_table w) row with
    | Some message => (Returned (Some message), w)
    | None =>
        (Returned None,
         {| jwksCache := jwksCache w;
            reports_table := reports_table w ++ [row];
            trace := trace w |})
    end.

(** [reports.post('/complete', ...)], after the middleware. *)
Definition complete_handler (sv : Services) (c : Context) : Eff Response :=
  match userId c with
  | None => ret (json (error_body "User ID not found in token") 401)
  | Some uid =>
      if (uid =? "")%string then
        ret (json (error_body "User ID not found in token") 401)
      else if falsy (SUPABASE_URL (env c))
              || falsy (SUPABASE_SERVICE_ROLE_KEY (env c)) then
        ret (json (error_body "Server configuration error") 500)
      else
        match req_json c with
        | None => ret (json (error_body "Invalid JSON body") 400)
        | Some body =>
            report_id <- prop body "report_id" ;;
            if negb (ToBoolean report_id) then
              ret (json (error_body "Missing report_id") 400)
            else
              reportData <- build_reportData body uid ;;
              failure <- insert_report sv reportData ;;
              match failure with
              | Some message =>
                  ret (json (JObj [("error", JStr "Failed to create report");
                                   ("details", JStr message)]) 500)
              | None =>
                  ret (json (JObj [("ok", JBool true);
                                   ("report_id", report_id)]) 201)
              end
        end
  end.

(** The two routes as index.ts mounts them: the middleware, then the
    handler under Hono's error boundary.  [now] is the clock reading and
    [uuid] the random draw of the request. *)
Definition route_init (sv : Services) (now : Z) (uuid : string) (c : Context)
  : Eff Response :=
  authMiddleware sv now (dispatch (init_handler sv uuid)) c.

Definition route_complete (sv : Services) (now : Z) (c : Context)
  : Eff Response :=
  authMiddleware sv now (dispatch (complete_handler sv)) c.

(* ================================================================== *)
(** ** Vocabulary of the specification *)

(** The two error kinds of the Token Verifier, as [verifyToken] words them. *)
Definition MalformedCredential (message : string) : Prop :=
  message = "Missing Authorization header" \/
  message = "Invalid Authorization header format. Expected: Bearer <token>".

Definition CredentialRejected (message : string) : Prop :=
  exists cause, message = "JWT verification failed: " ++ cause.

Fixpoint contains (c : ascii) (s : string) : bool :=
  match s with
  | EmptyString => false
  | String c' rest => Ascii.eqb c' c || contains c rest
  end.

(** The status of the response a route produced. *)
Definition status_of (result : outcome Response * World) : option Z :=
  match fst result with
  | Returned r => Some (status r)
  | Thrown _ => None
  end.

(** A token the specification calls valid, for the issuer at
    [supabaseUrl] at time [now] (milliseconds): its signature verifies
    against the key set resolved for that issuer and yields the claims
    [p]; the issuer claim is the issuer location followed by [/auth/v1];
    the audience claim is [authenticated]; an expiry claim, in seconds, is
    in the future; the subject claim is [s] and is not empty. *)
Definition valid_token (sv : Services) (supabaseUrl : string) (now : Z)
    (w : World) (token : string) (s : string) (p : JWTPayload) : Prop :=
  exists keys w1,
    getJWKS sv supabaseUrl now w = (Returned keys, w1) /\
    jws_verify sv token keys = Some p /\
    iss p = Some (supabaseUrl ++ "/auth/v1") /\
    aud p = Some "authenticated" /\
    (forall e, exp p = Some e -> now / 1000 < e) /\
    sub p = Some s /\ s <> "".

(** [Bearer <token>]: the scheme, one space, and a token without a space. *)
Definition bearer_shape (header : string) : Prop :=
  exists token, header = "Bearer " ++ token /\ contains " " token = false.

(** Space, tab, line feed, vertical tab, form feed, carriage return. *)
Definition is_whitespace (c : ascii) : bool :=
  let n := nat_of_ascii c in
  (n =? 32)%nat || ((9 <=? n)%nat && (n <=? 13)%nat).

(** The whitespace-delimited parts of a string in the words of the
    specification: its maximal runs of characters that are not whitespace.
    [current] is the run being read. *)
Fixpoint parts_from (current : string) (s : string) : list string :=
  match s with
  | EmptyString => if (current =? "")%string then [] else [current]
  | String c rest =>
      if is_whitespace c then
        if (current =? "")%string then parts_from "" rest
        else current :: parts_from "" rest
      else parts_from (current ++ String c "") rest
  end.

Definition whitespace_parts (s : string) : list string := parts_from "" s.

(** The header rule in the words of the specification, at one call: a
    header that is absent, or that does not consist of exactly two
    whitespace-delimited parts of which the first is [Bearer], is refused
    as malformed, and the world is left as it was (no key-set resolution,
    no signature check). *)
Definition refused_by_whitespace_rule (sv : Services) (h : option string)
    (supabaseUrl : string) (now : Z) (w : World) : Prop :=
  (forall s, h = Some s ->
             ~ exists token, whitespace_parts s = ["Bearer"; token]) ->
  exists message,
    MalformedCredential message /\
    verifyToken sv h supabaseUrl now w = (Thrown message, w).

(** Number of remote key sets created in a trace, one for each
    [createRemoteJWKSet] call: the one thing [getJWKS] does to obtain keys.
    The HTTP requests for the key set are made later by the remote key set
    itself, inside [jwtVerify], and leave no event of their own. *)
Fixpoint fetches (t : list Event) : nat :=
  match t with
  | [] => 0%nat
  | EvCreateRemoteJWKSet _ :: rest => S (fetches rest)
  | _ :: rest => fetches rest
  end.

(** The value of property [k] of a parsed body that is not [null]. *)
Definition field (v : JsValue) (k : string) : JsValue :=
  match v with
  | JObj fields => lookup k fields
  | _ => JUndefined
  end.

(** The row [build_reportData] makes of a body that is not [null]. *)
Definition reportData_of (body : JsValue) (userId : string) : ReportData :=
  {| id := field body "report_id";
     user_id := userId;
     game_name := or_null (field body "game_name");
     offender_name := or_null (field body "offender_name");
     description := or_null (field body "description");
     targeted := defined_or_null (field body "targeted");
     desired_action := or_null (field body "desired_action");
     recording_start_utc := or_null (field body "recording_start_utc");
     flag_utc := or_null (field body "flag_utc");
     clip_start_offset_sec := defined_or_null (field body "clip_start_offset_sec");
     clip_end_offset_sec := defined_or_null (field body "clip_end_offset_sec");
     audio_path :=
       or_null (JStr (audioPaths_of (field body "audio_path")
                                    (field body "microphone_path")));
     video_path := or_null (field body "video_path");
     forwarded_to_modulate := false |}.

(** The world after [row] has been handed to [insert]: the call is in the
    trace, and the row is in the table when the database took it. *)
Definition after_insert (sv : Services) (row : ReportData) (w : World) : World :=
  {| jwksCache := jwksCache w;
     reports_table :=
       match insert_error sv (reports_table w) row with
       | Some _ => reports_table w
       | None => reports_table w ++ [row]
       end;
     trace := trace w ++ [EvInsert row] |}.

(** The body the [/init] handler works with. *)
Definition init_body (c : Context) : JsValue :=
  match req_json c with
  | Some parsed => parsed
  | None => JObj []
  end.

Definition want_microphone (c : Context) : bool :=
  ToBoolean (field (init_body c) "has_microphone").

Definition want_video (c : Context) : bool :=
  ToBoolean (field (init_body c) "has_video").

(** A path the client supplied, and one it left out (absent, [null] or
    empty). *)
Definition supplied (v : JsValue) (p : string) : Prop :=
  v = JStr p /\ p <> "".

Definition not_supplied (v : JsValue) : Prop :=
  v = JUndefined \/ v = JNull \/ v = JStr "".

Definition with_json (c : Context) (parsed : option JsValue) : Context :=
  {| authorization := authorization c;
     req_json := parsed;
     env := env c;
     userId := userId c |}.

(** The identifier rule in the words of the specification, at one call:
    the identifier of the row that a [/reports/complete] call persists is
    one the Orchestrator generated, that is, one that an earlier
    [/reports/init] drew. *)
Definition persisted_id_was_generated (sv : Services) (now : Z)
    (c : Context) (w : World) : Prop :=
  forall r w' row,
    route_complete sv now c w = (Returned r, w') ->
    reports_table w' = (reports_table w ++ [row])%list ->
    exists uuid, In (EvRandomUUID uuid) (trace w) /\ id row = JStr uuid.

(** The missing-field rule in the words of the specification, at one
    call: a [/reports/complete] call whose body has no truthy [report_id]
    is answered 400, and no insertion is attempted. *)
Definition missing_report_id_is_400 (sv : Services) (now : Z)
    (c : Context) (w : World) : Prop :=
  (forall parsed, req_json c = Some parsed ->
                  ToBoolean (field parsed "report_id") = false) ->
  status_of (route_complete sv now c w) = Some 400 /\
  reports_table (snd (route_complete sv now c w)) = reports_table w /\
  forall row, ~ In (EvInsert row) (trace (snd (route_complete sv now c w))).

(** The three error responses of [/init] for a grant that could not be
    obtained. *)
Definition GrantIssuanceFailed (r : Response) : Prop :=
  status r = 500 /\
  (body r = error_body "Failed to create audio upload URL" \/
   body r = error_body "Failed to create microphone upload URL" \/
   body r = error_body "Failed to create video upload URL").

(** The three fields of a slot in the response.  A grant: the storage
    service answered the request for this slot, [answer], with data and no
    error, and the response carries the locator and the token of that
    answer and the path [expected].  Then: a grant that is not null, and no
    grant. *)
Definition slot_granted (r : Response) (url_key token_key path_key : string)
    (answer : StorageResponse) (expected : string) : Prop :=
  exists d,
    data answer = Some d /\ error answer = None /\ signedUrl d <> "" /\
    field (body r) url_key = JStr (signedUrl d) /\
    field (body r) token_key = JStr (token d) /\
    field (body r) path_key = JStr expected.

Definition slot_present (r : Response) (url_key token_key path_key : string)
  : Prop :=
  field (body r) url_key <> JNull /\
  field (body r) token_key <> JNull /\
  field (body r) path_key <> JNull.

Definition slot_null (r : Response) (url_key token_key path_key : string)
  : Prop :=
  field (body r) url_key = JNull /\
  field (body r) token_key = JNull /\
  field (body r) path_key = JNull.

(** The three requests [/init] can make of the storage service. *)
Definition audio_grant (sv : Services) (uuid : string) : option SignedUpload :=
  granted (createSignedUploadUrl sv "reports-audio" (uuid ++ "/system_audio.wav")).

Definition microphone_grant (sv : Services) (uuid : string)
  : option SignedUpload :=
  granted (createSignedUploadUrl sv "reports-audio" (uuid ++ "/microphone.wav")).

Definition video_grant (sv : Services) (uuid : string) : option SignedUpload :=
  granted (createSignedUploadUrl sv "reports-video"
             (uuid ++ "/screen_recording.avi")).

(* ================================================================== *)
(** ** A concrete deployment, for examples *)

Definition demo_url : string := "https://proj.supabase.co".

Definition demo_payload : JWTPayload :=
  {| sub := Some "user-1";
     email := None;
     role := Some "authenticated";
     iss := Some "https://proj.supabase.co/auth/v1";
     aud := Some "authenticated";
     exp := Some 2000;
     iat := Some 1000 |}.

(** Every location parses, the token [good.jwt] carries [demo_payload]
    under the key set of [demo_url], storage grants every upload and the
    database accepts every row. *)
Definition demo_services : Services :=
  {| URL_parses := fun _ => true;
     jws_verify := fun token keys =>
       match keys with
       | RemoteJWKS url =>
           if (token =? "good.jwt")%string
              && (url =? "https://proj.supabase.co/auth/v1/.well-known/jwks.json")%string
           then Some demo_payload else None
       end;
     createSignedUploadUrl := fun bucket path =>
       {| data := Some {| signedUrl := "https://storage/" ++ bucket ++ "/" ++ path;
                          token := "upload-token";
                          path := path |};
          error := None |};
     insert_error := fun _ _ => None |}.

(** The same deployment with a storage service that refuses every grant. *)
Definition storage_down : Services :=
  {| URL_parses := URL_parses demo_services;
     jws_verify := jws_verify demo_services;
     createSignedUploadUrl := fun _ _ =>
       {| data := None; error := Some "storage unavailable" |};
     insert_error := insert_error demo_services |}.

Definition demo_env : Env :=
  {| SUPABASE_URL := Some demo_url;
     SUPABASE_SERVICE_ROLE_KEY := Some "service-role-key" |}.

Definition demo_request (parsed : option JsValue) : Context :=
  {| authorization := Some "Bearer good.jwt";
     req_json := parsed;
     env := demo_env;
     userId := None |}.

(** A worker whose cache holds a key set created at time 1000. *)
Definition warm_world : World :=
  {| jwksCache := {| jwks := Some (RemoteJWKS (jwks_location demo_url));
                     timestamp := 1000 |};
     reports_table := [];
     trace := [EvCreateRemoteJWKSet (jwks_location demo_url)] |}.

Definition tab : string := String (ascii_of_nat 9) "".

(* ================================================================== *)
(** ** The rest of the application: index.ts and the legacy route *)

(** [reports.post('/', ...)], after the middleware. *)
Definition legacy_handler (c : Context) : Eff Response :=
  ret (json (error_body "Use /reports/init and /reports/complete") 400).

Definition route_legacy (sv : Services) (now : Z) (c : Context)
  : Eff Response :=
  authMiddleware sv now (dispatch legacy_handler) c.

(** [app.get('/health', ...)] *)
Definition health_handler (c : Context) : Eff Response :=
  ret (json (JObj [("ok", JBool true)]) 200).

(** [app.notFound] *)
Definition notFound (c : Context) : Eff Response :=
  ret (json (error_body "Not found") 404).

(** [app.use('/*', cors(...))]: the CORS middleware answers every
    request of method OPTIONS itself, with status 204 and no body, and
    hands every other request on after setting response headers (which
    [Response] does not carry). *)
Definition cors_preflight (c : Context) : Eff Response :=
  ret {| status := 204; body := JNull |}.

(** What serves a request: one of the four routes that index.ts and
    routes/reports.ts register, none of them, or -- for a request of
    method OPTIONS, whatever its path -- the CORS middleware. *)
Inductive Route : Type :=
| GetHealth
| PostReportsInit
| PostReportsComplete
| PostReports
| Unmatched
| Preflight.

(** One request: the route it matches, its context, and what the clock
    and the random generator give while it is served. *)
Record Request : Type := {
  req_route : Route;
  req_context : Context;
  req_now : Z;
  req_uuid : string
}.

(** The application of index.ts. *)
Definition app (sv : Services) (q : Request) : Eff Response :=
  match req_route q with
  | GetHealth => dispatch health_handler (req_context q)
  | PostReportsInit => route_init sv (req_now q) (req_uuid q) (req_context q)
  | PostReportsComplete => route_complete sv (req_now q) (req_context q)
  | PostReports => route_legacy sv (req_now q) (req_context q)
  | Unmatched => notFound (req_context q)
  | Preflight => cors_preflight (req_context q)
  end.

(** The worker serving requests one after the other: the module-level
    cache and the database are what one request leaves to the next. *)
Fixpoint serve (sv : Services) (qs : list Request) (w : World)
  : list (outcome Response) * World :=
  match qs with
  | [] => ([], w)
  | q :: rest =>
      let (answer, w1) := app sv q w in
      let (answers, w2) := serve sv rest w1 in
      (answer :: answers, w2)
  end.

(** What a trace records of each collaborator. *)
Definition storage_requests (t : list Event) : list (string * string) :=
  flat_map (fun e => match e with
                     | EvCreateSignedUploadUrl bucket path => [(bucket, path)]
                     | _ => []
                     end) t.

Definition insertions (t : list Event) : list ReportData :=
  flat_map (fun e => match e with
                     | EvInsert row => [row]
                     | _ => []
                     end) t.

Definition draws (t : list Event) : list string :=
  flat_map (fun e => match e with
                     | EvRandomUUID uuid => [uuid]
                     | _ => []
                     end) t.

Definition signature_checks (t : list Event) : list string :=
  flat_map (fun e => match e with
                     | EvJwtVerify token => [token]
                     | _ => []
                     end) t.

(** [w] with the events [t] added to its trace. *)
Definition add_trace (w : World) (t : list Event) : World :=
  {| jwksCache := jwksCache w;
     reports_table := reports_table w;
     trace := trace w ++ t |}.

(** The events a call added, given the trace before and after. *)
Definition added_events (w w' : World) (t : list Event) : Prop :=
  trace w' = (trace w ++ t)%list.

(** A row as [/reports/complete] writes them: owned by somebody, under a
    truthy identifier, not yet forwarded, and with [null] rather than
    [undefined] in every optional column. *)
Definition row_well_formed (row : ReportData) : Prop :=
  user_id row <> "" /\
  ToBoolean (id row) = true /\
  forwarded_to_modulate row = false /\
  Forall (fun v => v <> JUndefined)
    [game_name row; offender_name row; description row; targeted row;
     desired_action row; recording_start_utc row; flag_utc row;
     clip_start_offset_sec row; clip_end_offset_sec row; audio_path row;
     video_path row].

(** A database that enforces the primary key of the reports table. *)
Definition rejects_duplicates (sv : Services) : Prop :=
  forall table row,
    (exists stored, In stored table /\ id stored = id row) ->
    insert_error sv table row <> None.

(** A path field as [ReportCompleteRequest] declares it: a string, or
    left out. *)
Definition declared_path (v : JsValue) : Prop :=
  v = JUndefined \/ v = JNull \/ exists p, v = JStr p.

(** A parsed body that is JSON but neither an object nor [null]. *)
Definition scalar_or_array (v : JsValue) : Prop :=
  match v with
  | JBool _ | JNum _ | JStr _ | JArr _ => True
  | _ => False
  end.

(** How many of the requests go to [/reports/complete]. *)
Definition completions (qs : list Request) : nat :=
  length (filter (fun q => match req_route q with
                           | PostReportsComplete => true
                           | _ => false
                           end) qs).

(** The requests of a run that go to [/reports/init]. *)
Definition is_init (q : Request) : bool :=
  match req_route q with
  | PostReportsInit => true
  | _ => false
  end.

(** The report identifiers that the answers of a run give out: the
    [report_id] of every 200 answer to a [/reports/init] request. *)
Fixpoint issued_identifiers (qs : list Request)
    (answers : list (outcome Response)) : list JsValue :=
  match qs, answers with
  | q :: qs', Returned r :: answers' =>
      if is_init q && (status r =? 200)
      then field (body r) "report_id" :: issued_identifiers qs' answers'
      else issued_identifiers qs' answers'
  | _ :: qs', Thrown _ :: answers' => issued_identifiers qs' answers'
  | _, _ => []
  end.

(** The three routes behind [authMiddleware]. *)
Definition protected (r : Route) : Prop :=
  r = PostReportsInit \/ r = PostReportsComplete \/ r = PostReports.

(** A deployment whose database refuses a row when a stored row has the
    same identifier. *)
Definition strict_services : Services :=
  {| URL_parses := fun _ => true;
     jws_verify := fun token keys =>
       if (token =? "good.jwt")%string
       then Some {| sub := Some "user-1"; email := None; role := None;
                    iss := Some "https://proj.supabase.co/auth/v1";
                    aud := Some "authenticated";
                    exp := None; iat := None |}
       else if (token =? "other.jwt")%string
       then Some {| sub := Some "user-2"; email := None; role := None;
                    iss := Some "https://proj.supabase.co/auth/v1";
                    aud := Some "authenticated";
                    exp := None; iat := None |}
       else None;
     createSignedUploadUrl := fun bucket path =>
       {| data := Some {| signedUrl := "https://storage/" ++ bucket ++ "/" ++ path;
                          token := "upload-token";
                          path := path |};
          error := None |};
     insert_error := fun table row =>
       if existsb (fun stored => (ToString (id stored) =? ToString (id row))%string)
                  table
       then Some "duplicate key value violates unique constraint"
       else None |}.

(** The world after the verifier has accepted [good.jwt] on a fresh
    worker at time 0. *)
Definition verified_world : World :=
  snd (verifyToken demo_services (Some "Bearer good.jwt") demo_url 0
         initial_world).

(** A deployment whose key-set location does not parse. *)
Definition broken_url_services : Services :=
  {| URL_parses := fun _ => false;
     jws_verify := jws_verify demo_services;
     createSignedUploadUrl := createSignedUploadUrl demo_services;
     insert_error := insert_error demo_services |}.

(** A deployment whose database is down. *)
Definition database_down : Services :=
  {| URL_parses := URL_parses demo_services;
     jws_verify := jws_verify demo_services;
     createSignedUploadUrl := createSignedUploadUrl demo_services;
     insert_error := fun _ _ => Some "connection refused" |}.

(** A deployment whose storage grants audio uploads only. *)
Definition audio_only_storage : Services :=
  {| URL_parses := URL_parses demo_services;
     jws_verify := jws_verify demo_services;
     createSignedUploadUrl := fun bucket path =>
       if (bucket =? "reports-audio")%string
       then createSignedUploadUrl demo_services bucket path
       else {| data := None; error := Some "bucket not found" |};
     insert_error := insert_error demo_services |}.

Definition request (r : Route) (header : option string)
    (parsed : option JsValue) (now : Z) (uuid : string) : Request :=
  {| req_route := r;
     req_context := {| authorization := header;
                       req_json := parsed;
                       env := demo_env;
                       userId := None |};
     req_now := now;
     req_uuid := uuid |}.

(* ================================================================== *)
(** ** Strings *)

Lemma split_nonempty (sep : ascii) (s : string) : split sep s <> [].
Proof.
  induction s as [|c s IH]; simpl.
  - discriminate.
  - destruct (Ascii.eqb c sep); [discriminate|].
    destruct (split sep s); [contradiction|discriminate].
Qed.

Lemma split_without_separator (sep : ascii) (s : string) :
  contains sep s = false -> split sep s = [s].
Proof.
  induction s as [|c s IH]; simpl; intros H.
  - reflexivity.
  - apply orb_false_iff in H as [Hc Hs].
    rewrite Hc, (IH Hs). reflexivity.
Qed.

Lemma split_singleton (sep : ascii) (s p : string) :
  split sep s = [p] -> p = s /\ contains sep s = false.
Proof.
  revert p; induction s as [|c s IH]; simpl; intros p H.
  - injection H as <-. auto.
  - destruct (Ascii.eqb c sep) eqn:E.
    + injection H as _ H. exfalso. exact (split_nonempty _ _ H).
    + destruct (split sep s) as [|q qs] eqn:Es; [now destruct (split_nonempty sep s)|].
      injection H as <- ->.
      destruct (IH q eq_refl) as [-> Hs]. now rewrite Hs.
Qed.

Lemma split_pair (sep : ascii) (s a b : string) :
  split sep s = [a; b] ->
  s = a ++ String sep b /\ contains sep a = false /\ contains sep b = false.
Proof.
  revert a; induction s as [|c s IH]; simpl; intros a H.
  - discriminate.
  - destruct (Ascii.eqb c sep) eqn:E.
    + injection H as <- H.
      apply split_singleton in H as [-> Hs].
      apply Ascii.eqb_eq in E as ->. auto.
    + destruct (split sep s) as [|q qs] eqn:Es; [discriminate|].
      injection H as <- ->.
      destruct (IH q eq_refl) as (-> & Ha & Hb).
      simpl. rewrite E, Ha. auto.
Qed.

Lemma split_joined (sep : ascii) (a b : string) :
  contains sep a = false -> contains sep b = false ->
  split sep (a ++ String sep b) = [a; b].
Proof.
  intros Ha Hb. induction a as [|c a IH]; simpl in *.
  - rewrite Ascii.eqb_refl, (split_without_separator _ _ Hb). reflexivity.
  - apply orb_false_iff in Ha as [Hc Ha].
    rewrite Hc, (IH Ha). reflexivity.
Qed.

Lemma split_bearer (header : string) :
  bearer_shape header <->
  exists token, split " " header = ["Bearer"; token].
Proof.
  split.
  - intros (t & -> & Ht). exists t.
    change ("Bearer " ++ t) with ("Bearer" ++ String " " t).
    now apply split_joined.
  - intros (t & H). apply split_pair in H as (-> & _ & Ht).
    exists t. split; [reflexivity|exact Ht].
Qed.

(* ================================================================== *)
(** ** The Token Verifier *)

Ltac run := unfold bind, ret, throw, lift, emit, read_cache, write_cache,
                   try_catch; simpl.

Lemma verifyToken_bearer (sv : Services) (token url : string) (now : Z)
    (w : World) :
  contains " " token = false ->
  verifyToken sv (Some ("Bearer " ++ token)) url now w =
  try_catch (verify_bearer sv token url now)
            (fun message => throw ("JWT verification failed: " ++ message)) w.
Proof.
  intros Ht. unfold verifyToken.
  change ("Bearer " ++ token) with ("Bearer" ++ String " " token) at 2.
  rewrite split_joined by (reflexivity || exact Ht).
  reflexivity.
Qed.

Lemma verifyToken_malformed (sv : Services) (h : option string)
    (url : string) (now : Z) (w : World) :
  (forall s, h = Some s -> ~ bearer_shape s) ->
  exists message,
    MalformedCredential message /\
    verifyToken sv h url now w = (Thrown message, w).
Proof.
  intros Hshape. unfold verifyToken, MalformedCredential.
  destruct h as [header|]; [|eauto].
  destruct (header =? "")%string; [eauto|].
  destruct (split " " header) as [|scheme [|token [|x xs]]] eqn:Es; eauto.
  destruct (scheme =? "Bearer")%string eqn:Eb; simpl; [|eauto].
  apply String.eqb_eq in Eb as ->.
  exfalso. apply (Hshape header eq_refl).
  apply split_bearer. eauto.
Qed.

(** What [getJWKS] does, by the state of the cache. *)
Lemma getJWKS_reuse (sv : Services) (url : string) (now : Z) (w : World)
    (keys : RemoteJWKSet) :
  jwks (jwksCache w) = Some keys ->
  now - timestamp (jwksCache w) <= JWKS_CACHE_TTL ->
  getJWKS sv url now w = (Returned keys, w).
Proof.
  intros Hk Hage. unfold getJWKS, needs_refresh. run. rewrite Hk.
  destruct (Z.gtb_spec (now - timestamp (jwksCache w)) JWKS_CACHE_TTL); [lia|].
  reflexivity.
Qed.

Lemma getJWKS_stale (sv : Services) (url : string) (now : Z) (w : World) :
  jwks (jwksCache w) = None \/
  now - timestamp (jwksCache w) > JWKS_CACHE_TTL ->
  getJWKS sv url now w = refresh_jwks sv url now w.
Proof.
  intros H. unfold getJWKS, needs_refresh. run.
  destruct (jwks (jwksCache w)) as [keys|]; [|reflexivity].
  destruct H as [H|H]; [discriminate|].
  destruct (Z.gtb_spec (now - timestamp (jwksCache w)) JWKS_CACHE_TTL); [|lia].
  reflexivity.
Qed.

Lemma refresh_jwks_ok (sv : Services) (url : string) (now : Z) (w : World) :
  URL_parses sv (jwks_location url) = true ->
  refresh_jwks sv url now w =
  (Returned (RemoteJWKS (jwks_location url)),
   {| jwksCache := {| jwks := Some (RemoteJWKS (jwks_location url));
                      timestamp := now |};
      reports_table := reports_table w;
      trace := trace w ++ [EvCreateRemoteJWKSet (jwks_location url)] |}).
Proof.
  intros Hu. unfold refresh_jwks, new_URL. rewrite Hu. reflexivity.
Qed.

Lemma refresh_jwks_invalid (sv : Services) (url : string) (now : Z) (w : World) :
  URL_parses sv (jwks_location url) = false ->
  refresh_jwks sv url now w = (Thrown "Invalid URL", w).
Proof.
  intros Hu. unfold refresh_jwks, new_URL. rewrite Hu. reflexivity.
Qed.

Lemma fetches_app (t u : list Event) :
  fetches (t ++ u) = (fetches t + fetches u)%nat.
Proof.
  induction t as [|e t IH]; simpl; [reflexivity|].
  destruct e; simpl; rewrite IH; reflexivity.
Qed.

(** [getJWKS] either leaves the world alone or is the refresh that
    succeeds; it never touches the reports table. *)
Lemma getJWKS_cases (sv : Services) (url : string) (now : Z) (w : World) :
  (exists o, getJWKS sv url now w = (o, w)) \/
  (needs_refresh (jwksCache w) now = true /\
   getJWKS sv url now w =
   (Returned (RemoteJWKS (jwks_location url)),
    {| jwksCache := {| jwks := Some (RemoteJWKS (jwks_location url));
                       timestamp := now |};
       reports_table := reports_table w;
       trace := trace w ++ [EvCreateRemoteJWKSet (jwks_location url)] |})).
Proof.
  destruct (URL_parses sv (jwks_location url)) eqn:Hu.
  - unfold getJWKS. run. unfold needs_refresh.
    destruct (jwks (jwksCache w)) as [keys|] eqn:Hk.
    + destruct (now - timestamp (jwksCache w) >? JWKS_CACHE_TTL) eqn:Hg.
      * right. split; [reflexivity|]. now apply refresh_jwks_ok.
      * left. eauto.
    + right. split; [reflexivity|]. now apply refresh_jwks_ok.
  - left. unfold getJWKS. run.
    destruct (jwks (jwksCache w)) as [keys|].
    + destruct (needs_refresh _ _); [|eauto].
      rewrite refresh_jwks_invalid by assumption. eauto.
    + rewrite refresh_jwks_invalid by assumption. eauto.
Qed.

Lemma claim_is_true (c : option string) (expected : string) :
  claim_is c expected = true <-> c = Some expected.
Proof.
  unfold claim_is. destruct c as [v|].
  - rewrite String.eqb_eq. split; [now intros ->|now intros [= ->]].
  - split; discriminate.
Qed.

Lemma expired_false (p : JWTPayload) (now : Z) :
  expired p now = false <-> (forall e, exp p = Some e -> now / 1000 < e).
Proof.
  unfold expired. destruct (exp p) as [e|].
  - rewrite Z.leb_gt. split.
    + now intros H e' [= <-].
    + intros H. now apply H.
  - split; [discriminate|reflexivity].
Qed.

(** The world after the [try] block, once the key set is resolved: the
    signature check is recorded and nothing else changes. *)
Lemma verify_bearer_world (sv : Services) (token url : string) (now : Z)
    (w w1 : World) (keys : RemoteJWKSet) :
  getJWKS sv url now w = (Returned keys, w1) ->
  snd (verify_bearer sv token url now w) =
  {| jwksCache := jwksCache w1;
     reports_table := reports_table w1;
     trace := trace w1 ++ [EvJwtVerify token] |}.
Proof.
  intros Hk. unfold verify_bearer, jwtVerify. run. rewrite Hk. simpl.
  destruct (jws_verify sv token keys) as [p|]; [|reflexivity].
  destruct (claim_is (iss p) _); simpl; [|reflexivity].
  destruct (claim_is (aud p) _); simpl; [|reflexivity].
  destruct (expired p now); simpl; [reflexivity|].
  destruct (sub p) as [s|]; [|reflexivity].
  destruct (s =? "")%string; reflexivity.
Qed.

Lemma verify_bearer_unresolved (sv : Services) (token url : string) (now : Z)
    (w w1 : World) (message : string) :
  getJWKS sv url now w = (Thrown message, w1) ->
  verify_bearer sv token url now w = (Thrown message, w1).
Proof.
  intros Hk. unfold verify_bearer. run. now rewrite Hk.
Qed.

Lemma rethrow_world {A} (m : Eff A) (prefix : string) (w : World) :
  snd (try_catch m (fun message => throw (prefix ++ message)) w) = snd (m w).
Proof.
  unfold try_catch, throw. destruct (m w) as [[a|e] w']; reflexivity.
Qed.

(** The footprint of one [verifyToken] call: the reports table is not
    touched, and either the cache is kept and nothing is fetched, or the
    cache was due for a refresh and is replaced by one fetch. *)
Lemma verifyToken_effect (sv : Services) (h : option string) (url : string)
    (now : Z) (w : World) :
  let w' := snd (verifyToken sv h url now w) in
  reports_table w' = reports_table w /\
  ((jwksCache w' = jwksCache w /\ fetches (trace w') = fetches (trace w)) \/
   (needs_refresh (jwksCache w) now = true /\
    jwksCache w' = {| jwks := Some (RemoteJWKS (jwks_location url));
                      timestamp := now |} /\
    fetches (trace w') = S (fetches (trace w)))).
Proof.
  unfold verifyToken.
  destruct h as [header|]; [|simpl; auto].
  destruct (header =? "")%string; [simpl; auto|].
  destruct (split " " header) as [|scheme [|token [|x xs]]];
    try solve [simpl; auto].
  destruct (negb (scheme =? "Bearer")%string); [simpl; auto|].
  cbv zeta. rewrite rethrow_world.
  destruct (getJWKS_cases sv url now w) as [[o Ho]|[Hn Hr]].
  - destruct o as [keys|e].
    + rewrite (verify_bearer_world _ _ _ _ _ _ _ Ho). simpl.
      split; [reflexivity|left]. split; [reflexivity|].
      rewrite fetches_app. simpl. lia.
    + rewrite (verify_bearer_unresolved _ _ _ _ _ _ _ Ho). simpl. auto.
  - rewrite (verify_bearer_world _ _ _ _ _ _ _ Hr). simpl.
    split; [reflexivity|right]. repeat split; [exact Hn|].
    rewrite !fetches_app. simpl. lia.
Qed.



(** C3 as it holds.  A header that is absent or empty, or that is not
    [Bearer], one space, and a token without a space -- that is, whose
    split at the space character is not exactly two parts with the first
    [Bearer] -- makes [verifyToken] fail with MalformedCredential before
    any key-set resolution or signature check: the world, cache and trace
    included, is unchanged; the middleware answers 401 with that message
    and does not run the handler. *)
Theorem verifyToken_malformed_header (sv : Services) (h : option string)
    (url : string) (now : Z) (w : World) :
  (forall s, h = Some s -> ~ bearer_shape s) ->
  exists message,
    MalformedCredential message /\
    verifyToken sv h url now w = (Thrown message, w) /\
    forall next c,
      authorization c = h ->
      SUPABASE_URL (env c) = Some url -> url <> "" ->
      authMiddleware sv now next c w
      = (Returned (json (error_body message) 401), w).
Proof.
  intros Hshape.
  destruct (verifyToken_malformed sv h url now w Hshape) as (m & Hm & Hv).
  exists m. repeat split; [exact Hm|exact Hv|].
  intros next c Hh Hu Hne. unfold authMiddleware. rewrite Hu.
  apply String.eqb_neq in Hne. rewrite Hne, Hh.
  unfold try_catch, bind. rewrite Hv. reflexivity.
Qed.

Lemma verifyToken_malformed_header_witness :
  exists message,
    MalformedCredential message /\
    verifyToken demo_services (Some "Basic dXNlcjpwdw==") demo_url 0
      initial_world = (Thrown message, initial_world).
Proof.
  destruct (verifyToken_malformed_header demo_services
              (Some "Basic dXNlcjpwdw==") demo_url 0 initial_world)
    as (m & Hm & Hv & _).
  - intros s [= <-] (t & Ht & _). discriminate Ht.
  - exists m. split; assumption.
Defined.

(** C3 as stated fails: [Bearer a<TAB>b] has three whitespace-delimited
    parts, yet [verifyToken] takes [a<TAB>b] for the token, resolves the
    key set, attempts the signature check and fails with
    CredentialRejected. *)
Lemma verifyToken_tab_in_token :
  ~ refused_by_whitespace_rule demo_services
      (Some ("Bearer a" ++ tab ++ "b")) demo_url 0 initial_world.
Proof.
  intros H. destruct H as (m & _ & Hv).
  - intros s [= <-] (t & Ht). vm_compute in Ht. discriminate Ht.
  - vm_compute in Hv. discriminate Hv.
Qed.

Example tab_header_run :
  whitespace_parts ("Bearer a" ++ tab ++ "b") = ["Bearer"; "a"; "b"] /\
  verifyToken demo_services (Some ("Bearer a" ++ tab ++ "b")) demo_url 0
    initial_world
  = (Thrown "JWT verification failed: signature verification failed",
     {| jwksCache :=
          {| jwks := Some (RemoteJWKS
               "https://proj.supabase.co/auth/v1/.well-known/jwks.json");
             timestamp := 0 |};
        reports_table := [];
        trace := [EvCreateRemoteJWKSet
                    "https://proj.supabase.co/auth/v1/.well-known/jwks.json";
                  EvJwtVerify ("a" ++ tab ++ "b")] |}).
Proof. split; reflexivity. Qed.

(** X23.  The cache of [getJWKS], with a TTL of one hour: a resolution
    that finds a cached key set no older than the TTL returns it and
    changes nothing; a resolution that finds no cached set, or one older
    than the TTL, creates one remote key set and replaces the value and the
    timestamp of the cache with it; two [verifyToken] calls within one TTL
    window create at most one remote key set; a [verifyToken] call made
    after the window has elapsed replaces the cached key set exactly
    once. *)
Theorem jwks_cache_ttl (sv : Services) (url : string) :
  JWKS_CACHE_TTL = 60 * 60 * 1000 /\
  (forall now w keys,
      jwks (jwksCache w) = Some keys ->
      now - timestamp (jwksCache w) <= JWKS_CACHE_TTL ->
      getJWKS sv url now w = (Returned keys, w)) /\
  (forall now w,
      jwks (jwksCache w) = None \/
      now - timestamp (jwksCache w) > JWKS_CACHE_TTL ->
      URL_parses sv (jwks_location url) = true ->
      getJWKS sv url now w =
      (Returned (RemoteJWKS (jwks_location url)),
       {| jwksCache := {| jwks := Some (RemoteJWKS (jwks_location url));
                          timestamp := now |};
          reports_table := reports_table w;
          trace := trace w ++ [EvCreateRemoteJWKSet (jwks_location url)] |})) /\
  (forall h1 h2 t1 t2 w,
      t2 - t1 <= JWKS_CACHE_TTL ->
      let w1 := snd (verifyToken sv h1 url t1 w) in
      let w2 := snd (verifyToken sv h2 url t2 w1) in
      (fetches (trace w2) <= fetches (trace w) + 1)%nat) /\
  (forall token now w keys,
      jwks (jwksCache w) = Some keys ->
      now - timestamp (jwksCache w) > JWKS_CACHE_TTL ->
      URL_parses sv (jwks_location url) = true ->
      contains " " token = false ->
      let w' := snd (verifyToken sv (Some ("Bearer " ++ token)) url now w) in
      fetches (trace w') = S (fetches (trace w)) /\
      jwksCache w' = {| jwks := Some (RemoteJWKS (jwks_location url));
                        timestamp := now |}).
Proof.
  split; [reflexivity|].
  split; [intros; now apply getJWKS_reuse|].
  split; [intros now w Hstale Hu;
          now rewrite getJWKS_stale, refresh_jwks_ok|].
  split.
  - intros h1 h2 t1 t2 w Hwin w1 w2.
    destruct (verifyToken_effect sv h1 url t1 w) as [_ H1].
    destruct (verifyToken_effect sv h2 url t2 w1) as [_ H2].
    fold w1 in H1. fold w2 in H2.
    destruct H1 as [[Hc1 Hf1]|(_ & Hc1 & Hf1)].
    + destruct H2 as [[_ Hf2]|(_ & _ & Hf2)]; lia.
    + destruct H2 as [[_ Hf2]|(Hn & _ & _)]; [lia|].
      rewrite Hc1 in Hn. unfold needs_refresh in Hn. simpl in Hn.
      apply Z.gtb_lt in Hn. lia.
  - intros token now w keys Hk Hage Hu Ht w'. subst w'.
    rewrite (verifyToken_bearer sv token url now w Ht), rethrow_world.
    assert (Hr := refresh_jwks_ok sv url now w Hu).
    rewrite <- (getJWKS_stale sv url now w (or_intror Hage)) in Hr.
    rewrite (verify_bearer_world _ _ _ _ _ _ _ Hr). simpl.
    rewrite !fetches_app. simpl. split; [lia|reflexivity].
Qed.

Lemma jwks_cache_ttl_witness :
  getJWKS demo_services demo_url 3601000 warm_world
  = (Returned (RemoteJWKS (jwks_location demo_url)), warm_world) /\
  fetches (trace (snd (getJWKS demo_services demo_url 3601001 warm_world)))
  = 2%nat /\
  (fetches (trace (snd (verifyToken demo_services (Some "Bearer good.jwt")
                          demo_url 3600000
                          (snd (verifyToken demo_services
                                  (Some "Bearer good.jwt") demo_url 0
                                  initial_world))))) <= 1)%nat /\
  fetches (trace (snd (verifyToken demo_services (Some "Bearer good.jwt")
                         demo_url 3601001 warm_world))) = 2%nat.
Proof.
  destruct (jwks_cache_ttl demo_services demo_url) as (_ & A & B & C & D).
  split; [apply A; [reflexivity|vm_compute; discriminate]|].
  split; [rewrite (B 3601001 warm_world); [reflexivity|right; reflexivity|reflexivity]|].
  split; [apply (C (Some "Bearer good.jwt") (Some "Bearer good.jwt") 0 3600000
                   initial_world); vm_compute; discriminate|].
  apply (D "good.jwt" 3601001 warm_world
           (RemoteJWKS (jwks_location demo_url))); reflexivity.
Defined.

(* ================================================================== *)
(** ** The middleware and Hono's error boundary *)

Lemma dispatch_returns (h : Context -> Eff Response) (c : Context) (w : World) :
  exists r w',
    dispatch h c w = (Returned r, w') /\
    (h c w = (Returned r, w') \/
     exists message, h c w = (Thrown message, w') /\ r = onError message).
Proof.
  unfold dispatch, try_catch, ret.
  destruct (h c w) as [[r|e] w'].
  - exists r, w'. auto.
  - exists (onError e), w'. split; [reflexivity|right]. exists e. auto.
Qed.

Lemma authMiddleware_verified (sv : Services) (now : Z)
    (h : Context -> Eff Response) (c : Context) (w w1 : World)
    (url s : string) (p : JWTPayload) :
  SUPABASE_URL (env c) = Some url -> url <> "" ->
  verifyToken sv (authorization c) url now w = (Returned (s, p), w1) ->
  authMiddleware sv now (dispatch h) c w = dispatch h (set_userId s c) w1.
Proof.
  intros Hu Hne Hv. unfold authMiddleware. rewrite Hu.
  apply String.eqb_neq in Hne. rewrite Hne.
  unfold try_catch, bind. rewrite Hv. simpl.
  destruct (dispatch_returns h (set_userId s c) w1) as (r & w' & -> & _).
  reflexivity.
Qed.

(** A response that is neither 401 nor 500 comes from the handler, run
    with the subject that [verifyToken] returned for this request. *)
Lemma authMiddleware_passed (sv : Services) (now : Z)
    (h : Context -> Eff Response) (c : Context) (w w' : World) (r : Response) :
  authMiddleware sv now (dispatch h) c w = (Returned r, w') ->
  status r <> 401 -> status r <> 500 ->
  exists url s p w1,
    SUPABASE_URL (env c) = Some url /\ url <> "" /\
    verifyToken sv (authorization c) url now w = (Returned (s, p), w1) /\
    h (set_userId s c) w1 = (Returned r, w').
Proof.
  unfold authMiddleware. intros H H401 H500.
  destruct (SUPABASE_URL (env c)) as [url|] eqn:Hu;
    [|injection H as <- _; now destruct H500].
  destruct (url =? "")%string eqn:Hne;
    [injection H as <- _; now destruct H500|].
  apply String.eqb_neq in Hne.
  unfold try_catch, bind in H.
  destruct (verifyToken sv (authorization c) url now w) as [[[s p]|e] w1] eqn:Hv;
    [|injection H as <- _; now destruct H401].
  simpl in H.
  destruct (dispatch_returns h (set_userId s c) w1) as (r' & w'' & Hd & Hh).
  rewrite Hd in H. injection H as -> ->.
  destruct Hh as [Hh|(m & _ & ->)]; [|now destruct H500].
  exists url, s, p, w1. auto.
Qed.

Lemma verifyToken_table (sv : Services) (h : option string) (url : string)
    (now : Z) (w w1 : World) (o : outcome (string * JWTPayload)) :
  verifyToken sv h url now w = (o, w1) ->
  reports_table w1 = reports_table w.
Proof.
  intros H. destruct (verifyToken_effect sv h url now w) as [Ht _].
  now rewrite H in Ht.
Qed.

(* ================================================================== *)
(** ** The [/complete] handler *)

Lemma get_prop_cases (v : JsValue) :
  (forall k, get_prop v k = Returned (field v k)) \/
  ((v = JNull \/ v = JUndefined) /\
   forall k, get_prop v k =
             Thrown ("Cannot read properties of null (reading '" ++ k ++ "')")).
Proof.
  destruct v; simpl; auto.
Qed.

Lemma build_reportData_ok (body : JsValue) (uid : string) (w : World) :
  (forall k, get_prop body k = Returned (field body k)) ->
  build_reportData body uid w = (Returned (reportData_of body uid), w).
Proof.
  intros Hget. unfold build_reportData, prop, lift, bind.
  rewrite !Hget. reflexivity.
Qed.

(** Every run of the handler is one of two kinds: it answers without
    touching the world, and not with 201; or it builds the row from a
    body with a truthy [report_id] and hands it to [insert], answering
    201 exactly when the database takes the row. *)
Lemma complete_handler_cases (sv : Services) (c : Context) (w : World) :
  (exists o,
      complete_handler sv c w = (o, w) /\
      (forall r, o = Returned r -> status r <> 201)) \/
  (exists uid body,
      userId c = Some uid /\ uid <> "" /\
      req_json c = Some body /\
      ToBoolean (field body "report_id") = true /\
      complete_handler sv c w =
      (Returned
         match insert_error sv (reports_table w) (reportData_of body uid) with
         | Some message =>
             json (JObj [("error", JStr "Failed to create report");
                         ("details", JStr message)]) 500
         | None =>
             json (JObj [("ok", JBool true);
                         ("report_id", field body "report_id")]) 201
         end,
       after_insert sv (reportData_of body uid) w)).
Proof.
  unfold complete_handler.
  destruct (userId c) as [uid|] eqn:Hu; [|left; eexists; split; [reflexivity|]; now intros r [= <-]].
  destruct (uid =? "")%string eqn:Hne; [left; eexists; split; [reflexivity|]; now intros r [= <-]|].
  destruct (falsy _ || falsy _); [left; eexists; split; [reflexivity|]; now intros r [= <-]|].
  destruct (req_json c) as [body|] eqn:Hb; [|left; eexists; split; [reflexivity|]; now intros r [= <-]].
  destruct (get_prop_cases body) as [Hget|[_ Hget]].
  - unfold prop, lift, bind. rewrite Hget.
    destruct (ToBoolean (field body "report_id")) eqn:Hr; cbn [negb];
      [|left; eexists; split; [reflexivity|]; now intros r [= <-]].
    right. exists uid, body. apply String.eqb_neq in Hne.
    repeat (split; [assumption || reflexivity|]).
    rewrite (build_reportData_ok _ _ _ Hget).
    unfold insert_report, emit, bind, after_insert, ret. simpl.
    destruct (insert_error sv (reports_table w) (reportData_of body uid));
      reflexivity.
  - left. unfold prop, lift, bind. rewrite Hget.
    eexists; split; [reflexivity|]. discriminate.
Qed.

(** What a 201 from [/reports/complete] means: the request passed the
    Token Verifier, its body carries a truthy [report_id], the database
    took the row built from that body and the verified subject, and the
    row is the one new entry of the table. *)
Lemma route_complete_created (sv : Services) (now : Z) (c : Context)
    (w w' : World) (r : Response) :
  route_complete sv now c w = (Returned r, w') ->
  status r = 201 ->
  exists url s p w1 parsed,
    SUPABASE_URL (env c) = Some url /\
    verifyToken sv (authorization c) url now w = (Returned (s, p), w1) /\
    req_json c = Some parsed /\
    ToBoolean (field parsed "report_id") = true /\
    reports_table w' = (reports_table w ++ [reportData_of parsed s])%list /\
    trace w' = (trace w1 ++ [EvInsert (reportData_of parsed s)])%list /\
    body r = JObj [("ok", JBool true);
                   ("report_id", field parsed "report_id")].
Proof.
  intros H Hs. unfold route_complete in H.
  apply authMiddleware_passed in H as (url & s & p & w1 & Hu & _ & Hv & Hh);
    [|rewrite Hs; discriminate..].
  exists url, s, p, w1.
  destruct (complete_handler_cases sv (set_userId s c) w1)
    as [(o & Ho & Hno)|(uid & parsed & Hid & _ & Hb & Hr & Hc)].
  - rewrite Ho in Hh. injection Hh as -> _. now destruct (Hno r eq_refl).
  - simpl in Hid, Hb. injection Hid as <-. exists parsed.
    rewrite Hc in Hh. injection Hh as <- <-.
    unfold after_insert in *.
    destruct (insert_error sv (reports_table w1) (reportData_of parsed s));
      [discriminate Hs|].
    simpl. rewrite (verifyToken_table _ _ _ _ _ _ _ Hv). auto 10.
Qed.

Lemma with_json_same_credentials (c : Context) (parsed : option JsValue) :
  authorization (with_json c parsed) = authorization c /\
  env (with_json c parsed) = env c.
Proof. split; reflexivity. Qed.

(** C1.  When [/reports/complete] succeeds, the owner of the persisted
    row is the subject the Token Verifier produced for this request; the
    body has no say in it: the same request with any other body, if it
    succeeds, persists the same owner. *)
Theorem complete_owner_is_verified_subject (sv : Services) (now : Z)
    (c : Context) (w w' : World) (r : Response) :
  route_complete sv now c w = (Returned r, w') ->
  status r = 201 ->
  exists url s p w1 row,
    SUPABASE_URL (env c) = Some url /\
    verifyToken sv (authorization c) url now w = (Returned (s, p), w1) /\
    reports_table w' = (reports_table w ++ [row])%list /\
    user_id row = s /\
    forall other r2 w2 row2,
      route_complete sv now (with_json c other) w = (Returned r2, w2) ->
      status r2 = 201 ->
      reports_table w2 = (reports_table w ++ [row2])%list ->
      user_id row2 = s.
Proof.
  intros H Hs.
  destruct (route_complete_created sv now c w w' r H Hs)
    as (url & s & p & w1 & parsed & Hu & Hv & _ & _ & Ht & _).
  exists url, s, p, w1, (reportData_of parsed s).
  repeat split; try assumption.
  intros other r2 w2 row2 H2 Hs2 Ht2.
  destruct (route_complete_created sv now _ w w2 r2 H2 Hs2)
    as (url2 & s2 & p2 & w3 & parsed2 & Hu2 & Hv2 & _ & _ & Ht3 & _).
  destruct (with_json_same_credentials c other) as [Ha He].
  rewrite He, Hu in Hu2. injection Hu2 as <-.
  rewrite Ha, Hv in Hv2. injection Hv2 as <- _ _.
  rewrite Ht3 in Ht2. apply app_inv_head in Ht2. injection Ht2 as <-.
  reflexivity.
Qed.

Lemma complete_owner_is_verified_subject_witness :
  exists row,
    reports_table
      (snd (route_complete demo_services 0
              (demo_request
                 (Some (JObj [("report_id", JStr "r-1");
                              ("user_id", JStr "somebody-else")])))
              initial_world)) = [row] /\
    user_id row = "user-1".
Proof.
  destruct (complete_owner_is_verified_subject demo_services 0
              (demo_request
                 (Some (JObj [("report_id", JStr "r-1");
                              ("user_id", JStr "somebody-else")])))
              initial_world _ _ eq_refl eq_refl)
    as (url & s & p & w1 & row & Hu & Hv & Ht & Ho & _).
  exists row. split; [exact Ht|].
  injection Hu as <-. vm_compute in Hv. injection Hv as <- _ _. exact Ho.
Defined.

Lemma nonempty_append (a b : string) : a <> "" -> (a ++ b =? "")%string = false.
Proof.
  intros Ha. destruct a; [contradiction|reflexivity].
Qed.


(** Where the missing-field rule holds: an authenticated request whose
    body does not parse, or parses to something other than [null] without
    a truthy [report_id], is answered 400 and the world is untouched. *)
Lemma complete_missing_report_id (sv : Services) (c : Context) (w : World)
    (uid : string) :
  userId c = Some uid -> uid <> "" ->
  falsy (SUPABASE_URL (env c)) || falsy (SUPABASE_SERVICE_ROLE_KEY (env c))
  = false ->
  (forall parsed, req_json c = Some parsed ->
                  parsed <> JNull /\ parsed <> JUndefined /\
                  ToBoolean (field parsed "report_id") = false) ->
  exists message,
    complete_handler sv c w = (Returned (json (error_body message) 400), w).
Proof.
  intros Hu Hne Hcfg Hbody. unfold complete_handler.
  apply String.eqb_neq in Hne. rewrite Hu, Hne, Hcfg.
  destruct (req_json c) as [parsed|]; [|eexists; reflexivity].
  destruct (Hbody parsed eq_refl) as (Hn & Hud & Hr).
  destruct (get_prop_cases parsed) as [Hget|[[->| ->] _]];
    [|contradiction..].
  unfold prop, lift, bind. rewrite Hget, Hr. eexists; reflexivity.
Qed.

(** C6, at the body [null].  [JSON.parse] accepts the text [null]; the
    body then has no [report_id], but reading the property throws, and the
    request ends in the 500 of [app.onError] instead of the 400 of the
    missing-field check.  Nothing is inserted. *)
Theorem complete_null_body_is_500 :
  let result := route_complete demo_services 0 (demo_request (Some JNull))
                  initial_world in
  fst result
  = Returned (onError "Cannot read properties of null (reading 'report_id')") /\
  status_of result = Some 500 /\
  reports_table (snd result) = [] /\
  ~ missing_report_id_is_400 demo_services 0 (demo_request (Some JNull))
      initial_world.
Proof.
  repeat split.
  intros H. destruct H as [H _].
  - intros parsed [= <-]. reflexivity.
  - discriminate H.
Qed.

(** C9 as stated fails: a verified caller that never called
    [/reports/init] completes a report under an identifier of its own
    choosing, and the row is persisted under it. *)
Lemma complete_persists_client_identifier :
  ~ persisted_id_was_generated demo_services 0
      (demo_request (Some (JObj [("report_id", JStr "chosen-by-the-client")])))
      initial_world.
Proof.
  intros H.
  edestruct H as (uuid & Hin & _); [reflexivity|reflexivity|].
  destruct Hin.
Qed.

(* ================================================================== *)
(** ** The [/init] handler *)

Lemma granted_url (r : StorageResponse) (d : SignedUpload) :
  granted r = Some d -> signedUrl d <> "".
Proof.
  unfold granted. destruct (error r); [discriminate|].
  destruct (data r) as [d'|]; [|discriminate].
  destruct (signedUrl d' =? "")%string eqn:E; [discriminate|].
  intros [= <-]. now apply String.eqb_neq.
Qed.

Ltac answered H Hs := injection H as <- _; discriminate Hs.

(** A 200 from the handler: the audio grant was obtained, and each of the
    other two slots carries its grant or is null according to the flag of
    the body. *)
Lemma init_handler_ok (sv : Services) (uuid : string) (c : Context)
    (w w' : World) (r : Response) :
  init_handler sv uuid c w = (Returned r, w') ->
  status r = 200 ->
  exists audio mu mt mp vu vt vp,
    audio_grant sv uuid = Some audio /\
    body r = init_response uuid audio (uuid ++ "/system_audio.wav")
               mu mt mp vu vt vp /\
    (if want_microphone c
     then exists m, microphone_grant sv uuid = Some m /\
                    mu = JStr (signedUrl m) /\ mt = JStr (token m) /\
                    mp = JStr (uuid ++ "/microphone.wav")
     else mu = JNull /\ mt = JNull /\ mp = JNull) /\
    (if want_video c
     then exists v, video_grant sv uuid = Some v /\
                    vu = JStr (signedUrl v) /\ vt = JStr (token v) /\
                    vp = JStr (uuid ++ "/screen_recording.avi")
     else vu = JNull /\ vt = JNull /\ vp = JNull).
Proof.
  intros H Hs. unfold init_handler in H.
  change (match req_json c with Some parsed => parsed | None => JObj [] end)
    with (init_body c) in H.
  destruct (falsy (userId c)); [answered H Hs|].
  destruct (falsy _ || falsy _); [answered H Hs|].
  unfold randomUUID, sign_upload, prop, lift, bind, emit, ret in H.
  cbn [fst snd] in H.
  unfold audio_grant, microphone_grant, video_grant, want_microphone,
    want_video.
  destruct (granted (createSignedUploadUrl sv "reports-audio"
                       (uuid ++ "/system_audio.wav"))) as [audio|];
    [|answered H Hs].
  destruct (get_prop_cases (init_body c)) as [Hget|[_ Hget]];
    rewrite !Hget in H; [|discriminate H].
  exists audio.
  destruct (ToBoolean (field (init_body c) "has_microphone"));
    [destruct (granted (createSignedUploadUrl sv "reports-audio"
                          (uuid ++ "/microphone.wav"))) as [m|];
     [|answered H Hs]|];
    (destruct (ToBoolean (field (init_body c) "has_video"));
     [destruct (granted (createSignedUploadUrl sv "reports-video"
                           (uuid ++ "/screen_recording.avi"))) as [v|];
      [|answered H Hs]|]);
    injection H as <- _; do 6 eexists; simpl;
    (split; [reflexivity|split; [reflexivity|split]]);
    first [eexists; repeat split; reflexivity | repeat split; reflexivity].
Qed.

(** A grant that was asked for and refused ends the handler with the
    error response of that slot. *)
Lemma init_handler_refused (sv : Services) (uuid : string) (c : Context)
    (w : World) :
  falsy (userId c) = false ->
  falsy (SUPABASE_URL (env c)) || falsy (SUPABASE_SERVICE_ROLE_KEY (env c))
  = false ->
  audio_grant sv uuid = None \/
  (want_microphone c = true /\ microphone_grant sv uuid = None) \/
  (want_video c = true /\ video_grant sv uuid = None) ->
  exists r w',
    init_handler sv uuid c w = (Returned r, w') /\ GrantIssuanceFailed r.
Proof.
  intros Hu Hcfg Hfail. unfold init_handler.
  change (match req_json c with Some parsed => parsed | None => JObj [] end)
    with (init_body c).
  rewrite Hu, Hcfg.
  unfold randomUUID, sign_upload, prop, lift, bind, emit, ret.
  cbn [fst snd].
  unfold audio_grant, microphone_grant, video_grant, want_microphone,
    want_video, GrantIssuanceFailed in *.
  destruct (granted (createSignedUploadUrl sv "reports-audio"
                       (uuid ++ "/system_audio.wav"))) as [audio|];
    [|do 2 eexists; split; [reflexivity|simpl; auto]].
  destruct Hfail as [Hfail|Hfail]; [discriminate Hfail|].
  destruct (get_prop_cases (init_body c)) as [Hget|[[Hnull|Hnull] _]].
  - rewrite !Hget.
    destruct (ToBoolean (field (init_body c) "has_microphone"));
      [destruct (granted (createSignedUploadUrl sv "reports-audio"
                            (uuid ++ "/microphone.wav"))) as [m|];
       [|do 2 eexists; split; [reflexivity|simpl; auto]]|];
      (destruct (ToBoolean (field (init_body c) "has_video"));
       [destruct (granted (createSignedUploadUrl sv "reports-video"
                             (uuid ++ "/screen_recording.avi"))) as [v|];
        [|do 2 eexists; split; [reflexivity|simpl; auto]]|]);
      destruct Hfail as [[? ?]|[? ?]]; discriminate.
  - rewrite Hnull in Hfail. simpl in Hfail.
    destruct Hfail as [[? ?]|[? ?]]; discriminate.
  - rewrite Hnull in Hfail. simpl in Hfail.
    destruct Hfail as [[? ?]|[? ?]]; discriminate.
Qed.

Lemma init_handler_body (sv : Services) (uuid : string) (c1 c2 : Context) :
  userId c1 = userId c2 -> env c1 = env c2 -> init_body c1 = init_body c2 ->
  init_handler sv uuid c1 = init_handler sv uuid c2.
Proof.
  intros Hu He Hb. unfold init_handler.
  change (match req_json c1 with Some parsed => parsed | None => JObj [] end)
    with (init_body c1).
  change (match req_json c2 with Some parsed => parsed | None => JObj [] end)
    with (init_body c2).
  now rewrite Hu, He, Hb.
Qed.

Lemma verifyToken_subject (sv : Services) (h : option string) (url : string)
    (now : Z) (w w1 : World) (s : string) (p : JWTPayload) :
  verifyToken sv h url now w = (Returned (s, p), w1) -> s <> "".
Proof.
  unfold verifyToken. intros H.
  destruct h as [header|]; [|discriminate H].
  destruct (header =? "")%string; [discriminate H|].
  destruct (split " " header) as [|scheme [|token [|x xs]]];
    try discriminate H.
  destruct (negb (scheme =? "Bearer")%string); [discriminate H|].
  unfold try_catch, verify_bearer, bind, throw in H.
  destruct (getJWKS sv url now w) as [[keys|e] w2]; [|discriminate H].
  destruct (jwtVerify sv token keys _ now w2) as [[payload|e] w3];
    [|discriminate H].
  destruct (sub payload) as [s'|]; [|discriminate H].
  destruct (s' =? "")%string eqn:E; [discriminate H|].
  injection H as <- _ _. now apply String.eqb_neq.
Qed.

Lemma route_init_passed (sv : Services) (now : Z) (uuid : string)
    (c : Context) (w w' : World) (r : Response) :
  route_init sv now uuid c w = (Returned r, w') ->
  status r = 200 ->
  exists s w1, init_handler sv uuid (set_userId s c) w1 = (Returned r, w').
Proof.
  intros H Hs. unfold route_init in H.
  apply authMiddleware_passed in H as (url & s & p & w1 & _ & _ & _ & Hh);
    [|rewrite Hs; discriminate..].
  eauto.
Qed.

(** A usable answer of the storage service: data, no error, and a
    locator that is not empty. *)
Lemma granted_answer (answer : StorageResponse) (d : SignedUpload) :
  granted answer = Some d ->
  data answer = Some d /\ error answer = None /\ signedUrl d <> "".
Proof.
  intros H. pose proof (granted_url _ _ H) as Hurl.
  unfold granted in H. destruct (error answer); [discriminate H|].
  destruct (data answer) as [d'|]; [|discriminate H].
  destruct (signedUrl d' =? "")%string; [discriminate H|].
  injection H as ->. auto.
Qed.

(** A slot of the response, from what the handler put in it. *)
Lemma slot_by_flag (r : Response) (ku kt kp expected : string) (want : bool)
    (answer : StorageResponse) (x y z : JsValue) :
  field (body r) ku = x -> field (body r) kt = y -> field (body r) kp = z ->
  (if want
   then exists m, granted answer = Some m /\ x = JStr (signedUrl m) /\
                  y = JStr (token m) /\ z = JStr expected
   else x = JNull /\ y = JNull /\ z = JNull) ->
  (slot_present r ku kt kp <-> want = true) /\
  (want = true -> slot_granted r ku kt kp answer expected) /\
  (want = false -> slot_null r ku kt kp).
Proof.
  intros Hx Hy Hz Hslot.
  unfold slot_present, slot_granted, slot_null. rewrite Hx, Hy, Hz.
  destruct want.
  - destruct Hslot as (m & Hg & -> & -> & ->).
    apply granted_answer in Hg as (Hd & He & Hu).
    split; [split; [reflexivity|repeat split; discriminate]|].
    split; [|discriminate].
    intros _. exists m. auto 10.
  - destruct Hslot as (-> & -> & ->).
    split; [split; [intros (Hn & _); now destruct Hn|discriminate]|].
    split; [discriminate|auto].
Qed.

(** C4.  A successful [/reports/init] answers with the report identifier
    and an audio grant: the locator and the token that the storage service
    answered for [{report_id}/system_audio.wav] in bucket [reports-audio],
    and that path.  Its microphone grant (locator, token and path) is not
    null exactly when the request asked for the microphone -- it is then
    what the storage service answered for [{report_id}/microphone.wav] --
    and is null in all three fields otherwise; likewise the video grant,
    from bucket [reports-video], and the request for video. *)
Theorem init_grants (sv : Services) (now : Z) (uuid : string) (c : Context)
    (w w' : World) (r : Response) :
  route_init sv now uuid c w = (Returned r, w') ->
  status r = 200 ->
  field (body r) "report_id" = JStr uuid /\
  slot_granted r "audio_upload_url" "audio_upload_token" "audio_path"
    (createSignedUploadUrl sv "reports-audio" (uuid ++ "/system_audio.wav"))
    (uuid ++ "/system_audio.wav") /\
  ((slot_present r "microphone_upload_url" "microphone_upload_token"
      "microphone_path" <-> want_microphone c = true) /\
   (want_microphone c = true ->
    slot_granted r "microphone_upload_url" "microphone_upload_token"
      "microphone_path"
      (createSignedUploadUrl sv "reports-audio" (uuid ++ "/microphone.wav"))
      (uuid ++ "/microphone.wav")) /\
   (want_microphone c = false ->
    slot_null r "microphone_upload_url" "microphone_upload_token"
      "microphone_path")) /\
  ((slot_present r "video_upload_url" "video_upload_token" "video_path"
    <-> want_video c = true) /\
   (want_video c = true ->
    slot_granted r "video_upload_url" "video_upload_token" "video_path"
      (createSignedUploadUrl sv "reports-video"
         (uuid ++ "/screen_recording.avi"))
      (uuid ++ "/screen_recording.avi")) /\
   (want_video c = false ->
    slot_null r "video_upload_url" "video_upload_token" "video_path")).
Proof.
  intros H Hs.
  destruct (route_init_passed sv now uuid c w w' r H Hs) as (s & w1 & Hh).
  destruct (init_handler_ok sv uuid _ w1 w' r Hh Hs)
    as (audio & mu & mt & mp & vu & vt & vp & Ha & Hb & Hm & Hv).
  change (want_microphone (set_userId s c)) with (want_microphone c) in Hm.
  change (want_video (set_userId s c)) with (want_video c) in Hv.
  apply granted_answer in Ha as (Hd & He & Hu).
  split; [rewrite Hb; reflexivity|].
  split.
  { unfold slot_granted. rewrite Hb. exists audio. auto 10. }
  split.
  - apply (slot_by_flag r _ _ _ _ _ _ mu mt mp);
      try (rewrite Hb; reflexivity). exact Hm.
  - apply (slot_by_flag r _ _ _ _ _ _ vu vt vp);
      try (rewrite Hb; reflexivity). exact Hv.
Qed.

Lemma init_grants_witness :
  exists r,
    fst (route_init demo_services 0 "uuid-1"
           (demo_request (Some (JObj [("has_microphone", JBool true);
                                      ("has_video", JBool false)])))
           initial_world) = Returned r /\
    slot_granted r "microphone_upload_url" "microphone_upload_token"
      "microphone_path"
      (createSignedUploadUrl demo_services "reports-audio"
         "uuid-1/microphone.wav")
      "uuid-1/microphone.wav" /\
    slot_present r "microphone_upload_url" "microphone_upload_token"
      "microphone_path" /\
    slot_null r "video_upload_url" "video_upload_token" "video_path".
Proof.
  eexists. split; [reflexivity|].
  destruct (init_grants demo_services 0 "uuid-1"
              (demo_request (Some (JObj [("has_microphone", JBool true);
                                         ("has_video", JBool false)])))
              initial_world _ _ eq_refl eq_refl)
    as (_ & _ & (Mic & Granted & _) & (_ & _ & NoVideo)).
  split; [apply Granted; reflexivity|].
  split; [apply Mic|apply NoVideo]; reflexivity.
Defined.

(** C7.  When a grant that [/reports/init] asks for cannot be obtained --
    the audio grant, the microphone grant of a request for the microphone,
    or the video grant of a request for video -- the call ends with status
    500 and a body that is the error message alone: no grant of another
    slot is returned. *)
Theorem init_grant_failure (sv : Services) (now : Z) (uuid : string)
    (c : Context) (w w1 : World) (url s : string) (p : JWTPayload) :
  SUPABASE_URL (env c) = Some url -> url <> "" ->
  falsy (SUPABASE_SERVICE_ROLE_KEY (env c)) = false ->
  verifyToken sv (authorization c) url now w = (Returned (s, p), w1) ->
  audio_grant sv uuid = None \/
  (want_microphone c = true /\ microphone_grant sv uuid = None) \/
  (want_video c = true /\ video_grant sv uuid = None) ->
  exists r w',
    route_init sv now uuid c w = (Returned r, w') /\ GrantIssuanceFailed r.
Proof.
  intros Hu Hne Hkey Hv Hfail. unfold route_init.
  rewrite (authMiddleware_verified _ _ _ _ _ _ _ _ _ Hu Hne Hv).
  destruct (init_handler_refused sv uuid (set_userId s c) w1)
    as (r & w' & Hh & Hr).
  - simpl. apply String.eqb_neq. eapply verifyToken_subject, Hv.
  - simpl. rewrite Hu, Hkey. simpl. apply String.eqb_neq in Hne.
    now rewrite Hne.
  - exact Hfail.
  - exists r, w'. split; [|exact Hr].
    unfold dispatch, try_catch. now rewrite Hh.
Qed.

Lemma init_grant_failure_witness :
  exists r w',
    route_init storage_down 0 "uuid-1"
      (demo_request (Some (JObj [("has_video", JBool true)]))) initial_world
    = (Returned r, w') /\
    GrantIssuanceFailed r.
Proof.
  eapply (init_grant_failure storage_down 0 "uuid-1"
            (demo_request (Some (JObj [("has_video", JBool true)])))
            initial_world _ demo_url "user-1" demo_payload).
  - reflexivity.
  - discriminate.
  - reflexivity.
  - reflexivity.
  - left. reflexivity.
Defined.


(** C10.  A [/reports/init] request whose body is absent or is not JSON is
    handled exactly as the same request with the body [{}]: it is not
    refused, and when it succeeds it returns the audio grant -- the locator
    and token the storage service answered for the audio slot -- with the
    microphone and video fields null; for a verified caller it does
    succeed, with exactly that response, whenever the storage service
    grants the audio upload.  [/reports/complete] answers the same kind of
    body with 400. *)
Theorem init_unparsable_body (sv : Services) (now : Z) (uuid : string)
    (c : Context) (w : World) :
  req_json c = None ->
  route_init sv now uuid c w
  = route_init sv now uuid (with_json c (Some (JObj []))) w /\
  (forall r w',
      route_init sv now uuid c w = (Returned r, w') ->
      status r = 200 ->
      slot_granted r "audio_upload_url" "audio_upload_token" "audio_path"
        (createSignedUploadUrl sv "reports-audio"
           (uuid ++ "/system_audio.wav"))
        (uuid ++ "/system_audio.wav") /\
      slot_null r "microphone_upload_url" "microphone_upload_token"
        "microphone_path" /\
      slot_null r "video_upload_url" "video_upload_token" "video_path") /\
  (forall url s p w1,
      SUPABASE_URL (env c) = Some url -> url <> "" ->
      falsy (SUPABASE_SERVICE_ROLE_KEY (env c)) = false ->
      verifyToken sv (authorization c) url now w = (Returned (s, p), w1) ->
      (forall audio,
          audio_grant sv uuid = Some audio ->
          fst (route_init sv now uuid c w)
          = Returned (json (init_response uuid audio
                              (uuid ++ "/system_audio.wav")
                              JNull JNull JNull JNull JNull JNull) 200)) /\
      route_complete sv now c w
      = (Returned (json (error_body "Invalid JSON body") 400), w1)).
Proof.
  intros Hnone. split; [|split].
  - unfold route_init, authMiddleware. simpl.
    destruct (SUPABASE_URL (env c)) as [url|]; [|reflexivity].
    destruct (url =? "")%string; [reflexivity|].
    unfold try_catch, bind.
    destruct (verifyToken sv (authorization c) url now w) as [[[s p]|e] w1];
      [|reflexivity].
    unfold dispatch.
    rewrite (init_handler_body sv uuid (set_userId (fst (s, p)) c)
               (set_userId (fst (s, p)) (with_json c (Some (JObj [])))));
      try reflexivity.
    unfold init_body. simpl. now rewrite Hnone.
  - intros r w' H Hs.
    destruct (route_init_passed sv now uuid c w w' r H Hs) as (s & w1 & Hh).
    destruct (init_handler_ok sv uuid _ w1 w' r Hh Hs)
      as (audio & mu & mt & mp & vu & vt & vp & Ha & Hb & Hm & Hv).
    unfold want_microphone, want_video, init_body in Hm, Hv.
    simpl in Hm, Hv. rewrite Hnone in Hm, Hv. simpl in Hm, Hv.
    destruct Hm as (-> & -> & ->). destruct Hv as (-> & -> & ->).
    apply granted_answer in Ha as (Hd & He & Hu).
    unfold slot_granted, slot_null. rewrite Hb.
    split; [|split; repeat split].
    exists audio. auto 10.
  - intros url s p w1 Hu Hne Hkey Hv.
    assert (Hs : (s =? "")%string = false)
      by (apply String.eqb_neq; eapply verifyToken_subject, Hv).
    assert (Hcfg : falsy (SUPABASE_URL (env c))
                   || falsy (SUPABASE_SERVICE_ROLE_KEY (env c)) = false).
    { rewrite Hu, Hkey. simpl. apply String.eqb_neq in Hne. now rewrite Hne. }
    split.
    + intros audio Ha. unfold route_init.
      rewrite (authMiddleware_verified _ _ _ _ _ _ _ _ _ Hu Hne Hv).
      unfold dispatch, try_catch, init_handler. simpl. rewrite Hs, Hcfg, Hnone.
      unfold randomUUID, sign_upload, prop, lift, bind, emit, ret.
      cbn [fst snd].
      unfold audio_grant in Ha. rewrite Ha. reflexivity.
    + unfold route_complete.
      rewrite (authMiddleware_verified _ _ _ _ _ _ _ _ _ Hu Hne Hv).
      unfold dispatch, try_catch, complete_handler. simpl.
      rewrite Hs, Hcfg, Hnone. reflexivity.
Qed.

Lemma init_unparsable_body_witness :
  fst (route_init demo_services 0 "uuid-1" (demo_request None) initial_world)
  = Returned
      (json (init_response "uuid-1"
               {| signedUrl :=
                    "https://storage/reports-audio/uuid-1/system_audio.wav";
                  token := "upload-token";
                  path := "uuid-1/system_audio.wav" |}
               "uuid-1/system_audio.wav"
               JNull JNull JNull JNull JNull JNull) 200) /\
  status_of (route_complete demo_services 0 (demo_request None) initial_world)
  = Some 400.
Proof.
  destruct (init_unparsable_body demo_services 0 "uuid-1" (demo_request None)
              initial_world eq_refl) as (_ & _ & Auth).
  edestruct (Auth demo_url "user-1" demo_payload) as [Init Complete];
    [reflexivity|discriminate|reflexivity|reflexivity|].
  split.
  - apply Init. reflexivity.
  - unfold status_of. rewrite Complete. reflexivity.
Defined.

(* ================================================================== *)
(** ** Examples *)

(** For a flag of the declared type, boolean or absent, asking for the
    microphone is the flag being [true]. *)
Lemma want_microphone_boolean (c : Context) :
  (forall b, field (init_body c) "has_microphone" = JBool b ->
             want_microphone c = b) /\
  (field (init_body c) "has_microphone" = JUndefined ->
   want_microphone c = false).
Proof.
  unfold want_microphone. split.
  - now intros b ->.
  - now intros ->.
Qed.

Example whitespace_parts_samples :
  whitespace_parts "Bearer abc.def.ghi" = ["Bearer"; "abc.def.ghi"] /\
  whitespace_parts "Bearer   abc" = ["Bearer"; "abc"] /\
  whitespace_parts "Bearer " = ["Bearer"] /\
  whitespace_parts "" = [].
Proof. repeat split. Qed.

Example split_samples :
  split " " "Bearer abc.def.ghi" = ["Bearer"; "abc.def.ghi"] /\
  split " " "Bearer  abc" = ["Bearer"; ""; "abc"] /\
  split " " "Bearer " = ["Bearer"; ""] /\
  split " " "" = [""].
Proof. repeat split. Qed.

(** The scheme followed by one space and nothing else has the shape the
    code accepts: the empty token goes to the signature check. *)
Example bearer_without_token :
  fst (verifyToken demo_services (Some "Bearer ") demo_url 0 initial_world)
  = Thrown "JWT verification failed: signature verification failed".
Proof. reflexivity. Qed.

Example audioPaths_samples :
  audioPaths_of (JStr "a/x.wav") (JStr "a/y.wav") = "a/x.wav,a/y.wav" /\
  audioPaths_of (JStr "a/x.wav") JUndefined = "a/x.wav" /\
  audioPaths_of (JStr "") (JStr "a/y.wav") = "a/y.wav" /\
  audioPaths_of JUndefined JNull = "".
Proof. repeat split. Qed.

(** The scenario of section 8 of the specification: [init] with a
    microphone and no video, then [complete] with the returned identifier
    and no video path. *)
Example end_to_end :
  let started :=
    route_init demo_services 0 "uuid-1"
      (demo_request (Some (JObj [("has_microphone", JBool true);
                                 ("has_video", JBool false)])))
      initial_world in
  let finished :=
    route_complete demo_services 1000
      (demo_request (Some (JObj [("report_id", JStr "uuid-1");
                                 ("audio_path", JStr "uuid-1/system_audio.wav");
                                 ("microphone_path",
                                  JStr "uuid-1/microphone.wav")])))
      (snd started) in
  fst started
  = Returned
      (json (JObj [("report_id", JStr "uuid-1");
                   ("audio_upload_url",
                    JStr "https://storage/reports-audio/uuid-1/system_audio.wav");
                   ("audio_upload_token", JStr "upload-token");
                   ("audio_path", JStr "uuid-1/system_audio.wav");
                   ("microphone_upload_url",
                    JStr "https://storage/reports-audio/uuid-1/microphone.wav");
                   ("microphone_upload_token", JStr "upload-token");
                   ("microphone_path", JStr "uuid-1/microphone.wav");
                   ("video_upload_url", JNull);
                   ("video_upload_token", JNull);
                   ("video_path", JNull)]) 200) /\
  fst finished
  = Returned (json (JObj [("ok", JBool true);
                          ("report_id", JStr "uuid-1")]) 201) /\
  map user_id (reports_table (snd finished)) = ["user-1"] /\
  map audio_path (reports_table (snd finished))
  = [JStr "uuid-1/system_audio.wav,uuid-1/microphone.wav"] /\
  fetches (trace (snd finished)) = 1%nat.
Proof. repeat split. Qed.

(* ================================================================== *)
(** ** Footprints: what each part of a request can do to the world *)

Lemma added_events_trans (w w1 w2 : World) (t u : list Event) :
  added_events w w1 t -> added_events w1 w2 u -> added_events w w2 (t ++ u).
Proof.
  unfold added_events. intros -> ->. now rewrite app_assoc.
Qed.

(** [verifyToken] adds at most a fetch and a signature check to the
    trace, in that order, and only for a header of the Bearer shape. *)
Lemma verifyToken_trace (sv : Services) (h : option string) (url : string)
    (now : Z) (w w1 : World) (o : outcome (string * JWTPayload)) :
  verifyToken sv h url now w = (o, w1) ->
  reports_table w1 = reports_table w /\
  exists t,
    added_events w w1 t /\
    (t = [] \/
     exists token,
       h = Some ("Bearer " ++ token) /\
       (t = [EvJwtVerify token] \/
        t = [EvCreateRemoteJWKSet (jwks_location url); EvJwtVerify token])).
Proof.
  intros H. split; [exact (verifyToken_table _ _ _ _ _ _ _ H)|].
  unfold added_events. unfold verifyToken in H.
  destruct h as [header|];
    [|injection H as _ <-; exists []; now rewrite app_nil_r; auto].
  destruct (header =? "")%string;
    [injection H as _ <-; exists []; now rewrite app_nil_r; auto|].
  destruct (split " " header) as [|scheme [|token [|x xs]]] eqn:Es;
    try (injection H as _ <-; exists []; now rewrite app_nil_r; auto).
  destruct (scheme =? "Bearer")%string eqn:Eb; cbn [negb] in H;
    [|injection H as _ <-; exists []; now rewrite app_nil_r; auto].
  apply String.eqb_eq in Eb as ->.
  apply split_pair in Es as (-> & _ & _).
  assert (Hw : w1 = snd (verify_bearer sv token url now w)).
  { apply (f_equal snd) in H. rewrite rethrow_world in H. now symmetry. }
  clear H.
  destruct (getJWKS_cases sv url now w) as [[[keys|e] Ho]|[_ Hr]].
  - rewrite (verify_bearer_world _ _ _ _ _ _ _ Ho) in Hw. subst w1.
    exists [EvJwtVerify token]. split; [reflexivity|]. right.
    exists token. split; [reflexivity|now left].
  - rewrite (verify_bearer_unresolved _ _ _ _ _ _ _ Ho) in Hw. subst w1.
    exists []. split; [simpl; now rewrite app_nil_r|auto].
  - rewrite (verify_bearer_world _ _ _ _ _ _ _ Hr) in Hw. subst w1.
    exists [EvCreateRemoteJWKSet (jwks_location url); EvJwtVerify token].
    split; [simpl; now rewrite <- app_assoc|]. right.
    exists token. split; [reflexivity|now right].
Qed.

(** The three ways through [authMiddleware]. *)
Lemma authMiddleware_cases (sv : Services) (now : Z)
    (h : Context -> Eff Response) (c : Context) (w : World) :
  (falsy (SUPABASE_URL (env c)) = true /\
   authMiddleware sv now (dispatch h) c w
   = (Returned (json (error_body
                        "Server configuration error: Missing SUPABASE_URL")
                     500), w)) \/
  (exists url message w1,
      SUPABASE_URL (env c) = Some url /\ url <> "" /\
      verifyToken sv (authorization c) url now w = (Thrown message, w1) /\
      authMiddleware sv now (dispatch h) c w
      = (Returned (json (error_body message) 401), w1)) \/
  (exists url s p w1,
      SUPABASE_URL (env c) = Some url /\ url <> "" /\
      verifyToken sv (authorization c) url now w = (Returned (s, p), w1) /\
      authMiddleware sv now (dispatch h) c w
      = dispatch h (set_userId s c) w1).
Proof.
  destruct (SUPABASE_URL (env c)) as [url|] eqn:Hu.
  - destruct (String.eqb_spec url "") as [->|Hne].
    + left. unfold authMiddleware. rewrite Hu. auto.
    + right.
      destruct (verifyToken sv (authorization c) url now w)
        as [[[s p]|message] w1] eqn:Hv.
      * right. exists url, s, p, w1. repeat split; try assumption.
        now apply (authMiddleware_verified _ _ _ _ _ _ _ s p Hu Hne).
      * left. exists url, message, w1. repeat split; try assumption.
        unfold authMiddleware. rewrite Hu.
        apply String.eqb_neq in Hne. rewrite Hne.
        unfold try_catch, bind. now rewrite Hv.
  - left. unfold authMiddleware. rewrite Hu. auto.
Qed.

Ltac init_run :=
  unfold init_handler;
  match goal with
  | |- context [match req_json ?c with Some parsed => parsed | None => JObj [] end] =>
      change (match req_json c with Some parsed => parsed | None => JObj [] end)
        with (init_body c)
  end;
  unfold randomUUID, sign_upload, prop, lift, bind, emit, ret;
  cbn [fst snd];
  unfold audio_grant, microphone_grant, video_grant, want_microphone,
    want_video in *.

Ltac traced :=
  unfold add_trace; cbn [jwksCache reports_table trace];
  rewrite <- ?app_assoc; reflexivity.

(** The handler of [/init] behind a passed middleware and with both
    bindings configured, for a body that is not [null]: the random draw,
    the audio request, and then what the grants and the flags decide. *)
Lemma init_handler_run (sv : Services) (uuid : string) (c : Context)
    (w : World) :
  falsy (userId c) = false ->
  falsy (SUPABASE_URL (env c)) || falsy (SUPABASE_SERVICE_ROLE_KEY (env c))
  = false ->
  (forall k, get_prop (init_body c) k = Returned (field (init_body c) k)) ->
  let audioPath := uuid ++ "/system_audio.wav" in
  let microphonePath := uuid ++ "/microphone.wav" in
  let videoPath := uuid ++ "/screen_recording.avi" in
  let start := [EvRandomUUID uuid;
                EvCreateSignedUploadUrl "reports-audio" audioPath] in
  let mic := EvCreateSignedUploadUrl "reports-audio" microphonePath in
  let vid := EvCreateSignedUploadUrl "reports-video" videoPath in
  init_handler sv uuid c w =
  match audio_grant sv uuid with
  | None =>
      (Returned (json (error_body "Failed to create audio upload URL") 500),
       add_trace w start)
  | Some a =>
      match want_microphone c, microphone_grant sv uuid,
            want_video c, video_grant sv uuid with
      | true, None, _, _ =>
          (Returned (json (error_body "Failed to create microphone upload URL")
                       500),
           add_trace w (start ++ [mic]))
      | true, Some m, true, None =>
          (Returned (json (error_body "Failed to create video upload URL") 500),
           add_trace w (start ++ [mic; vid]))
      | true, Some m, true, Some v =>
          (Returned (json (init_response uuid a audioPath
                             (JStr (signedUrl m)) (JStr (token m))
                             (JStr microphonePath)
                             (JStr (signedUrl v)) (JStr (token v))
                             (JStr videoPath)) 200),
           add_trace w (start ++ [mic; vid]))
      | true, Some m, false, _ =>
          (Returned (json (init_response uuid a audioPath
                             (JStr (signedUrl m)) (JStr (token m))
                             (JStr microphonePath) JNull JNull JNull) 200),
           add_trace w (start ++ [mic]))
      | false, _, true, None =>
          (Returned (json (error_body "Failed to create video upload URL") 500),
           add_trace w (start ++ [vid]))
      | false, _, true, Some v =>
          (Returned (json (init_response uuid a audioPath JNull JNull JNull
                             (JStr (signedUrl v)) (JStr (token v))
                             (JStr videoPath)) 200),
           add_trace w (start ++ [vid]))
      | false, _, false, _ =>
          (Returned (json (init_response uuid a audioPath JNull JNull JNull
                             JNull JNull JNull) 200),
           add_trace w start)
      end
  end.
Proof.
  intros Hu Hcfg Hget. cbv zeta. init_run. rewrite Hu, Hcfg, !Hget.
  destruct (granted (createSignedUploadUrl sv "reports-audio"
                       (uuid ++ "/system_audio.wav"))) as [a|];
    [|f_equal; traced].
  destruct (ToBoolean (field (init_body c) "has_microphone"));
    [destruct (granted (createSignedUploadUrl sv "reports-audio"
                          (uuid ++ "/microphone.wav"))) as [m|];
     [|f_equal; traced]|];
    (destruct (ToBoolean (field (init_body c) "has_video"));
     [destruct (granted (createSignedUploadUrl sv "reports-video"
                           (uuid ++ "/screen_recording.avi"))) as [v|]|]);
    f_equal; traced.
Qed.

(** The handler of [/init] on the body [null]: the identifier is drawn
    and the audio grant requested before the first property read throws. *)
Lemma init_handler_null (sv : Services) (uuid : string) (c : Context)
    (w : World) :
  falsy (userId c) = false ->
  falsy (SUPABASE_URL (env c)) || falsy (SUPABASE_SERVICE_ROLE_KEY (env c))
  = false ->
  init_body c = JNull \/ init_body c = JUndefined ->
  init_handler sv uuid c w =
  (match audio_grant sv uuid with
   | None => Returned (json (error_body "Failed to create audio upload URL") 500)
   | Some _ =>
       Thrown "Cannot read properties of null (reading 'has_microphone')"
   end,
   add_trace w [EvRandomUUID uuid;
                EvCreateSignedUploadUrl "reports-audio"
                  (uuid ++ "/system_audio.wav")]).
Proof.
  intros Hu Hcfg Hnull. init_run. rewrite Hu, Hcfg.
  destruct (granted (createSignedUploadUrl sv "reports-audio"
                       (uuid ++ "/system_audio.wav"))) as [a|];
    [|f_equal; traced].
  destruct Hnull as [-> | ->]; simpl; f_equal; traced.
Qed.

Lemma init_handler_unready (sv : Services) (uuid : string) (c : Context)
    (w : World) :
  falsy (userId c) = true \/
  falsy (SUPABASE_URL (env c)) || falsy (SUPABASE_SERVICE_ROLE_KEY (env c))
  = true ->
  exists r,
    init_handler sv uuid c w = (Returned r, w) /\
    (status r = 401 /\ falsy (userId c) = true \/ status r = 500).
Proof.
  intros H. unfold init_handler.
  destruct (falsy (userId c)) eqn:Hu.
  - eexists. split; [reflexivity|]. left. auto.
  - destruct H as [H|H]; [discriminate H|]. rewrite H.
    eexists. split; [reflexivity|]. right. reflexivity.
Qed.

Lemma add_trace_events (w : World) (t : list Event) :
  jwksCache (add_trace w t) = jwksCache w /\
  reports_table (add_trace w t) = reports_table w /\
  added_events w (add_trace w t) t.
Proof. repeat split. Qed.

Lemma added_events_nil (w : World) : added_events w w [].
Proof. unfold added_events. now rewrite app_nil_r. Qed.

(** Whatever the request, the handler of [/init] leaves the cache and the
    reports table alone; it only draws an identifier and asks the storage
    service for grants. *)
Lemma init_handler_footprint (sv : Services) (uuid : string) (c : Context)
    (w w' : World) (o : outcome Response) :
  init_handler sv uuid c w = (o, w') ->
  jwksCache w' = jwksCache w /\
  reports_table w' = reports_table w /\
  (exists t, added_events w w' t /\ insertions t = [] /\ fetches t = 0%nat /\
             signature_checks t = []) /\
  (forall r, o = Returned r ->
             In (status r) [200; 401; 500] /\
             (falsy (userId c) = false -> status r <> 401)).
Proof.
  intros H.
  destruct (falsy (userId c)) eqn:Hu.
  { destruct (init_handler_unready sv uuid c w (or_introl Hu))
      as (r & Hr & Hs).
    rewrite Hr in H. injection H as <- <-.
    split; [reflexivity|]. split; [reflexivity|].
    split; [exists []; repeat split; apply added_events_nil|].
    intros r' [= <-]. split; [|discriminate].
    destruct Hs as [[-> _]| ->]; simpl; auto. }
  destruct (falsy (SUPABASE_URL (env c))
            || falsy (SUPABASE_SERVICE_ROLE_KEY (env c))) eqn:Hcfg.
  { destruct (init_handler_unready sv uuid c w (or_intror Hcfg))
      as (r & Hr & Hs).
    rewrite Hr in H. injection H as <- <-.
    split; [reflexivity|]. split; [reflexivity|].
    split; [exists []; repeat split; apply added_events_nil|].
    intros r' [= <-].
    destruct Hs as [[_ Hf]| ->]; [congruence|].
    split; [simpl; auto|intros _; discriminate]. }
  destruct (get_prop_cases (init_body c)) as [Hget|[Hnull _]].
  - rewrite (init_handler_run sv uuid c w Hu Hcfg Hget) in H.
    cbv zeta in H.
    destruct (audio_grant sv uuid);
      [destruct (want_microphone c), (microphone_grant sv uuid),
         (want_video c), (video_grant sv uuid)|];
      injection H as <- <-;
      (split; [reflexivity|]; split; [reflexivity|];
       split; [eexists; split; [apply add_trace_events|repeat split]|];
       intros r' [= <-]; split; [simpl; auto|intros _; discriminate]).
  - rewrite (init_handler_null sv uuid c w Hu Hcfg Hnull) in H.
    destruct (audio_grant sv uuid); injection H as <- <-;
      (split; [reflexivity|]; split; [reflexivity|];
       split; [eexists; split; [apply add_trace_events|repeat split]|];
       intros r' Hr;
       first [discriminate Hr
             |injection Hr as <-;
              split; [simpl; auto|intros _; discriminate]]).
Qed.

Lemma or_null_defined (v : JsValue) : or_null v <> JUndefined.
Proof.
  unfold or_null. destruct (ToBoolean v) eqn:E; [|discriminate].
  intros ->. discriminate E.
Qed.

Lemma defined_or_null_defined (v : JsValue) : defined_or_null v <> JUndefined.
Proof. destruct v; discriminate. Qed.

Lemma reportData_of_well_formed (parsed : JsValue) (uid : string) :
  uid <> "" -> ToBoolean (field parsed "report_id") = true ->
  row_well_formed (reportData_of parsed uid).
Proof.
  intros Hu Hr. unfold row_well_formed, reportData_of. simpl.
  repeat split; try assumption.
  repeat constructor;
    first [apply or_null_defined | apply defined_or_null_defined].
Qed.

(** Every run of the handler of [/complete]: it answers 400, 401 or 500,
    or throws, without touching the world; or it hands one row to the
    database. *)
Lemma complete_handler_outcome (sv : Services) (c : Context) (w w' : World)
    (o : outcome Response) :
  complete_handler sv c w = (o, w') ->
  (w' = w /\
   forall r, o = Returned r ->
             In (status r) [400; 401; 500] /\
             (falsy (userId c) = false -> status r <> 401)) \/
  (exists uid parsed,
      userId c = Some uid /\ uid <> "" /\
      req_json c = Some parsed /\
      ToBoolean (field parsed "report_id") = true /\
      w' = after_insert sv (reportData_of parsed uid) w /\
      o = Returned
            match insert_error sv (reports_table w) (reportData_of parsed uid)
            with
            | Some message =>
                json (JObj [("error", JStr "Failed to create report");
                            ("details", JStr message)]) 500
            | None =>
                json (JObj [("ok", JBool true);
                            ("report_id", field parsed "report_id")]) 201
            end).
Proof.
  intros H.
  destruct (complete_handler_cases sv c w)
    as [(o' & Ho & _)|(uid & parsed & Hu & Hne & Hb & Hr & Hc)].
  - left. rewrite Ho in H. injection H as <- <-. split; [reflexivity|].
    intros r ->. unfold complete_handler in Ho.
    destruct (userId c) as [uid|] eqn:Hu;
      [|injection Ho as <-; simpl; split; [auto|discriminate]].
    destruct (uid =? "")%string eqn:Hne;
      [injection Ho as <-; simpl; split; [auto|];
       unfold falsy; rewrite Hne; discriminate|].
    destruct (falsy _ || falsy _);
      [injection Ho as <-; simpl; split; [auto|discriminate]|].
    destruct (req_json c) as [parsed|];
      [|injection Ho as <-; simpl; split; [auto|discriminate]].
    destruct (get_prop_cases parsed) as [Hget|[_ Hget]];
      unfold prop, lift, bind in Ho; rewrite Hget in Ho; [|discriminate Ho].
    destruct (ToBoolean (field parsed "report_id")); cbn [negb] in Ho;
      [|injection Ho as <-; simpl; split; [auto|discriminate]].
    exfalso. rewrite (build_reportData_ok _ _ _ Hget) in Ho.
    unfold insert_report, emit, bind, ret in Ho. simpl in Ho.
    destruct (insert_error sv (reports_table w) (reportData_of parsed uid));
      injection Ho as _ Hw; apply (f_equal trace) in Hw; simpl in Hw;
      rewrite <- (app_nil_r (trace w)) in Hw at 2;
      apply app_inv_head in Hw; discriminate Hw.
  - right. rewrite Hc in H. injection H as <- <-.
    exists uid, parsed. auto 10.
Qed.

(** A request to a protected route is answered, in one of three ways:
    500 for a missing binding with the world untouched; 401 with the
    world as the verifier left it; or by the handler, run on the world the
    verifier left with the verified subject as [userId], an exception of
    the handler becoming the 500 of [app.onError]. *)
Lemma protected_route (sv : Services) (now : Z)
    (h : Context -> Eff Response) (c : Context) (w w' : World)
    (o : outcome Response) :
  authMiddleware sv now (dispatch h) c w = (o, w') ->
  exists r,
    o = Returned r /\
    ((w' = w /\ falsy (SUPABASE_URL (env c)) = true /\
      r = json (error_body "Server configuration error: Missing SUPABASE_URL")
            500) \/
     (exists url message,
         SUPABASE_URL (env c) = Some url /\ url <> "" /\
         verifyToken sv (authorization c) url now w = (Thrown message, w') /\
         r = json (error_body message) 401) \/
     (exists url s p w1 o1,
         SUPABASE_URL (env c) = Some url /\ url <> "" /\
         verifyToken sv (authorization c) url now w = (Returned (s, p), w1) /\
         s <> "" /\
         h (set_userId s c) w1 = (o1, w') /\
         (o1 = Returned r \/
          exists message, o1 = Thrown message /\ r = onError message))).
Proof.
  intros H.
  destruct (authMiddleware_cases sv now h c w)
    as [[Hf Ha]|[(url & m & w1 & Hu & Hne & Hv & Ha)
                |(url & s & p & w1 & Hu & Hne & Hv & Ha)]];
    rewrite Ha in H.
  - injection H as <- <-. eexists. split; [reflexivity|]. left. auto.
  - injection H as <- <-. eexists. split; [reflexivity|]. right. left.
    exists url, m. auto.
  - destruct (dispatch_returns h (set_userId s c) w1) as (r & w2 & Hd & Hh).
    rewrite Hd in H. injection H as <- <-.
    exists r. split; [reflexivity|]. right. right.
    assert (Hs := verifyToken_subject _ _ _ _ _ _ _ _ Hv).
    destruct Hh as [Hh|(m & Hh & ->)].
    + exists url, s, p, w1, (Returned r). auto 10.
    + exists url, s, p, w1, (Thrown m). repeat split; try assumption.
      right. eauto.
Qed.

(* ================================================================== *)
(** ** Further properties of the Token Verifier *)

(** What a returned subject tells about the header and the token. *)
Lemma verifyToken_returned (sv : Services) (h : option string) (url : string)
    (now : Z) (w w1 : World) (s : string) (p : JWTPayload) :
  verifyToken sv h url now w = (Returned (s, p), w1) ->
  exists token,
    h = Some ("Bearer " ++ token) /\
    contains " " token = false /\
    valid_token sv url now w token s p.
Proof.
  unfold verifyToken. intros H.
  destruct h as [header|]; [|discriminate H].
  destruct (header =? "")%string; [discriminate H|].
  destruct (split " " header) as [|scheme [|token [|x xs]]] eqn:Es;
    try discriminate H.
  destruct (scheme =? "Bearer")%string eqn:Eb; cbn [negb] in H;
    [|discriminate H].
  apply String.eqb_eq in Eb as ->.
  apply split_pair in Es as (-> & _ & Ht).
  exists token. split; [reflexivity|]. split; [exact Ht|].
  unfold try_catch, verify_bearer, jwtVerify, bind, emit, ret, throw in H.
  destruct (getJWKS sv url now w) as [[keys|e] w2] eqn:Hk; [|discriminate H].
  simpl in H.
  destruct (jws_verify sv token keys) as [payload|] eqn:Hsig;
    [|discriminate H].
  destruct (claim_is (iss payload) (issuer_of url)) eqn:Hiss; simpl in H;
    [|discriminate H].
  destruct (claim_is (aud payload) "authenticated") eqn:Haud; simpl in H;
    [|discriminate H].
  destruct (expired payload now) eqn:Hexp; simpl in H; [discriminate H|].
  destruct (sub payload) as [s'|] eqn:Hsub; [|discriminate H].
  destruct (s' =? "")%string eqn:Hs; [discriminate H|].
  injection H as <- <- _.
  exists keys, w2.
  apply claim_is_true in Hiss, Haud.
  pose proof (proj1 (expired_false payload now) Hexp) as Hfuture.
  apply String.eqb_neq in Hs. auto 10.
Qed.

(** X1.  [verifyToken] returns a subject only for a header that is
    [Bearer], one space and a token without a space, and only when that
    token is valid for the issuer: the subject and the claims it returns
    are those of the token. *)
Theorem verifyToken_sound (sv : Services) (h : option string) (url : string)
    (now : Z) (w w1 : World) (s : string) (p : JWTPayload) :
  verifyToken sv h url now w = (Returned (s, p), w1) ->
  exists token,
    h = Some ("Bearer " ++ token) /\
    contains " " token = false /\
    valid_token sv url now w token s p.
Proof.
  intros H. destruct (verifyToken_returned _ _ _ _ _ _ _ _ H)
    as (token & Hh & Ht & Hvalid).
  exists token. auto.
Qed.

Lemma verifyToken_sound_witness :
  exists token,
    Some "Bearer good.jwt" = Some ("Bearer " ++ token) /\
    contains " " token = false /\
    valid_token demo_services demo_url 1500000 initial_world token "user-1"
      demo_payload.
Proof.
  exact (verifyToken_sound demo_services (Some "Bearer good.jwt") demo_url
           1500000 initial_world _ "user-1" demo_payload eq_refl).
Defined.

Lemma error_kinds_disjoint (message : string) :
  MalformedCredential message -> ~ CredentialRejected message.
Proof.
  intros [-> | ->] (cause & H); discriminate H.
Qed.

(** X2.  A failure of [verifyToken] is of exactly one of the two kinds,
    and the shape of the header decides which: MalformedCredential, with
    the world untouched, when the header is absent or is not of the Bearer
    shape; CredentialRejected when it is. *)
Theorem verifyToken_error_kinds (sv : Services) (h : option string)
    (url : string) (now : Z) (w w1 : World) (message : string) :
  verifyToken sv h url now w = (Thrown message, w1) ->
  (MalformedCredential message /\ ~ CredentialRejected message /\
   w1 = w /\ forall s, h = Some s -> ~ bearer_shape s) \/
  (CredentialRejected message /\ ~ MalformedCredential message /\
   exists s, h = Some s /\ bearer_shape s).
Proof.
  intros H.
  assert (Hshape : (forall s, h = Some s -> ~ bearer_shape s) \/
                   exists s, h = Some s /\ bearer_shape s).
  { destruct h as [header|]; [|left; discriminate].
    destruct (split " " header) as [|scheme [|token [|x xs]]] eqn:Es;
      try (left; intros s [= <-] Hb; apply split_bearer in Hb as (t & Ht);
           rewrite Es in Ht; discriminate Ht).
    destruct (String.eqb_spec scheme "Bearer") as [->|Hne].
    - right. exists header. split; [reflexivity|].
      apply split_bearer. eauto.
    - left. intros s [= <-] Hb. apply split_bearer in Hb as (t & Ht).
      rewrite Es in Ht. injection Ht as -> _. now destruct Hne. }
  destruct Hshape as [Hno|(s & -> & (token & -> & Ht))].
  - left.
    destruct (verifyToken_malformed sv h url now w Hno) as (m & Hm & Hv).
    rewrite Hv in H. injection H as <- <-.
    repeat split; try assumption. now apply error_kinds_disjoint.
  - right. rewrite (verifyToken_bearer sv token url now w Ht) in H.
    unfold try_catch, throw in H.
    destruct (verify_bearer sv token url now w) as [[a|e] w2];
      [discriminate H|].
    injection H as <- _.
    assert (Hr : CredentialRejected ("JWT verification failed: " ++ e))
      by (exists e; reflexivity).
    repeat split; [exact Hr| |].
    + intros Hm. exact (error_kinds_disjoint _ Hm Hr).
    + exists ("Bearer " ++ token). split; [reflexivity|].
      exists token. auto.
Qed.

Lemma verifyToken_error_kinds_witness :
  (MalformedCredential "Missing Authorization header" /\
   ~ CredentialRejected "Missing Authorization header" /\
   initial_world = initial_world /\
   forall s, @None string = Some s -> ~ bearer_shape s) \/
  (CredentialRejected "Missing Authorization header" /\
   ~ MalformedCredential "Missing Authorization header" /\
   exists s, @None string = Some s /\ bearer_shape s).
Proof.
  exact (verifyToken_error_kinds demo_services None demo_url 0 initial_world
           initial_world "Missing Authorization header" eq_refl).
Defined.

(** X3.  When the cache is due for a refresh and the key-set location of
    the issuer does not parse as a URL, a well-formed Bearer header is
    refused with CredentialRejected; the cache is not replaced and no
    signature check is attempted. *)
Theorem verifyToken_unresolvable_key_set (sv : Services) (token url : string)
    (now : Z) (w : World) :
  contains " " token = false ->
  needs_refresh (jwksCache w) now = true ->
  URL_parses sv (jwks_location url) = false ->
  exists message,
    CredentialRejected message /\
    verifyToken sv (Some ("Bearer " ++ token)) url now w = (Thrown message, w).
Proof.
  intros Ht Hn Hu. rewrite (verifyToken_bearer sv token url now w Ht).
  assert (Hk : getJWKS sv url now w = (Thrown "Invalid URL", w)).
  { unfold getJWKS, read_cache, bind. unfold needs_refresh in Hn.
    destruct (jwks (jwksCache w)) as [keys|] eqn:Hc.
    - unfold needs_refresh. rewrite Hc, Hn.
      now apply refresh_jwks_invalid.
    - now apply refresh_jwks_invalid. }
  unfold try_catch. rewrite (verify_bearer_unresolved _ _ _ _ _ _ _ Hk).
  eexists. split; [|reflexivity]. eexists. reflexivity.
Qed.

Lemma verifyToken_unresolvable_key_set_witness :
  exists message,
    CredentialRejected message /\
    verifyToken broken_url_services (Some "Bearer good.jwt") demo_url 0
      initial_world = (Thrown message, initial_world).
Proof.
  apply (verifyToken_unresolvable_key_set broken_url_services "good.jwt"
           demo_url 0 initial_world); reflexivity.
Defined.

(** X4.  A successful resolution leaves in the cache the key set it
    returns, with a timestamp no more than the TTL before the time of the
    call. *)
Theorem getJWKS_returns_cached (sv : Services) (url : string) (now : Z)
    (w w' : World) (keys : RemoteJWKSet) :
  getJWKS sv url now w = (Returned keys, w') ->
  jwks (jwksCache w') = Some keys /\
  now - timestamp (jwksCache w') <= JWKS_CACHE_TTL.
Proof.
  intros H.
  destruct (getJWKS_cases sv url now w) as [[o Ho]|[_ Hr]].
  - rewrite Ho in H. injection H as -> <-.
    unfold getJWKS, read_cache, bind, needs_refresh in Ho.
    destruct (jwks (jwksCache w)) as [cached|] eqn:Hc.
    + destruct (Z.gtb_spec (now - timestamp (jwksCache w)) JWKS_CACHE_TTL)
        as [Hold|Hfresh].
      * exfalso. unfold refresh_jwks, new_URL, bind, emit, write_cache, ret,
          throw in Ho.
        destruct (URL_parses sv (jwks_location url)); [|discriminate Ho].
        simpl in Ho. injection Ho as _ Hw. apply (f_equal jwksCache) in Hw.
        simpl in Hw. rewrite <- Hw in Hc. simpl in Hc. injection Hc as <-.
        rewrite <- Hw in Hold. simpl in Hold. unfold JWKS_CACHE_TTL in Hold.
        lia.
      * injection Ho as <-. auto.
    + exfalso. unfold refresh_jwks, new_URL, bind, emit, write_cache, ret,
        throw in Ho.
      destruct (URL_parses sv (jwks_location url)); [|discriminate Ho].
      simpl in Ho. injection Ho as _ Hw. apply (f_equal jwksCache) in Hw.
      simpl in Hw. rewrite <- Hw in Hc. discriminate Hc.
  - rewrite Hr in H. injection H as <- <-. simpl.
    split; [reflexivity|]. unfold JWKS_CACHE_TTL. lia.
Qed.

Lemma getJWKS_returns_cached_witness :
  jwks (jwksCache (snd (getJWKS demo_services demo_url 5000 initial_world)))
  = Some (RemoteJWKS (jwks_location demo_url)) /\
  5000 - timestamp (jwksCache (snd (getJWKS demo_services demo_url 5000
                                      initial_world)))
  <= JWKS_CACHE_TTL.
Proof.
  exact (getJWKS_returns_cached demo_services demo_url 5000 initial_world _ _
           eq_refl).
Defined.

(** X5.  The cache is one slot, not one per issuer: once a key set has
    been resolved for one issuer location, a resolution for any other
    location within the TTL returns the key set of the first and fetches
    nothing. *)
Theorem getJWKS_ignores_location_while_fresh (sv : Services)
    (url1 url2 : string) (t1 t2 : Z) (w : World) :
  needs_refresh (jwksCache w) t1 = true ->
  URL_parses sv (jwks_location url1) = true ->
  t2 - t1 <= JWKS_CACHE_TTL ->
  let w1 := snd (getJWKS sv url1 t1 w) in
  getJWKS sv url2 t2 w1 = (Returned (RemoteJWKS (jwks_location url1)), w1).
Proof.
  intros Hn Hu Hwin w1.
  assert (H1 : getJWKS sv url1 t1 w = refresh_jwks sv url1 t1 w).
  { apply getJWKS_stale. unfold needs_refresh in Hn.
    destruct (jwks (jwksCache w)); [right|left; reflexivity].
    now apply Z.gtb_lt in Hn; lia. }
  rewrite (refresh_jwks_ok sv url1 t1 w Hu) in H1.
  subst w1. rewrite H1. simpl.
  apply getJWKS_reuse; [reflexivity|exact Hwin].
Qed.

Lemma getJWKS_ignores_location_while_fresh_witness :
  getJWKS demo_services "https://other.example" 3600000
    (snd (getJWKS demo_services demo_url 0 initial_world))
  = (Returned (RemoteJWKS (jwks_location demo_url)),
     snd (getJWKS demo_services demo_url 0 initial_world)).
Proof.
  apply (getJWKS_ignores_location_while_fresh demo_services demo_url
           "https://other.example" 0 3600000 initial_world);
    [reflexivity|reflexivity|vm_compute; discriminate].
Defined.

(* ================================================================== *)
(** ** One request at a time *)

Lemma projections_app (t u : list Event) :
  storage_requests (t ++ u) = (storage_requests t ++ storage_requests u)%list /\
  insertions (t ++ u) = (insertions t ++ insertions u)%list /\
  draws (t ++ u) = (draws t ++ draws u)%list /\
  signature_checks (t ++ u) = (signature_checks t ++ signature_checks u)%list.
Proof.
  unfold storage_requests, insertions, draws, signature_checks.
  now rewrite !flat_map_app.
Qed.

(** The verifier asks nothing of the storage service or the database and
    draws no identifier. *)
Lemma verifyToken_services (sv : Services) (h : option string) (url : string)
    (now : Z) (w w1 : World) (o : outcome (string * JWTPayload)) :
  verifyToken sv h url now w = (o, w1) ->
  storage_requests (trace w1) = storage_requests (trace w) /\
  insertions (trace w1) = insertions (trace w) /\
  draws (trace w1) = draws (trace w).
Proof.
  intros H.
  destruct (verifyToken_trace _ _ _ _ _ _ _ H) as (_ & t & Ht & Hcases).
  unfold added_events in Ht. rewrite Ht.
  destruct (projections_app (trace w) t) as (-> & -> & -> & _).
  destruct Hcases as [->|(token & _ & [->| ->])]; simpl;
    now rewrite !app_nil_r.
Qed.

(** The cache and the fetch count across a protected route whose handler
    neither touches the cache nor fetches. *)
Lemma protected_cache (sv : Services) (now : Z)
    (h : Context -> Eff Response) (c : Context) (w w' : World)
    (o : outcome Response) :
  (forall c0 w0 w0' o0,
      h c0 w0 = (o0, w0') ->
      jwksCache w0' = jwksCache w0 /\
      fetches (trace w0') = fetches (trace w0)) ->
  authMiddleware sv now (dispatch h) c w = (o, w') ->
  (jwksCache w' = jwksCache w /\ fetches (trace w') = fetches (trace w)) \/
  (needs_refresh (jwksCache w) now = true /\
   (exists keys, jwksCache w' = {| jwks := Some keys; timestamp := now |}) /\
   fetches (trace w') = S (fetches (trace w))).
Proof.
  intros Hquiet H.
  destruct (protected_route _ _ _ _ _ _ _ H)
    as (r & _ & [(-> & _)|[(url & m & _ & _ & Hv & _)
                          |(url & s & p & w1 & o1 & _ & _ & Hv & _ & Hh & _)]]).
  - left. auto.
  - destruct (verifyToken_effect sv (authorization c) url now w) as [_ He].
    rewrite Hv in He. simpl in He.
    destruct He as [He|(Hn & Hc & Hf)]; [left; exact He|right].
    repeat split; try assumption. eauto.
  - destruct (verifyToken_effect sv (authorization c) url now w) as [_ He].
    rewrite Hv in He. simpl in He.
    destruct (Hquiet _ _ _ _ Hh) as [Hc' Hf']. rewrite Hc', Hf'.
    destruct He as [He|(Hn & Hc & Hf)]; [left; exact He|right].
    repeat split; try assumption. eauto.
Qed.

Lemma init_handler_quiet (sv : Services) (uuid : string) (c : Context)
    (w w' : World) (o : outcome Response) :
  init_handler sv uuid c w = (o, w') ->
  jwksCache w' = jwksCache w /\ fetches (trace w') = fetches (trace w).
Proof.
  intros H.
  destruct (init_handler_footprint _ _ _ _ _ _ H)
    as (Hc & _ & (t & Ht & _ & Hf & _) & _).
  split; [exact Hc|]. unfold added_events in Ht.
  rewrite Ht, fetches_app, Hf. lia.
Qed.

Lemma complete_handler_quiet (sv : Services) (c : Context) (w w' : World)
    (o : outcome Response) :
  complete_handler sv c w = (o, w') ->
  jwksCache w' = jwksCache w /\ fetches (trace w') = fetches (trace w).
Proof.
  intros H.
  destruct (complete_handler_outcome _ _ _ _ _ H)
    as [[-> _]|(uid & parsed & _ & _ & _ & _ & -> & _)]; [auto|].
  unfold after_insert. simpl. rewrite fetches_app. simpl. split; [auto|lia].
Qed.

Lemma legacy_handler_quiet (c : Context) (w w' : World) (o : outcome Response) :
  legacy_handler c w = (o, w') ->
  jwksCache w' = jwksCache w /\ fetches (trace w') = fetches (trace w).
Proof. intros [= _ <-]. auto. Qed.

(** What one request does to the cache. *)
Lemma app_cache (sv : Services) (q : Request) (w w' : World)
    (o : outcome Response) :
  app sv q w = (o, w') ->
  (jwksCache w' = jwksCache w /\ fetches (trace w') = fetches (trace w)) \/
  (needs_refresh (jwksCache w) (req_now q) = true /\
   (exists keys,
       jwksCache w' = {| jwks := Some keys; timestamp := req_now q |}) /\
   fetches (trace w') = S (fetches (trace w))).
Proof.
  unfold app. intros H. destruct (req_route q).
  - injection H as _ <-. auto.
  - apply (protected_cache _ _ _ _ _ _ _ (init_handler_quiet sv (req_uuid q)) H).
  - apply (protected_cache _ _ _ _ _ _ _ (complete_handler_quiet sv) H).
  - apply (protected_cache _ _ _ _ _ _ _ legacy_handler_quiet H).
  - injection H as _ <-. auto.
  - injection H as _ <-. auto.
Qed.

(** What one request does to the reports table. *)
Lemma app_table (sv : Services) (q : Request) (w w' : World)
    (o : outcome Response) :
  app sv q w = (o, w') ->
  reports_table w' = reports_table w \/
  (req_route q = PostReportsComplete /\
   exists row,
     reports_table w' = (reports_table w ++ [row])%list /\
     row_well_formed row /\
     insert_error sv (reports_table w) row = None).
Proof.
  unfold app. intros H. destruct (req_route q).
  - injection H as _ <-. auto.
  - left. unfold route_init in H.
    destruct (protected_route _ _ _ _ _ _ _ H)
      as (r & _ & [(-> & _)|[(url & m & _ & _ & Hv & _)
                            |(url & s & p & w1 & o1 & _ & _ & Hv & _ & Hh & _)]]).
    + reflexivity.
    + exact (verifyToken_table _ _ _ _ _ _ _ Hv).
    + destruct (init_handler_footprint _ _ _ _ _ _ Hh) as (_ & -> & _).
      exact (verifyToken_table _ _ _ _ _ _ _ Hv).
  - unfold route_complete in H.
    destruct (protected_route _ _ _ _ _ _ _ H)
      as (r & _ & [(-> & _)|[(url & m & _ & _ & Hv & _)
                            |(url & s & p & w1 & o1 & _ & _ & Hv & Hs & Hh & _)]]).
    + auto.
    + left. exact (verifyToken_table _ _ _ _ _ _ _ Hv).
    + pose proof (verifyToken_table _ _ _ _ _ _ _ Hv) as Ht.
      destruct (complete_handler_outcome _ _ _ _ _ Hh)
        as [[-> _]|(uid & parsed & Hu & Hne & _ & Hr & -> & _)];
        [left; exact Ht|].
      unfold after_insert. simpl. rewrite Ht.
      destruct (insert_error sv (reports_table w) (reportData_of parsed uid))
        eqn:Hins; [left; reflexivity|right].
      split; [reflexivity|]. exists (reportData_of parsed uid).
      repeat split; try assumption.
      now apply reportData_of_well_formed.
  - left. unfold route_legacy in H.
    destruct (protected_route _ _ _ _ _ _ _ H)
      as (r & _ & [(-> & _)|[(url & m & _ & _ & Hv & _)
                            |(url & s & p & w1 & o1 & _ & _ & Hv & _ & Hh & _)]]).
    + reflexivity.
    + exact (verifyToken_table _ _ _ _ _ _ _ Hv).
    + injection Hh as _ <-. exact (verifyToken_table _ _ _ _ _ _ _ Hv).
  - injection H as _ <-. auto.
  - injection H as _ <-. auto.
Qed.

(* ================================================================== *)
(** ** Further properties of the routes *)

(** X6.  Every request is answered: no exception leaves the application,
    and the status is one the route can give -- 204 for an OPTIONS
    request, which the CORS middleware answers, 200 for the health check,
    404 for an unknown route, 200, 401 or 500 for [/reports/init], 201,
    400, 401 or 500 for [/reports/complete], 400, 401 or 500 for the
    legacy [/reports]. *)
Theorem app_always_answers (sv : Services) (q : Request) (w : World) :
  exists r w',
    app sv q w = (Returned r, w') /\
    match req_route q with
    | GetHealth => status r = 200
    | PostReportsInit => In (status r) [200; 401; 500]
    | PostReportsComplete => In (status r) [201; 400; 401; 500]
    | PostReports => In (status r) [400; 401; 500]
    | Unmatched => status r = 404
    | Preflight => status r = 204
    end.
Proof.
  destruct (app sv q w) as [o w'] eqn:H. unfold app in H.
  destruct (req_route q).
  - injection H as <- <-. eauto.
  - destruct (protected_route _ _ _ _ _ _ _ H)
      as (r & -> & [(_ & _ & Hr)|[(url & m & _ & _ & _ & Hr)
                    |(url & s & p & w1 & o1 & _ & _ & _ & _ & Hh & Ho)]]);
      exists r, w'; (split; [reflexivity|]);
      try (rewrite Hr; simpl; now auto).
    destruct Ho as [->|(m & -> & ->)]; [|simpl; auto].
    destruct (init_handler_footprint _ _ _ _ _ _ Hh) as (_ & _ & _ & Hs).
    apply (Hs r eq_refl).
  - destruct (protected_route _ _ _ _ _ _ _ H)
      as (r & -> & [(_ & _ & Hr)|[(url & m & _ & _ & _ & Hr)
                    |(url & s & p & w1 & o1 & _ & _ & _ & _ & Hh & Ho)]]);
      exists r, w'; (split; [reflexivity|]);
      try (rewrite Hr; simpl; now auto).
    destruct Ho as [->|(m & -> & ->)]; [|simpl; auto].
    destruct (complete_handler_outcome _ _ _ _ _ Hh)
      as [[_ Hs]|(uid & parsed & _ & _ & _ & _ & _ & Hr)].
    + destruct (Hs r eq_refl) as [[<-|[<-|[<-|[]]]] _]; simpl; auto.
    + injection Hr as ->.
      destruct (insert_error sv (reports_table w1) (reportData_of parsed uid));
        simpl; auto.
  - destruct (protected_route _ _ _ _ _ _ _ H)
      as (r & -> & [(_ & _ & Hr)|[(url & m & _ & _ & _ & Hr)
                    |(url & s & p & w1 & o1 & _ & _ & _ & _ & Hh & Ho)]]);
      exists r, w'; (split; [reflexivity|]);
      try (rewrite Hr; simpl; now auto).
    injection Hh as <- _.
    destruct Ho as [[= <-]|(m & Hm & _)]; [simpl; auto|discriminate Hm].
  - injection H as <- <-. eauto.
  - injection H as <- <-. eauto.
Qed.

(** X7.  A request to a protected route whose token the verifier refuses
    is answered 401 with the verifier's message, and the handler does not
    run: the reports table is as it was, and no grant was requested, no
    row handed to the database and no identifier drawn. *)
Theorem rejected_request_reaches_no_service (sv : Services) (q : Request)
    (w w1 : World) (url message : string) :
  protected (req_route q) ->
  SUPABASE_URL (env (req_context q)) = Some url -> url <> "" ->
  verifyToken sv (authorization (req_context q)) url (req_now q) w
  = (Thrown message, w1) ->
  app sv q w = (Returned (json (error_body message) 401), w1) /\
  reports_table w1 = reports_table w /\
  storage_requests (trace w1) = storage_requests (trace w) /\
  insertions (trace w1) = insertions (trace w) /\
  draws (trace w1) = draws (trace w).
Proof.
  intros Hp Hu Hne Hv.
  split; [|split; [exact (verifyToken_table _ _ _ _ _ _ _ Hv)
                  |exact (verifyToken_services _ _ _ _ _ _ _ Hv)]].
  assert (Hgate : forall h,
             authMiddleware sv (req_now q) (dispatch h) (req_context q) w
             = (Returned (json (error_body message) 401), w1)).
  { intros h.
    destruct (authMiddleware_cases sv (req_now q) h (req_context q) w)
      as [[Hf _]|[(url' & m & w2 & Hu' & _ & Hv' & Ha)
                 |(url' & s & p & w2 & Hu' & _ & Hv' & _)]].
    - rewrite Hu in Hf. simpl in Hf. apply String.eqb_eq in Hf.
      now destruct Hne.
    - rewrite Hu in Hu'. injection Hu' as <-.
      rewrite Hv in Hv'. injection Hv' as <- <-. exact Ha.
    - rewrite Hu in Hu'. injection Hu' as <-.
      rewrite Hv in Hv'. discriminate Hv'. }
  unfold app. destruct Hp as [->|[->| ->]]; apply Hgate.
Qed.

Lemma rejected_request_reaches_no_service_witness :
  let q := request PostReportsComplete (Some "Bearer forged.jwt")
             (Some (JObj [("report_id", JStr "r-1")])) 0 "uuid-1" in
  let w1 := snd (verifyToken demo_services (Some "Bearer forged.jwt")
                   demo_url 0 initial_world) in
  app demo_services q initial_world
  = (Returned (json (error_body
                      "JWT verification failed: signature verification failed")
                 401), w1) /\
  reports_table w1 = reports_table initial_world /\
  storage_requests (trace w1) = storage_requests (trace initial_world) /\
  insertions (trace w1) = insertions (trace initial_world) /\
  draws (trace w1) = draws (trace initial_world).
Proof.
  apply (rejected_request_reaches_no_service demo_services
           (request PostReportsComplete (Some "Bearer forged.jwt")
              (Some (JObj [("report_id", JStr "r-1")])) 0 "uuid-1")
           initial_world
           (snd (verifyToken demo_services (Some "Bearer forged.jwt")
                   demo_url 0 initial_world))
           demo_url
           "JWT verification failed: signature verification failed");
    [right; left; reflexivity|reflexivity|discriminate|reflexivity].
Defined.

(** X8.  With the issuer configured, a protected route answers 401
    exactly when the verifier refuses the token: the check of [userId] in
    the handlers never fires behind the middleware. *)
Theorem unauthorized_iff_rejected (sv : Services) (q : Request)
    (w w' : World) (url : string) (r : Response) :
  protected (req_route q) ->
  SUPABASE_URL (env (req_context q)) = Some url -> url <> "" ->
  app sv q w = (Returned r, w') ->
  (status r = 401 <->
   exists message w1,
     verifyToken sv (authorization (req_context q)) url (req_now q) w
     = (Thrown message, w1)).
Proof.
  intros Hp Hu Hne H.
  assert (Hroute : exists h,
             authMiddleware sv (req_now q) (dispatch h) (req_context q) w
             = (Returned r, w') /\
             forall c w0 w0' r0,
               falsy (userId c) = false ->
               h c w0 = (Returned r0, w0') -> status r0 <> 401).
  { unfold app in H. destruct Hp as [Hp|[Hp|Hp]]; rewrite Hp in H.
    - exists (init_handler sv (req_uuid q)). split; [exact H|].
      intros c w0 w0' r0 Hf Hh.
      destruct (init_handler_footprint _ _ _ _ _ _ Hh) as (_ & _ & _ & Hs).
      now apply (Hs r0 eq_refl).
    - exists (complete_handler sv). split; [exact H|].
      intros c w0 w0' r0 Hf Hh.
      destruct (complete_handler_outcome _ _ _ _ _ Hh)
        as [[_ Hs]|(uid & parsed & _ & _ & _ & _ & _ & Hr)].
      + now apply (Hs r0 eq_refl).
      + injection Hr as ->.
        destruct (insert_error sv (reports_table w0)
                    (reportData_of parsed uid)); discriminate.
    - exists legacy_handler. split; [exact H|].
      intros c w0 w0' r0 _ [= <- _]. discriminate. }
  destruct Hroute as (h & Ha & Hh401).
  destruct (protected_route _ _ _ _ _ _ _ Ha)
    as (r' & Hr' & [(_ & Hf & _)|[(url' & m & Hu' & _ & Hv & Hm)
                  |(url' & s & p & w1 & o1 & Hu' & _ & Hv & Hs & Hh & Ho)]]);
    injection Hr' as <-.
  - rewrite Hu in Hf. simpl in Hf. apply String.eqb_eq in Hf.
    now destruct Hne.
  - rewrite Hu in Hu'. injection Hu' as <-. rewrite Hm.
    split; [eauto|reflexivity].
  - rewrite Hu in Hu'. injection Hu' as <-.
    split.
    + intros H401. exfalso.
      destruct Ho as [->|(m & _ & ->)]; [|discriminate H401].
      refine (Hh401 (set_userId s (req_context q)) _ _ _ _ Hh H401).
      simpl. now apply String.eqb_neq.
    + intros (m & w2 & Hv'). rewrite Hv in Hv'. discriminate Hv'.
Qed.

Lemma unauthorized_iff_rejected_witness :
  status (json (error_body "Use /reports/init and /reports/complete") 400)
  = 401 <->
  exists message w1,
    verifyToken demo_services (Some "Bearer good.jwt") demo_url 0
      initial_world = (Thrown message, w1).
Proof.
  apply (unauthorized_iff_rejected demo_services
           (request PostReports (Some "Bearer good.jwt") None 0 "uuid-1")
           initial_world
           (snd (app demo_services
                   (request PostReports (Some "Bearer good.jwt") None 0
                      "uuid-1") initial_world))
           demo_url
           (json (error_body "Use /reports/init and /reports/complete") 400));
    [right; right; reflexivity|reflexivity|discriminate|reflexivity].
Defined.

Lemma configured_bindings (c : Context) (url : string) :
  SUPABASE_URL (env c) = Some url -> url <> "" ->
  falsy (SUPABASE_SERVICE_ROLE_KEY (env c)) = false ->
  falsy (SUPABASE_URL (env c)) || falsy (SUPABASE_SERVICE_ROLE_KEY (env c))
  = false.
Proof.
  intros Hu Hne Hkey. rewrite Hu, Hkey. simpl.
  apply String.eqb_neq in Hne. now rewrite Hne.
Qed.

(** X9.  When the service-role key is not configured, [/reports/init] and
    [/reports/complete] answer a verified caller with 500 "Server
    configuration error" and stop there: the world is as the verifier
    left it, so no identifier is drawn, no grant requested and no row
    inserted. *)
Theorem missing_service_role_key (sv : Services) (q : Request) (w w1 : World)
    (url s : string) (p : JWTPayload) :
  req_route q = PostReportsInit \/ req_route q = PostReportsComplete ->
  SUPABASE_URL (env (req_context q)) = Some url -> url <> "" ->
  falsy (SUPABASE_SERVICE_ROLE_KEY (env (req_context q))) = true ->
  verifyToken sv (authorization (req_context q)) url (req_now q) w
  = (Returned (s, p), w1) ->
  app sv q w
  = (Returned (json (error_body "Server configuration error") 500), w1).
Proof.
  intros Hr Hu Hne Hkey Hv.
  assert (Hs : (s =? "")%string = false)
    by (apply String.eqb_neq; eapply verifyToken_subject, Hv).
  unfold app. destruct Hr as [-> | ->].
  - unfold route_init.
    rewrite (authMiddleware_verified _ _ _ _ _ _ _ _ _ Hu Hne Hv).
    unfold dispatch, try_catch, init_handler. simpl.
    rewrite Hs, Hkey, orb_true_r. reflexivity.
  - unfold route_complete.
    rewrite (authMiddleware_verified _ _ _ _ _ _ _ _ _ Hu Hne Hv).
    unfold dispatch, try_catch, complete_handler. simpl.
    rewrite Hs, Hkey, orb_true_r. reflexivity.
Qed.

Lemma missing_service_role_key_witness :
  let q := {| req_route := PostReportsInit;
              req_context :=
                {| authorization := Some "Bearer good.jwt";
                   req_json := None;
                   env := {| SUPABASE_URL := Some demo_url;
                             SUPABASE_SERVICE_ROLE_KEY := None |};
                   userId := None |};
              req_now := 0;
              req_uuid := "uuid-1" |} in
  app demo_services q initial_world
  = (Returned (json (error_body "Server configuration error") 500),
     snd (verifyToken demo_services (Some "Bearer good.jwt") demo_url 0
            initial_world)).
Proof.
  intros q.
  apply (missing_service_role_key demo_services q initial_world _ demo_url
           "user-1" demo_payload);
    [left; reflexivity|reflexivity|discriminate|reflexivity|reflexivity].
Defined.

(** X10.  [/reports/init] never writes to the database, whatever the
    request and whatever the storage service answers: the reports table is
    unchanged and no row is handed to [insert]. *)
Theorem init_never_persists (sv : Services) (q : Request) (w w' : World)
    (o : outcome Response) :
  req_route q = PostReportsInit ->
  app sv q w = (o, w') ->
  reports_table w' = reports_table w /\
  insertions (trace w') = insertions (trace w).
Proof.
  intros Hr H. unfold app in H. rewrite Hr in H. unfold route_init in H.
  destruct (protected_route _ _ _ _ _ _ _ H)
    as (r & _ & [(-> & _)|[(url & m & _ & _ & Hv & _)
                          |(url & s & p & w1 & o1 & _ & _ & Hv & _ & Hh & _)]]).
  - auto.
  - split; [exact (verifyToken_table _ _ _ _ _ _ _ Hv)|].
    apply (verifyToken_services _ _ _ _ _ _ _ Hv).
  - destruct (init_handler_footprint _ _ _ _ _ _ Hh)
      as (_ & Ht & (t & Ha & Hi & _) & _).
    split; [rewrite Ht; exact (verifyToken_table _ _ _ _ _ _ _ Hv)|].
    unfold added_events in Ha. rewrite Ha.
    destruct (projections_app (trace w1) t) as (_ & -> & _).
    rewrite Hi, app_nil_r.
    apply (verifyToken_services _ _ _ _ _ _ _ Hv).
Qed.

Lemma init_never_persists_witness :
  reports_table
    (snd (app demo_services
            (request PostReportsInit (Some "Bearer good.jwt")
               (Some (JObj [("has_video", JBool true)])) 0 "uuid-1")
            initial_world)) = [] /\
  insertions
    (trace (snd (app demo_services
                   (request PostReportsInit (Some "Bearer good.jwt")
                      (Some (JObj [("has_video", JBool true)])) 0 "uuid-1")
                   initial_world))) = [].
Proof.
  exact (init_never_persists demo_services
           (request PostReportsInit (Some "Bearer good.jwt")
              (Some (JObj [("has_video", JBool true)])) 0 "uuid-1")
           initial_world _ _ eq_refl eq_refl).
Defined.

(** A 200 of [/reports/init], taken apart: the verifier passed, the
    bindings are configured, the body is not [null], and the handler ran
    on the world the verifier left. *)
Lemma route_init_ok (sv : Services) (now : Z) (uuid : string) (c : Context)
    (w w' : World) (r : Response) :
  route_init sv now uuid c w = (Returned r, w') ->
  status r = 200 ->
  exists url s p w1,
    verifyToken sv (authorization c) url now w = (Returned (s, p), w1) /\
    init_handler sv uuid (set_userId s c) w1 = (Returned r, w') /\
    falsy (userId (set_userId s c)) = false /\
    falsy (SUPABASE_URL (env c)) || falsy (SUPABASE_SERVICE_ROLE_KEY (env c))
    = false /\
    (forall k, get_prop (init_body c) k = Returned (field (init_body c) k)).
Proof.
  intros H Hs. unfold route_init in H.
  apply authMiddleware_passed in H as (url & s & p & w1 & Hu & Hne & Hv & Hh);
    [|rewrite Hs; discriminate..].
  exists url, s, p, w1. split; [exact Hv|]. split; [exact Hh|].
  assert (Hf : falsy (userId (set_userId s c)) = false).
  { simpl. apply String.eqb_neq. eapply verifyToken_subject, Hv. }
  split; [exact Hf|].
  destruct (falsy (SUPABASE_URL (env c))
            || falsy (SUPABASE_SERVICE_ROLE_KEY (env c))) eqn:Hcfg.
  { destruct (init_handler_unready sv uuid (set_userId s c) w1
                (or_intror Hcfg)) as (r' & Hr' & Hs').
    rewrite Hr' in Hh. injection Hh as <- _.
    destruct Hs' as [[Hs' _]|Hs']; rewrite Hs in Hs'; discriminate Hs'. }
  split; [reflexivity|].
  destruct (get_prop_cases (init_body c)) as [Hget|[Hnull _]];
    [exact Hget|].
  rewrite (init_handler_null sv uuid (set_userId s c) w1 Hf Hcfg Hnull) in Hh.
  destruct (audio_grant sv uuid); [discriminate Hh|].
  injection Hh as <- _. discriminate Hs.
Qed.

(** X11.  A successful [/reports/init] draws one identifier and asks the
    storage service for exactly one grant per requested slot, in this
    order: the audio slot in bucket [reports-audio], then the microphone
    slot in the same bucket if the microphone was asked for, then the video
    slot in bucket [reports-video] if video was asked for; every path
    starts with the identifier drawn. *)
Theorem init_requests_one_grant_per_slot (sv : Services) (now : Z)
    (uuid : string) (c : Context) (w w' : World) (r : Response) :
  route_init sv now uuid c w = (Returned r, w') ->
  status r = 200 ->
  draws (trace w') = (draws (trace w) ++ [uuid])%list /\
  storage_requests (trace w')
  = (storage_requests (trace w)
     ++ ("reports-audio", (uuid ++ "/system_audio.wav")%string)
        :: (if want_microphone c
            then [("reports-audio", (uuid ++ "/microphone.wav")%string)]
            else [])
        ++ (if want_video c
            then [("reports-video",
                   (uuid ++ "/screen_recording.avi")%string)]
            else []))%list.
Proof.
  intros H Hs.
  destruct (route_init_ok _ _ _ _ _ _ _ H Hs)
    as (url & s & p & w1 & Hv & Hh & Hf & Hcfg & Hget).
  destruct (verifyToken_services _ _ _ _ _ _ _ Hv) as (Hst & _ & Hd).
  rewrite <- Hst, <- Hd.
  rewrite (init_handler_run sv uuid (set_userId s c) w1 Hf Hcfg Hget) in Hh.
  cbv zeta in Hh.
  change (want_microphone (set_userId s c)) with (want_microphone c) in Hh.
  change (want_video (set_userId s c)) with (want_video c) in Hh.
  destruct (audio_grant sv uuid);
    [destruct (want_microphone c), (microphone_grant sv uuid),
       (want_video c), (video_grant sv uuid)|];
    injection Hh as <- <-; try discriminate Hs;
    unfold add_trace; cbn [trace];
    match goal with
    | |- context [(trace w1 ++ ?t)%list] =>
        destruct (projections_app (trace w1) t) as (-> & _ & -> & _)
    end; split; reflexivity.
Qed.

Lemma init_requests_one_grant_per_slot_witness :
  storage_requests
    (trace (snd (route_init demo_services 0 "uuid-1"
                   (demo_request (Some (JObj [("has_video", JBool true)])))
                   initial_world)))
  = [("reports-audio", "uuid-1/system_audio.wav");
     ("reports-video", "uuid-1/screen_recording.avi")].
Proof.
  exact (proj2 (init_requests_one_grant_per_slot demo_services 0 "uuid-1"
                  (demo_request (Some (JObj [("has_video", JBool true)])))
                  initial_world _ _ eq_refl eq_refl)).
Defined.

Lemma dispatch_world (h : Context -> Eff Response) (c : Context) (w : World) :
  snd (dispatch h c w) = snd (h c w).
Proof.
  unfold dispatch, try_catch, ret. destruct (h c w) as [[r|e] w']; reflexivity.
Qed.

Lemma want_microphone_not_null (c : Context) :
  want_microphone c = true \/ want_video c = true ->
  forall k, get_prop (init_body c) k = Returned (field (init_body c) k).
Proof.
  unfold want_microphone, want_video. intros H.
  destruct (get_prop_cases (init_body c)) as [Hget|[[Hn|Hn] _]];
    [exact Hget|rewrite Hn in H; simpl in H; destruct H; discriminate..].
Qed.

(** X12.  [/reports/init] stops at the first grant it is refused: when the
    audio grant is refused the storage service is asked nothing else, and
    when the microphone grant is refused the video grant is not requested,
    even if the request asked for video. *)
Theorem init_stops_at_first_refusal (sv : Services) (now : Z) (uuid : string)
    (c : Context) (w w1 : World) (url s : string) (p : JWTPayload) :
  SUPABASE_URL (env c) = Some url -> url <> "" ->
  falsy (SUPABASE_SERVICE_ROLE_KEY (env c)) = false ->
  verifyToken sv (authorization c) url now w = (Returned (s, p), w1) ->
  let w' := snd (route_init sv now uuid c w) in
  (audio_grant sv uuid = None ->
   storage_requests (trace w')
   = (storage_requests (trace w)
      ++ [("reports-audio", (uuid ++ "/system_audio.wav")%string)])%list) /\
  (audio_grant sv uuid <> None ->
   want_microphone c = true -> microphone_grant sv uuid = None ->
   storage_requests (trace w')
   = (storage_requests (trace w)
      ++ [("reports-audio", (uuid ++ "/system_audio.wav")%string);
          ("reports-audio", (uuid ++ "/microphone.wav")%string)])%list).
Proof.
  intros Hu Hne Hkey Hv w'. subst w'. unfold route_init.
  rewrite (authMiddleware_verified _ _ _ _ _ _ _ _ _ Hu Hne Hv), dispatch_world.
  destruct (verifyToken_services _ _ _ _ _ _ _ Hv) as (Hst & _).
  rewrite <- Hst.
  assert (Hf : falsy (userId (set_userId s c)) = false).
  { simpl. apply String.eqb_neq. eapply verifyToken_subject, Hv. }
  assert (Hcfg := configured_bindings c url Hu Hne Hkey).
  split.
  - intros Ha.
    destruct (get_prop_cases (init_body c)) as [Hget|[Hnull _]].
    + rewrite (init_handler_run sv uuid (set_userId s c) w1 Hf Hcfg Hget).
      cbv zeta. rewrite Ha. simpl.
      destruct (projections_app (trace w1)
                  [EvRandomUUID uuid;
                   EvCreateSignedUploadUrl "reports-audio"
                     (uuid ++ "/system_audio.wav")]) as (-> & _).
      reflexivity.
    + rewrite (init_handler_null sv uuid (set_userId s c) w1 Hf Hcfg Hnull).
      simpl.
      destruct (projections_app (trace w1)
                  [EvRandomUUID uuid;
                   EvCreateSignedUploadUrl "reports-audio"
                     (uuid ++ "/system_audio.wav")]) as (-> & _).
      reflexivity.
  - intros Ha Hm Hg.
    pose proof (want_microphone_not_null c (or_introl Hm)) as Hget.
    rewrite (init_handler_run sv uuid (set_userId s c) w1 Hf Hcfg Hget).
    cbv zeta.
    change (want_microphone (set_userId s c)) with (want_microphone c).
    rewrite Hm, Hg.
    destruct (audio_grant sv uuid); [|now destruct Ha]. simpl.
    destruct (projections_app (trace w1)
                [EvRandomUUID uuid;
                 EvCreateSignedUploadUrl "reports-audio"
                   (uuid ++ "/system_audio.wav");
                 EvCreateSignedUploadUrl "reports-audio"
                   (uuid ++ "/microphone.wav")]) as (-> & _).
    reflexivity.
Qed.

Lemma init_stops_at_first_refusal_witness :
  storage_requests
    (trace (snd (route_init storage_down 0 "uuid-1"
                   (demo_request (Some (JObj [("has_microphone", JBool true);
                                              ("has_video", JBool true)])))
                   initial_world)))
  = [("reports-audio", "uuid-1/system_audio.wav")].
Proof.
  apply (init_stops_at_first_refusal storage_down 0 "uuid-1"
           (demo_request (Some (JObj [("has_microphone", JBool true);
                                      ("has_video", JBool true)])))
           initial_world verified_world demo_url "user-1" demo_payload);
    [reflexivity|discriminate|reflexivity|reflexivity|reflexivity].
Defined.

(** X13.  [/reports/init] with the JSON body [null]: the identifier is
    drawn and the audio grant is obtained from the storage service, then
    reading [has_microphone] throws and the caller gets the 500 of
    [app.onError]; the grant that was issued is not returned. *)
Theorem init_null_body_loses_audio_grant (sv : Services) (now : Z)
    (uuid : string) (c : Context) (w w1 : World) (url s : string)
    (p : JWTPayload) (a : SignedUpload) :
  SUPABASE_URL (env c) = Some url -> url <> "" ->
  falsy (SUPABASE_SERVICE_ROLE_KEY (env c)) = false ->
  verifyToken sv (authorization c) url now w = (Returned (s, p), w1) ->
  req_json c = Some JNull ->
  audio_grant sv uuid = Some a ->
  route_init sv now uuid c w
  = (Returned
       (onError "Cannot read properties of null (reading 'has_microphone')"),
     add_trace w1 [EvRandomUUID uuid;
                   EvCreateSignedUploadUrl "reports-audio"
                     (uuid ++ "/system_audio.wav")]).
Proof.
  intros Hu Hne Hkey Hv Hb Ha. unfold route_init.
  rewrite (authMiddleware_verified _ _ _ _ _ _ _ _ _ Hu Hne Hv).
  assert (Hf : falsy (userId (set_userId s c)) = false).
  { simpl. apply String.eqb_neq. eapply verifyToken_subject, Hv. }
  assert (Hcfg := configured_bindings c url Hu Hne Hkey).
  unfold dispatch, try_catch.
  rewrite (init_handler_null sv uuid (set_userId s c) w1 Hf Hcfg).
  - rewrite Ha. reflexivity.
  - left. unfold init_body. simpl. now rewrite Hb.
Qed.

Lemma init_null_body_loses_audio_grant_witness :
  status_of (route_init demo_services 0 "uuid-1" (demo_request (Some JNull))
               initial_world) = Some 500 /\
  storage_requests
    (trace (snd (route_init demo_services 0 "uuid-1"
                   (demo_request (Some JNull)) initial_world)))
  = [("reports-audio", "uuid-1/system_audio.wav")].
Proof.
  rewrite (init_null_body_loses_audio_grant demo_services 0 "uuid-1"
             (demo_request (Some JNull)) initial_world
             (snd (verifyToken demo_services (Some "Bearer good.jwt")
                     demo_url 0 initial_world))
             demo_url "user-1" demo_payload
             {| signedUrl := "https://storage/reports-audio/uuid-1/system_audio.wav";
                token := "upload-token";
                path := "uuid-1/system_audio.wav" |});
    [split; reflexivity|reflexivity|discriminate|reflexivity..].
Defined.

Lemma init_handler_props (sv : Services) (uuid : string) (c1 c2 : Context) :
  userId c1 = userId c2 -> env c1 = env c2 ->
  (forall k, get_prop (init_body c1) k = get_prop (init_body c2) k) ->
  init_handler sv uuid c1 = init_handler sv uuid c2.
Proof.
  intros Hu He Hp. unfold init_handler.
  change (match req_json c1 with Some parsed => parsed | None => JObj [] end)
    with (init_body c1).
  change (match req_json c2 with Some parsed => parsed | None => JObj [] end)
    with (init_body c2).
  unfold prop. now rewrite Hu, He, !Hp.
Qed.

(** X14.  A body that is JSON but not an object -- a boolean, a number, a
    string or an array -- has none of the properties the handlers read:
    [/reports/init] treats it exactly as [{}], and [/reports/complete]
    answers a verified caller with 400 "Missing report_id" without
    touching the database. *)
Theorem scalar_body_has_no_fields (sv : Services) (now : Z) (uuid : string)
    (c : Context) (w : World) (parsed : JsValue) :
  req_json c = Some parsed ->
  scalar_or_array parsed ->
  route_init sv now uuid c w
  = route_init sv now uuid (with_json c (Some (JObj []))) w /\
  forall url s p w1,
    SUPABASE_URL (env c) = Some url -> url <> "" ->
    falsy (SUPABASE_SERVICE_ROLE_KEY (env c)) = false ->
    verifyToken sv (authorization c) url now w = (Returned (s, p), w1) ->
    route_complete sv now c w
    = (Returned (json (error_body "Missing report_id") 400), w1).
Proof.
  intros Hb Hscalar. split.
  - unfold route_init, authMiddleware. simpl.
    destruct (SUPABASE_URL (env c)) as [url|]; [|reflexivity].
    destruct (url =? "")%string; [reflexivity|].
    unfold try_catch, bind.
    destruct (verifyToken sv (authorization c) url now w) as [[[s p]|e] w1];
      [|reflexivity].
    unfold dispatch.
    rewrite (init_handler_props sv uuid (set_userId (fst (s, p)) c)
               (set_userId (fst (s, p)) (with_json c (Some (JObj [])))));
      try reflexivity.
    intros k. unfold init_body. simpl. rewrite Hb.
    destruct parsed; try contradiction; reflexivity.
  - intros url s p w1 Hu Hne Hkey Hv.
    assert (Hs : (s =? "")%string = false)
      by (apply String.eqb_neq; eapply verifyToken_subject, Hv).
    unfold route_complete.
    rewrite (authMiddleware_verified _ _ _ _ _ _ _ _ _ Hu Hne Hv).
    unfold dispatch, try_catch, complete_handler. simpl.
    rewrite Hs, (configured_bindings c url Hu Hne Hkey), Hb.
    destruct parsed; try contradiction; reflexivity.
Qed.

Lemma scalar_body_has_no_fields_witness :
  route_init demo_services 0 "uuid-1" (demo_request (Some (JNum 7)))
    initial_world
  = route_init demo_services 0 "uuid-1" (demo_request (Some (JObj [])))
      initial_world /\
  status_of (route_complete demo_services 0
               (demo_request (Some (JStr "report_id"))) initial_world)
  = Some 400.
Proof.
  split.
  - exact (proj1 (scalar_body_has_no_fields demo_services 0 "uuid-1"
                    (demo_request (Some (JNum 7))) initial_world (JNum 7)
                    eq_refl I)).
  - unfold status_of.
    rewrite (proj2 (scalar_body_has_no_fields demo_services 0 "uuid-1"
                      (demo_request (Some (JStr "report_id"))) initial_world
                      (JStr "report_id") eq_refl I)
               demo_url "user-1" demo_payload
               (snd (verifyToken demo_services (Some "Bearer good.jwt")
                       demo_url 0 initial_world)));
      [reflexivity|reflexivity|discriminate|reflexivity|reflexivity].
Defined.

(** X15.  When the database refuses the row of a body whose audio and
    microphone paths are strings or left out, [/reports/complete] answers
    500 with the database's own message under [details]; the row was
    handed to [insert] once, with no retry, and the table is unchanged. *)
Theorem complete_database_refusal (sv : Services) (now : Z) (c : Context)
    (w w1 : World) (url s : string) (p : JWTPayload) (parsed : JsValue)
    (message : string) :
  SUPABASE_URL (env c) = Some url -> url <> "" ->
  falsy (SUPABASE_SERVICE_ROLE_KEY (env c)) = false ->
  verifyToken sv (authorization c) url now w = (Returned (s, p), w1) ->
  req_json c = Some parsed ->
  ToBoolean (field parsed "report_id") = true ->
  declared_path (field parsed "audio_path") ->
  declared_path (field parsed "microphone_path") ->
  insert_error sv (reports_table w) (reportData_of parsed s) = Some message ->
  route_complete sv now c w
  = (Returned (json (JObj [("error", JStr "Failed to create report");
                           ("details", JStr message)]) 500),
     add_trace w1 [EvInsert (reportData_of parsed s)]).
Proof.
  intros Hu Hne Hkey Hv Hb Hr _ _ Hins.
  assert (Hs : (s =? "")%string = false)
    by (apply String.eqb_neq; eapply verifyToken_subject, Hv).
  rewrite <- (verifyToken_table _ _ _ _ _ _ _ Hv) in Hins.
  unfold route_complete.
  rewrite (authMiddleware_verified _ _ _ _ _ _ _ _ _ Hu Hne Hv).
  unfold dispatch, try_catch, complete_handler. simpl.
  rewrite Hs, (configured_bindings c url Hu Hne Hkey), Hb.
  destruct (get_prop_cases parsed) as [Hget|[[Hn|Hn] _]];
    [|rewrite Hn in Hr; discriminate Hr..].
  unfold prop, lift, bind. rewrite Hget, Hr. cbn [negb].
  rewrite (build_reportData_ok _ _ _ Hget).
  unfold insert_report, emit, bind, ret. simpl. rewrite Hins. reflexivity.
Qed.

Lemma complete_database_refusal_witness :
  route_complete database_down 0
    (demo_request (Some (JObj [("report_id", JStr "r-1")]))) initial_world
  = (Returned (json (JObj [("error", JStr "Failed to create report");
                           ("details", JStr "connection refused")]) 500),
     add_trace verified_world
       [EvInsert (reportData_of (JObj [("report_id", JStr "r-1")]) "user-1")]).
Proof.
  apply (complete_database_refusal database_down 0
           (demo_request (Some (JObj [("report_id", JStr "r-1")])))
           initial_world verified_world demo_url "user-1" demo_payload);
    [reflexivity|discriminate|reflexivity|reflexivity|reflexivity|reflexivity
    |left; reflexivity|left; reflexivity|reflexivity].
Defined.

(** X16.  [/reports/complete] never asks the storage service for anything
    and draws no identifier -- it does not look at the blobs its paths
    name -- and it hands at most one row to the database, which is the
    only row that can join the table. *)
Theorem complete_requests_no_grant (sv : Services) (q : Request)
    (w w' : World) (o : outcome Response) :
  req_route q = PostReportsComplete ->
  app sv q w = (o, w') ->
  storage_requests (trace w') = storage_requests (trace w) /\
  draws (trace w') = draws (trace w) /\
  ((insertions (trace w') = insertions (trace w) /\
    reports_table w' = reports_table w) \/
   exists row,
     insertions (trace w') = (insertions (trace w) ++ [row])%list /\
     (reports_table w' = reports_table w \/
      reports_table w' = (reports_table w ++ [row])%list)).
Proof.
  intros Hr H. unfold app in H. rewrite Hr in H. unfold route_complete in H.
  destruct (protected_route _ _ _ _ _ _ _ H)
    as (r & _ & [(-> & _)|[(url & m & _ & _ & Hv & _)
                          |(url & s & p & w1 & o1 & _ & _ & Hv & _ & Hh & _)]]).
  - auto.
  - destruct (verifyToken_services _ _ _ _ _ _ _ Hv) as (Hst & Hi & Hd).
    pose proof (verifyToken_table _ _ _ _ _ _ _ Hv). auto.
  - destruct (verifyToken_services _ _ _ _ _ _ _ Hv) as (Hst & Hi & Hd).
    pose proof (verifyToken_table _ _ _ _ _ _ _ Hv) as Ht.
    destruct (complete_handler_outcome _ _ _ _ _ Hh)
      as [[-> _]|(uid & parsed & _ & _ & _ & _ & -> & _)]; [auto|].
    unfold after_insert. cbn [trace reports_table].
    destruct (projections_app (trace w1)
                [EvInsert (reportData_of parsed uid)])
      as (-> & -> & -> & _).
    simpl. rewrite !app_nil_r, Hst, Hi, Hd, Ht.
    repeat split. right. exists (reportData_of parsed uid).
    split; [reflexivity|].
    destruct (insert_error sv (reports_table w) (reportData_of parsed uid));
      auto.
Qed.

Lemma complete_requests_no_grant_witness :
  storage_requests
    (trace (snd (app demo_services
                   (request PostReportsComplete (Some "Bearer good.jwt")
                      (Some (JObj [("report_id", JStr "r-1");
                                   ("video_path", JStr "never/uploaded.avi")]))
                      0 "uuid-1") initial_world))) = [].
Proof.
  exact (proj1 (complete_requests_no_grant demo_services
                  (request PostReportsComplete (Some "Bearer good.jwt")
                     (Some (JObj [("report_id", JStr "r-1");
                                  ("video_path", JStr "never/uploaded.avi")]))
                     0 "uuid-1") initial_world _ _ eq_refl eq_refl)).
Defined.

(** X17.  The row a 201 persists is well formed: it has a non-empty
    owner, a truthy identifier, [forwarded_to_modulate] false, and no
    column is undefined.  [targeted] and the two clip offsets are stored as
    given whenever the body has them -- [false] and [0] included -- while
    the text columns, written with [|| null], store null for an empty
    string. *)
Theorem persisted_row_shape (sv : Services) (now : Z) (c : Context)
    (w w' : World) (r : Response) (row : ReportData) :
  route_complete sv now c w = (Returned r, w') ->
  status r = 201 ->
  reports_table w' = (reports_table w ++ [row])%list ->
  row_well_formed row /\
  forall parsed,
    req_json c = Some parsed ->
    (field parsed "targeted" <> JUndefined ->
     targeted row = field parsed "targeted") /\
    (field parsed "clip_start_offset_sec" <> JUndefined ->
     clip_start_offset_sec row = field parsed "clip_start_offset_sec") /\
    (field parsed "clip_end_offset_sec" <> JUndefined ->
     clip_end_offset_sec row = field parsed "clip_end_offset_sec") /\
    (ToBoolean (field parsed "description") = false ->
     description row = JNull) /\
    (ToBoolean (field parsed "desired_action") = false ->
     desired_action row = JNull) /\
    (ToBoolean (field parsed "description") = true ->
     description row = field parsed "description").
Proof.
  intros H Hs Ht.
  destruct (route_complete_created sv now c w w' r H Hs)
    as (url & s & p & w1 & parsed & _ & Hv & Hb & Hr & Ht' & _).
  rewrite Ht' in Ht. apply app_inv_head in Ht. injection Ht as <-.
  split.
  - apply reportData_of_well_formed; [|exact Hr].
    eapply verifyToken_subject, Hv.
  - intros parsed' Hb'. rewrite Hb in Hb'. injection Hb' as <-.
    unfold reportData_of. simpl. unfold or_null.
    repeat split.
    + destruct (field parsed "targeted"); try reflexivity. now intros [].
    + destruct (field parsed "clip_start_offset_sec"); try reflexivity.
      now intros [].
    + destruct (field parsed "clip_end_offset_sec"); try reflexivity.
      now intros [].
    + now intros ->.
    + now intros ->.
    + now intros ->.
Qed.

Lemma persisted_row_shape_witness :
  exists row,
    reports_table
      (snd (route_complete demo_services 0
              (demo_request
                 (Some (JObj [("report_id", JStr "r-1");
                              ("targeted", JBool false);
                              ("clip_start_offset_sec", JNum 0);
                              ("description", JStr "")])))
              initial_world)) = [row] /\
    targeted row = JBool false /\
    clip_start_offset_sec row = JNum 0 /\
    description row = JNull.
Proof.
  eexists. split; [reflexivity|].
  destruct (persisted_row_shape demo_services 0
              (demo_request
                 (Some (JObj [("report_id", JStr "r-1");
                              ("targeted", JBool false);
                              ("clip_start_offset_sec", JNum 0);
                              ("description", JStr "")])))
              initial_world _ _ _ eq_refl eq_refl eq_refl) as [_ Hshape].
  destruct (Hshape _ eq_refl) as (Ht & Hc & _ & Hd & _).
  split; [apply Ht; discriminate|].
  split; [apply Hc; discriminate|apply Hd; reflexivity].
Defined.

(* ================================================================== *)
(** ** Many requests *)

Lemma serve_cons (sv : Services) (q : Request) (qs : list Request) (w : World) :
  snd (serve sv (q :: qs) w) = snd (serve sv qs (snd (app sv q w))).
Proof.
  simpl. destruct (app sv q w) as [o w1]. simpl.
  destruct (serve sv qs w1) as [os w2]. reflexivity.
Qed.

(** X18.  Over any sequence of requests the reports table only grows, by
    at most one row per [/reports/complete] request, and if every row was
    well formed before, every row is well formed after: rows are never
    updated or deleted, and none is written without an owner. *)
Theorem serve_table_append_only (sv : Services) (qs : list Request)
    (w : World) :
  Forall row_well_formed (reports_table w) ->
  let w' := snd (serve sv qs w) in
  Forall row_well_formed (reports_table w') /\
  exists added,
    reports_table w' = (reports_table w ++ added)%list /\
    (length added <= completions qs)%nat.
Proof.
  revert w. induction qs as [|q qs IH]; intros w Hwf; cbv zeta.
  - simpl. split; [exact Hwf|]. exists []. split; [now rewrite app_nil_r|].
    apply Nat.le_0_l.
  - rewrite serve_cons.
    destruct (app sv q w) as [o w1] eqn:Ha. cbn [snd].
    destruct (app_table _ _ _ _ _ Ha) as [Ht|(Hr & row & Ht & Hrow & _)].
    + rewrite <- Ht in Hwf.
      destruct (IH w1 Hwf) as (Hwf' & added & Hadd & Hlen).
      split; [exact Hwf'|]. exists added. rewrite <- Ht. split; [exact Hadd|].
      unfold completions in *. simpl.
      destruct (req_route q); simpl; lia.
    + assert (Hwf1 : Forall row_well_formed (reports_table w1)).
      { rewrite Ht. apply Forall_app. split; [exact Hwf|]. now constructor. }
      destruct (IH w1 Hwf1) as (Hwf' & added & Hadd & Hlen).
      split; [exact Hwf'|]. exists (row :: added).
      split; [rewrite Hadd, Ht, <- app_assoc; reflexivity|].
      unfold completions in *. simpl. rewrite Hr. simpl. lia.
Qed.

Lemma serve_table_append_only_witness :
  let w' := snd (serve demo_services
                   [request PostReportsInit (Some "Bearer good.jwt") None 0
                      "uuid-1";
                    request PostReportsComplete (Some "Bearer good.jwt")
                      (Some (JObj [("report_id", JStr "uuid-1")])) 10 "";
                    request PostReportsComplete (Some "Bearer forged.jwt")
                      (Some (JObj [("report_id", JStr "uuid-2")])) 20 ""]
                   initial_world) in
  Forall row_well_formed (reports_table w') /\
  exists added,
    reports_table w' = (reports_table initial_world ++ added)%list /\
    (length added <= 2)%nat.
Proof.
  apply (serve_table_append_only demo_services
           [request PostReportsInit (Some "Bearer good.jwt") None 0 "uuid-1";
            request PostReportsComplete (Some "Bearer good.jwt")
              (Some (JObj [("report_id", JStr "uuid-1")])) 10 "";
            request PostReportsComplete (Some "Bearer forged.jwt")
              (Some (JObj [("report_id", JStr "uuid-2")])) 20 ""]
           initial_world).
  constructor.
Defined.

(** Requests served while the cached key set is fresh fetch nothing. *)
Lemma serve_fresh_cache (sv : Services) (qs : list Request) (w : World) :
  (forall q, In q qs -> needs_refresh (jwksCache w) (req_now q) = false) ->
  jwksCache (snd (serve sv qs w)) = jwksCache w /\
  fetches (trace (snd (serve sv qs w))) = fetches (trace w).
Proof.
  revert w. induction qs as [|q qs IH]; intros w Hfresh.
  - auto.
  - rewrite serve_cons.
    destruct (app sv q w) as [o w1] eqn:Ha. cbn [snd].
    destruct (app_cache _ _ _ _ _ Ha) as [[Hc Hf]|(Hn & _)].
    + destruct (IH w1) as [Hc' Hf'].
      * intros q' Hq'. rewrite Hc. apply Hfresh. now right.
      * rewrite Hc', Hf', Hc, Hf. auto.
    + rewrite Hfresh in Hn by now left. discriminate Hn.
Qed.

(** X19.  Over any sequence of requests whose clock readings lie within
    one TTL of each other, a remote key set is created at most once,
    however many requests there are and whichever routes they take. *)
Theorem serve_fetches_once_per_window (sv : Services) (qs : list Request)
    (w : World) :
  (forall q1 q2, In q1 qs -> In q2 qs ->
                 req_now q2 - req_now q1 <= JWKS_CACHE_TTL) ->
  (fetches (trace (snd (serve sv qs w))) <= fetches (trace w) + 1)%nat.
Proof.
  revert w. induction qs as [|q qs IH]; intros w Hwin.
  - simpl. lia.
  - rewrite serve_cons.
    destruct (app sv q w) as [o w1] eqn:Ha. cbn [snd].
    destruct (app_cache _ _ _ _ _ Ha) as [[_ Hf]|(_ & (keys & Hc) & Hf)].
    + rewrite <- Hf. apply IH.
      intros q1 q2 H1 H2. apply Hwin; now right.
    + destruct (serve_fresh_cache sv qs w1) as [_ Hf'].
      * intros q' Hq'. rewrite Hc. unfold needs_refresh. simpl.
        rewrite Z.gtb_ltb. apply Z.ltb_ge.
        apply Hwin; [now left|now right].
      * rewrite Hf', Hf. lia.
Qed.

Lemma serve_fetches_once_per_window_witness :
  (fetches
     (trace (snd (serve demo_services
                    [request PostReportsInit (Some "Bearer good.jwt") None 0
                       "uuid-1";
                     request PostReports (Some "Bearer forged.jwt") None
                       1800000 "";
                     request PostReportsComplete (Some "Bearer good.jwt")
                       (Some (JObj [("report_id", JStr "uuid-1")])) 3600000 ""]
                    initial_world)))
   <= fetches (trace initial_world) + 1)%nat.
Proof.
  apply (serve_fetches_once_per_window demo_services
           [request PostReportsInit (Some "Bearer good.jwt") None 0 "uuid-1";
            request PostReports (Some "Bearer forged.jwt") None 1800000 "";
            request PostReportsComplete (Some "Bearer good.jwt")
              (Some (JObj [("report_id", JStr "uuid-1")])) 3600000 ""]
           initial_world).
  intros q1 q2 [<-|[<-|[<-|[]]]] [<-|[<-|[<-|[]]]]; vm_compute; discriminate.
Defined.

(** X20.  With a database that enforces the primary key, an identifier
    is persisted once: after a [/reports/complete] has stored a row, a
    later one whose body names the same [report_id] -- from the same
    caller or another -- is not answered 201 and leaves the table as it
    is. *)
Theorem complete_same_identifier_twice (sv : Services) (now1 now2 : Z)
    (c1 c2 : Context) (w w1 w2 : World) (r1 r2 : Response)
    (parsed1 parsed2 : JsValue) :
  rejects_duplicates sv ->
  route_complete sv now1 c1 w = (Returned r1, w1) ->
  status r1 = 201 ->
  req_json c1 = Some parsed1 ->
  req_json c2 = Some parsed2 ->
  field parsed2 "report_id" = field parsed1 "report_id" ->
  route_complete sv now2 c2 w1 = (Returned r2, w2) ->
  status r2 <> 201 /\ reports_table w2 = reports_table w1.
Proof.
  intros Hdup H1 Hs1 Hb1 Hb2 Hid H2.
  destruct (route_complete_created sv now1 c1 w w1 r1 H1 Hs1)
    as (url & s & p & w0 & parsed & _ & _ & Hb & _ & Ht & _).
  rewrite Hb1 in Hb. injection Hb as <-.
  assert (Hq : app sv {| req_route := PostReportsComplete; req_context := c2;
                         req_now := now2; req_uuid := "" |} w1
               = (Returned r2, w2)) by exact H2.
  destruct (app_table _ _ _ _ _ Hq) as [Hsame|(_ & row & Hgrow & _ & Hins)].
  - split; [|exact Hsame]. intros Hs2.
    destruct (route_complete_created sv now2 c2 w1 w2 r2 H2 Hs2)
      as (url2 & s2 & p2 & w3 & parsed & _ & _ & _ & _ & Ht2 & _).
    rewrite Hsame in Ht2. rewrite <- (app_nil_r (reports_table w1)) in Ht2 at 1.
    apply app_inv_head in Ht2. discriminate Ht2.
  - exfalso.
    assert (Hs2 : status r2 = 201).
    { unfold route_complete in H2.
      destruct (protected_route _ _ _ _ _ _ _ H2)
        as (r & Hr & [(-> & _)|[(url2 & m & _ & _ & Hv & _)
                   |(url2 & s2 & p2 & w3 & o1 & _ & _ & Hv & _ & Hh & Ho)]]);
        injection Hr as <-.
      - rewrite <- (app_nil_r (reports_table w1)) in Hgrow at 1.
        apply app_inv_head in Hgrow. discriminate Hgrow.
      - rewrite (verifyToken_table _ _ _ _ _ _ _ Hv) in Hgrow.
        rewrite <- (app_nil_r (reports_table w1)) in Hgrow at 1.
        apply app_inv_head in Hgrow. discriminate Hgrow.
      - pose proof (verifyToken_table _ _ _ _ _ _ _ Hv) as Ht3.
        destruct (complete_handler_outcome _ _ _ _ _ Hh)
          as [[-> _]|(uid & parsed & _ & _ & _ & _ & -> & ->)].
        + rewrite Ht3 in Hgrow.
          rewrite <- (app_nil_r (reports_table w1)) in Hgrow at 1.
          apply app_inv_head in Hgrow. discriminate Hgrow.
        + destruct Ho as [Ho|(m & Ho & _)]; [|discriminate Ho].
          injection Ho as <-.
          unfold after_insert in Hgrow. simpl in Hgrow.
          destruct (insert_error sv (reports_table w3)
                      (reportData_of parsed uid)); [|reflexivity].
          rewrite Ht3 in Hgrow.
          rewrite <- (app_nil_r (reports_table w1)) in Hgrow at 1.
          apply app_inv_head in Hgrow. discriminate Hgrow. }
    destruct (route_complete_created sv now2 c2 w1 w2 r2 H2 Hs2)
      as (url2 & s2 & p2 & w3 & parsed & _ & _ & Hb & _ & Ht2 & _).
    rewrite Hb2 in Hb. injection Hb as <-.
    rewrite Hgrow in Ht2. apply app_inv_head in Ht2. injection Ht2 as ->.
    apply (Hdup (reports_table w1) (reportData_of parsed2 s2)); [|exact Hins].
    exists (reportData_of parsed1 s). split.
    + rewrite Ht. apply in_or_app. right. now left.
    + simpl. now rewrite Hid.
Qed.

Lemma strict_services_reject_duplicates : rejects_duplicates strict_services.
Proof.
  intros table row (stored & Hin & Hid). simpl.
  destruct (existsb _ table) eqn:E; [discriminate|].
  exfalso.
  assert (Hex : existsb (fun stored0 =>
                           (ToString (id stored0) =? ToString (id row))%string)
                  table = true).
  { apply existsb_exists. exists stored. split; [exact Hin|].
    rewrite Hid. apply String.eqb_refl. }
  rewrite Hex in E. discriminate E.
Qed.

Lemma complete_same_identifier_twice_witness :
  let first := route_complete strict_services 0
                 (demo_request (Some (JObj [("report_id", JStr "r-1")])))
                 initial_world in
  let second := route_complete strict_services 10
                  {| authorization := Some "Bearer other.jwt";
                     req_json := Some (JObj [("report_id", JStr "r-1");
                                             ("description", JStr "mine now")]);
                     env := demo_env;
                     userId := None |}
                  (snd first) in
  status_of first = Some 201 /\
  status_of second <> Some 201 /\
  reports_table (snd second) = reports_table (snd first).
Proof.
  intros first second. split; [reflexivity|].
  destruct second as [[r2|e] w2] eqn:E2; [|discriminate E2].
  destruct (complete_same_identifier_twice strict_services 0 10
              (demo_request (Some (JObj [("report_id", JStr "r-1")])))
              {| authorization := Some "Bearer other.jwt";
                 req_json := Some (JObj [("report_id", JStr "r-1");
                                         ("description", JStr "mine now")]);
                 env := demo_env;
                 userId := None |}
              initial_world (snd first) w2
              (json (JObj [("ok", JBool true); ("report_id", JStr "r-1")]) 201)
              r2 _ _
              strict_services_reject_duplicates eq_refl eq_refl eq_refl
              eq_refl eq_refl E2) as [Hs Ht].
  split; [|exact Ht].
  unfold status_of. simpl. intros [= Hs']. now apply Hs.
Defined.

(** X21.  The legacy [POST /reports] sits behind the same middleware and
    does nothing else: a verified caller is told, with 400, to use the two
    new routes, whatever the body, and the world is as the verifier left
    it. *)
Theorem legacy_route_redirects (sv : Services) (now : Z) (c : Context)
    (w w1 : World) (url s : string) (p : JWTPayload) :
  SUPABASE_URL (env c) = Some url -> url <> "" ->
  verifyToken sv (authorization c) url now w = (Returned (s, p), w1) ->
  route_legacy sv now c w
  = (Returned (json (error_body "Use /reports/init and /reports/complete")
                 400), w1).
Proof.
  intros Hu Hne Hv. unfold route_legacy.
  now rewrite (authMiddleware_verified _ _ _ _ _ _ _ _ _ Hu Hne Hv).
Qed.

Lemma legacy_route_redirects_witness :
  route_legacy demo_services 0
    (demo_request (Some (JObj [("report_id", JStr "r-1")]))) initial_world
  = (Returned (json (error_body "Use /reports/init and /reports/complete")
                 400), verified_world).
Proof.
  apply (legacy_route_redirects demo_services 0
           (demo_request (Some (JObj [("report_id", JStr "r-1")])))
           initial_world verified_world demo_url "user-1" demo_payload);
    [reflexivity|discriminate|reflexivity].
Defined.

(** The owner of a row that a request added to the table is the subject
    of the token that request carried. *)
Lemma app_row_owner (sv : Services) (q : Request) (w w' : World)
    (o : outcome Response) (row : ReportData) :
  app sv q w = (o, w') ->
  reports_table w' = (reports_table w ++ [row])%list ->
  req_route q = PostReportsComplete /\
  exists token keys p,
    authorization (req_context q) = Some ("Bearer " ++ token) /\
    jws_verify sv token keys = Some p /\
    sub p = Some (user_id row).
Proof.
  intros Ha Hgrow.
  assert (Hno : reports_table w' <> reports_table w).
  { rewrite Hgrow. intros E.
    rewrite <- (app_nil_r (reports_table w)) in E at 2.
    apply app_inv_head in E. discriminate E. }
  destruct (app_table _ _ _ _ _ Ha) as [Hsame|(Hr & _)];
    [now destruct Hno|].
  split; [exact Hr|]. unfold app in Ha. rewrite Hr in Ha.
  unfold route_complete in Ha.
  destruct (protected_route _ _ _ _ _ _ _ Ha)
    as (r & _ & [(Hw & _)|[(url & m & _ & _ & Hv & _)
                          |(url & s & p & w1 & o1 & _ & _ & Hv & _ & Hh & _)]]).
  - rewrite Hw in Hno. now destruct Hno.
  - now destruct (Hno (verifyToken_table _ _ _ _ _ _ _ Hv)).
  - pose proof (verifyToken_table _ _ _ _ _ _ _ Hv) as Ht.
    destruct (complete_handler_outcome _ _ _ _ _ Hh)
      as [[Hw _]|(uid & parsed & Hu & _ & _ & _ & Hw & _)].
    + rewrite Hw in Hno. now destruct (Hno Ht).
    + simpl in Hu. injection Hu as <-.
      rewrite Hw in Hgrow. unfold after_insert in Hgrow. simpl in Hgrow.
      rewrite Ht in Hgrow.
      destruct (insert_error sv (reports_table w) (reportData_of parsed s)).
      * rewrite <- (app_nil_r (reports_table w)) in Hgrow at 1.
        apply app_inv_head in Hgrow. discriminate Hgrow.
      * apply app_inv_head in Hgrow. injection Hgrow as <-.
        destruct (verifyToken_returned _ _ _ _ _ _ _ _ Hv)
          as (token & Hh' & _ & keys & w2 & _ & Hsig & _ & _ & _ & Hsub & _).
        exists token, keys, p. auto.
Qed.

(** X22.  Every row that a sequence of requests adds to the reports table
    is attributable: its owner is the subject claim of a token that one
    of the [/reports/complete] requests carried as Bearer token and whose
    signature the verifier checked against a key set. *)
Theorem serve_rows_attributable (sv : Services) (qs : list Request)
    (w : World) (row : ReportData) :
  In row (reports_table (snd (serve sv qs w))) ->
  In row (reports_table w) \/
  exists q token keys p,
    In q qs /\ req_route q = PostReportsComplete /\
    authorization (req_context q) = Some ("Bearer " ++ token) /\
    jws_verify sv token keys = Some p /\
    sub p = Some (user_id row).
Proof.
  revert w. induction qs as [|q qs IH]; intros w Hin.
  - left. exact Hin.
  - rewrite serve_cons in Hin.
    destruct (app sv q w) as [o w1] eqn:Ha. cbn [snd] in Hin.
    destruct (IH w1 Hin) as [Hold|(q' & token & keys & p & Hq & Hrest)].
    + destruct (app_table _ _ _ _ _ Ha) as [Ht|(_ & row' & Ht & _)].
      * left. now rewrite <- Ht.
      * rewrite Ht in Hold. apply in_app_or in Hold as [Hold|[<-|[]]].
        -- left. exact Hold.
        -- right.
           destruct (app_row_owner _ _ _ _ _ _ Ha Ht)
             as (Hr & token & keys & p & Hh & Hsig & Hsub).
           exists q, token, keys, p. repeat split; try assumption. now left.
    + right. exists q', token, keys, p. split; [now right|exact Hrest].
Qed.

Lemma serve_rows_attributable_witness :
  exists row,
    reports_table
      (snd (serve demo_services
              [request PostReportsComplete (Some "Bearer good.jwt")
                 (Some (JObj [("report_id", JStr "r-1");
                              ("user_id", JStr "somebody-else")])) 0 ""]
              initial_world)) = [row] /\
    exists q token keys p,
      In q [request PostReportsComplete (Some "Bearer good.jwt")
              (Some (JObj [("report_id", JStr "r-1");
                           ("user_id", JStr "somebody-else")])) 0 ""] /\
      req_route q = PostReportsComplete /\
      authorization (req_context q) = Some ("Bearer " ++ token) /\
      jws_verify demo_services token keys = Some p /\
      sub p = Some (user_id row).
Proof.
  eexists. split; [reflexivity|].
  destruct (serve_rows_attributable demo_services
              [request PostReportsComplete (Some "Bearer good.jwt")
                 (Some (JObj [("report_id", JStr "r-1");
                              ("user_id", JStr "somebody-else")])) 0 ""]
              initial_world
              (reportData_of (JObj [("report_id", JStr "r-1");
                                    ("user_id", JStr "somebody-else")])
                 "user-1")) as [[]|H].
  - left. reflexivity.
  - exact H.
Defined.

(* ================================================================== *)
(** ** The row of a [/reports/complete] call *)

Lemma not_grown {A} (l : list A) (x : A) : l <> (l ++ [x])%list.
Proof.
  intros E. rewrite <- (app_nil_r l) in E at 1.
  apply app_inv_head in E. discriminate E.
Qed.

(** A row that a [/reports/complete] call added to the table, or handed to
    [insert], is the row built from the body of that call and the subject
    the verifier returned for it. *)
Lemma route_complete_row (sv : Services) (now : Z) (c : Context)
    (w w' : World) (o : outcome Response) (row : ReportData) :
  route_complete sv now c w = (o, w') ->
  reports_table w' = (reports_table w ++ [row])%list \/
  insertions (trace w') = (insertions (trace w) ++ [row])%list ->
  exists parsed url s p w1,
    req_json c = Some parsed /\
    verifyToken sv (authorization c) url now w = (Returned (s, p), w1) /\
    ToBoolean (field parsed "report_id") = true /\
    row = reportData_of parsed s.
Proof.
  intros H Hrow. unfold route_complete in H.
  destruct (protected_route _ _ _ _ _ _ _ H)
    as (r & _ & [(-> & _)|[(url & m & _ & _ & Hv & _)
                          |(url & s & p & w1 & o1 & _ & _ & Hv & _ & Hh & _)]]).
  - exfalso. destruct Hrow as [E|E]; exact (not_grown _ _ E).
  - exfalso.
    destruct (verifyToken_services _ _ _ _ _ _ _ Hv) as (_ & Hi & _).
    rewrite (verifyToken_table _ _ _ _ _ _ _ Hv), Hi in Hrow.
    destruct Hrow as [E|E]; exact (not_grown _ _ E).
  - destruct (verifyToken_services _ _ _ _ _ _ _ Hv) as (_ & Hi & _).
    pose proof (verifyToken_table _ _ _ _ _ _ _ Hv) as Ht.
    destruct (complete_handler_outcome _ _ _ _ _ Hh)
      as [[-> _]|(uid & parsed & Hu & _ & Hb & Hr & -> & _)].
    + exfalso. rewrite Ht, Hi in Hrow.
      destruct Hrow as [E|E]; exact (not_grown _ _ E).
    + simpl in Hu, Hb. injection Hu as <-.
      exists parsed, url, s, p, w1.
      split; [exact Hb|]. split; [exact Hv|]. split; [exact Hr|].
      unfold after_insert in Hrow. cbn [reports_table trace] in Hrow.
      destruct (projections_app (trace w1) [EvInsert (reportData_of parsed s)])
        as (_ & Hins & _).
      rewrite Hins, Hi, Ht in Hrow. simpl in Hrow.
      destruct Hrow as [E|E].
      * destruct (insert_error sv (reports_table w) (reportData_of parsed s)).
        -- exfalso. exact (not_grown _ _ E).
        -- apply app_inv_head in E. now injection E.
      * apply app_inv_head in E. now injection E.
Qed.

(** C5.  In the row that a [/reports/complete] call persists (and in any
    row it hands to the database): when both an audio path and a
    microphone path are supplied, the audio field is the audio path, a
    comma and the microphone path; when only one of the two is supplied
    (the other absent, null or empty), it is that path alone; when neither
    is, it is null.  The video field is the video path, or null when none
    is supplied, whatever the other two are. *)
Theorem complete_path_reconciliation (sv : Services) (now : Z) (c : Context)
    (w w' : World) (o : outcome Response) (row : ReportData) :
  route_complete sv now c w = (o, w') ->
  reports_table w' = (reports_table w ++ [row])%list \/
  insertions (trace w') = (insertions (trace w) ++ [row])%list ->
  exists parsed,
    req_json c = Some parsed /\
    let audio := field parsed "audio_path" in
    let microphone := field parsed "microphone_path" in
    let video := field parsed "video_path" in
    (forall pa pm, supplied audio pa -> supplied microphone pm ->
                   audio_path row = JStr (pa ++ "," ++ pm)) /\
    (forall pa, supplied audio pa -> not_supplied microphone ->
                audio_path row = JStr pa) /\
    (forall pm, not_supplied audio -> supplied microphone pm ->
                audio_path row = JStr pm) /\
    (not_supplied audio -> not_supplied microphone ->
     audio_path row = JNull) /\
    (forall pv, supplied video pv -> video_path row = JStr pv) /\
    (not_supplied video -> video_path row = JNull).
Proof.
  intros H Hrow.
  destruct (route_complete_row _ _ _ _ _ _ _ H Hrow)
    as (parsed & url & s & p & w1 & Hb & _ & _ & ->).
  exists parsed. split; [exact Hb|].
  cbv zeta. unfold reportData_of, audioPaths_of, or_null, supplied,
    not_supplied, Array_join. simpl.
  repeat split.
  - intros pa pm [-> Ha] [-> Hm]. simpl.
    apply String.eqb_neq in Ha as Ha', Hm as Hm'. rewrite Ha', Hm'. simpl.
    now rewrite nonempty_append.
  - intros pa [-> Ha] Hm. simpl.
    apply String.eqb_neq in Ha as Ha'. rewrite Ha'. simpl.
    destruct Hm as [->| [->| ->]]; simpl; now rewrite Ha'.
  - intros pm Ha [-> Hm].
    apply String.eqb_neq in Hm as Hm'.
    destruct Ha as [->| [->| ->]]; simpl; rewrite Hm'; simpl; now rewrite Hm'.
  - intros [->| [->| ->]] [->| [->| ->]]; reflexivity.
  - intros pv [-> Hv]. simpl. apply String.eqb_neq in Hv. now rewrite Hv.
  - intros [->| [->| ->]]; reflexivity.
Qed.

Lemma complete_path_reconciliation_witness :
  exists row,
    reports_table
      (snd (route_complete demo_services 0
              (demo_request
                 (Some (JObj [("report_id", JStr "a");
                              ("audio_path", JStr "a/x.wav");
                              ("microphone_path", JStr "a/y.wav")])))
              initial_world)) = [row] /\
    audio_path row = JStr "a/x.wav,a/y.wav" /\
    video_path row = JNull.
Proof.
  eexists. split; [reflexivity|].
  destruct (complete_path_reconciliation demo_services 0
              (demo_request
                 (Some (JObj [("report_id", JStr "a");
                              ("audio_path", JStr "a/x.wav");
                              ("microphone_path", JStr "a/y.wav")])))
              initial_world _ _ _ eq_refl (or_introl eq_refl))
    as (parsed & Hb & Both & _ & _ & _ & _ & NoVideo).
  injection Hb as <-.
  split.
  - apply (Both "a/x.wav" "a/y.wav"); split; (reflexivity || discriminate).
  - apply NoVideo. left. reflexivity.
Defined.

(* ================================================================== *)
(** ** Report identifiers *)

(** A 200 of [/reports/init] carries the identifier drawn for the request,
    and that draw is the one thing the call added to the draws. *)
Lemma route_init_identifier (sv : Services) (now : Z) (uuid : string)
    (c : Context) (w w' : World) (r : Response) :
  route_init sv now uuid c w = (Returned r, w') ->
  status r = 200 ->
  field (body r) "report_id" = JStr uuid /\
  draws (trace w') = (draws (trace w) ++ [uuid])%list.
Proof.
  intros H Hs.
  destruct (route_init_ok _ _ _ _ _ _ _ H Hs)
    as (url & s & p & w1 & Hv & Hh & Hf & Hcfg & Hget).
  destruct (verifyToken_services _ _ _ _ _ _ _ Hv) as (_ & _ & Hd).
  rewrite <- Hd.
  rewrite (init_handler_run sv uuid (set_userId s c) w1 Hf Hcfg Hget) in Hh.
  cbv zeta in Hh.
  destruct (audio_grant sv uuid);
    [destruct (want_microphone (set_userId s c)), (microphone_grant sv uuid),
       (want_video (set_userId s c)), (video_grant sv uuid)|];
    injection Hh as <- <-; try discriminate Hs;
    (split; [reflexivity|]);
    unfold add_trace; cbn [trace];
    match goal with
    | |- context [(trace w1 ++ ?t)%list] =>
        destruct (projections_app (trace w1) t) as (_ & _ & -> & _)
    end; reflexivity.
Qed.

Lemma serve_answers_cons (sv : Services) (q : Request) (qs : list Request)
    (w : World) :
  fst (serve sv (q :: qs) w)
  = fst (app sv q w) :: fst (serve sv qs (snd (app sv q w))).
Proof.
  simpl. destruct (app sv q w) as [o w1]. simpl.
  destruct (serve sv qs w1) as [os w2]. reflexivity.
Qed.

(** Every identifier a run gives out is the draw of one of its
    [/reports/init] requests, and the identifiers are pairwise distinct
    when those draws are. *)
Lemma issued_identifiers_drawn (sv : Services) (qs : list Request) (w : World) :
  (forall v, In v (issued_identifiers qs (fst (serve sv qs w))) ->
             exists q, In q qs /\ req_route q = PostReportsInit /\
                       v = JStr (req_uuid q)) /\
  (NoDup (map req_uuid (filter is_init qs)) ->
   NoDup (issued_identifiers qs (fst (serve sv qs w)))).
Proof.
  revert w. induction qs as [|q qs IH]; intros w.
  - split; [intros v []|constructor].
  - rewrite serve_answers_cons.
    destruct (app sv q w) as [o w1] eqn:Ha. cbn [fst snd].
    destruct (IH w1) as [IHin IHnd].
    assert (Hrest : forall v,
               In v (issued_identifiers qs (fst (serve sv qs w1))) ->
               exists q', In q' (q :: qs) /\ req_route q' = PostReportsInit /\
                          v = JStr (req_uuid q')).
    { intros v Hv. destruct (IHin v Hv) as (q' & Hq' & Hr' & ->).
      exists q'. split; [now right|auto]. }
    assert (Hnd : NoDup (map req_uuid (filter is_init (q :: qs))) ->
                  NoDup (map req_uuid (filter is_init qs))).
    { simpl. destruct (is_init q); [|auto]. simpl. now inversion 1. }
    destruct o as [r|e]; cbn [issued_identifiers]; [|split; auto].
    destruct (is_init q) eqn:Hi; cbn [andb]; [|split; auto].
    destruct (Z.eqb_spec (status r) 200) as [Hs|Hs]; [|split; auto].
    assert (Hr : req_route q = PostReportsInit).
    { unfold is_init in Hi. destruct (req_route q); (reflexivity || discriminate). }
    assert (Hid : field (body r) "report_id" = JStr (req_uuid q)).
    { unfold app in Ha. rewrite Hr in Ha.
      apply (route_init_identifier _ _ _ _ _ _ _ Ha Hs). }
    rewrite Hid. split.
    + intros v [<-|Hv]; [|auto].
      exists q. split; [now left|auto].
    + intros Hall. constructor; [|auto].
      intros Hin. destruct (IHin _ Hin) as (q' & Hq' & Hr' & Heq).
      injection Heq as Heq.
      simpl in Hall. rewrite Hi in Hall. simpl in Hall.
      inversion Hall as [|? ? Hnotin _]. apply Hnotin.
      rewrite Heq. apply in_map. apply filter_In. split; [exact Hq'|].
      unfold is_init. now rewrite Hr'.
Qed.

(** C9 as it holds.  The Report identifier is generated by the
    Orchestrator in [/reports/init], not by the client: the identifier a
    successful [/reports/init] returns is the fresh draw of the platform's
    random generator made for that request, whatever the request says, and
    over any sequence of requests the identifiers given out are pairwise
    distinct whenever the generator's draws are.  [/reports/complete],
    however, persists the row under the [report_id] that the body
    supplies, and echoes it: the identifier of a persisted row is the
    caller's value, not checked to be one [/reports/init] gave out. *)
Theorem report_identifier_origin (sv : Services) :
  (forall now uuid c w r w',
      route_init sv now uuid c w = (Returned r, w') ->
      status r = 200 ->
      field (body r) "report_id" = JStr uuid /\
      draws (trace w') = (draws (trace w) ++ [uuid])%list) /\
  (forall qs w,
      (forall v, In v (issued_identifiers qs (fst (serve sv qs w))) ->
                 exists q, In q qs /\ req_route q = PostReportsInit /\
                           v = JStr (req_uuid q)) /\
      (NoDup (map req_uuid (filter is_init qs)) ->
       NoDup (issued_identifiers qs (fst (serve sv qs w))))) /\
  (forall now c w r w',
      route_complete sv now c w = (Returned r, w') ->
      status r = 201 ->
      exists parsed row,
        req_json c = Some parsed /\
        reports_table w' = (reports_table w ++ [row])%list /\
        id row = field parsed "report_id" /\
        field (body r) "report_id" = field parsed "report_id").
Proof.
  split; [|split].
  - intros now uuid c w r w'. apply route_init_identifier.
  - intros qs w. apply issued_identifiers_drawn.
  - intros now c w r w' H Hs.
    destruct (route_complete_created sv now c w w' r H Hs)
      as (url & s & p & w1 & parsed & _ & _ & Hb & _ & Ht & _ & Hr).
    exists parsed, (reportData_of parsed s).
    rewrite Hr. repeat split; assumption || reflexivity.
Qed.

Lemma report_identifier_origin_witness :
  (exists r,
      fst (route_init demo_services 0 "3f2c-drawn" (demo_request None)
             initial_world) = Returned r /\
      field (body r) "report_id" = JStr "3f2c-drawn") /\
  NoDup (issued_identifiers
           [request PostReportsInit (Some "Bearer good.jwt") None 0 "draw-1";
            request PostReportsInit (Some "Bearer good.jwt") None 5 "draw-2"]
           (fst (serve demo_services
                   [request PostReportsInit (Some "Bearer good.jwt") None 0
                      "draw-1";
                    request PostReportsInit (Some "Bearer good.jwt") None 5
                      "draw-2"]
                   initial_world))) /\
  exists row,
    reports_table
      (snd (route_complete demo_services 0
              (demo_request
                 (Some (JObj [("report_id", JStr "chosen-by-the-client")])))
              initial_world)) = [row] /\
    id row = JStr "chosen-by-the-client".
Proof.
  destruct (report_identifier_origin demo_services)
    as (Init & Issued & Complete).
  split; [|split].
  - eexists. split; [reflexivity|].
    apply (Init 0 "3f2c-drawn" (demo_request None) initial_world _ _ eq_refl).
    reflexivity.
  - apply Issued. simpl. repeat constructor; simpl; intuition discriminate.
  - destruct (Complete 0
                (demo_request
                   (Some (JObj [("report_id", JStr "chosen-by-the-client")])))
                initial_world _ _ eq_refl eq_refl)
      as (parsed & row & Hb & Ht & Hid & _).
    exists row. split; [exact Ht|].
    injection Hb as <-. exact Hid.
Defined.

(* ================================================================== *)
(** ** Two verifications inside one TTL window *)

(** C8, at two verifications of the same valid token twenty minutes apart
    on a fresh worker.  The first creates the remote key set and caches
    it; the second, well inside the one-hour TTL, finds the cache fresh:
    [getJWKS] creates nothing and hands the same key set to [jwtVerify],
    which is thus called twice with it, twenty minutes apart.  The one-hour
    cache therefore holds only the handle: when the key set is fetched
    over the network is left to that handle, which is jose's and keeps
    fetched keys for ten minutes by default, on each of the two calls. *)
Theorem verify_twice_in_window :
  let first := verifyToken demo_services (Some "Bearer good.jwt") demo_url 0
                 initial_world in
  let second := verifyToken demo_services (Some "Bearer good.jwt") demo_url
                  1200000 (snd first) in
  1200000 - 0 <= JWKS_CACHE_TTL /\
  fst first = Returned ("user-1", demo_payload) /\
  fst second = Returned ("user-1", demo_payload) /\
  jwksCache (snd second)
  = {| jwks := Some (RemoteJWKS (jwks_location demo_url)); timestamp := 0 |} /\
  trace (snd second)
  = [EvCreateRemoteJWKSet (jwks_location demo_url);
     EvJwtVerify "good.jwt";
     EvJwtVerify "good.jwt"].
Proof.
  cbv zeta. split; [vm_compute; discriminate|].
  repeat split.
Qed.
